(** * Devshine Time Tracker: time arithmetic, storage layer, reports, routes

    A shallow embedding of the server side of the time tracker
    ([shared/utils], [shared/schema], [server/storage], [server/routes])
    and the properties its specification states about it.

    Modelling conventions, fixed once and used throughout:

    - A JavaScript number is [jsnum]: either [JNaN] or an exact rational
      [JNum q].  Binary rounding of doubles, the infinities and the
      negative zero are not represented; [toFixed], whose result at a tie
      depends on the double, takes the side of a tie as a parameter.
    - A [Date] is the number of milliseconds since the epoch, an integer;
      the server's local time zone is taken to be UTC, so that a calendar
      day is [t / 86400000] and [setDate(getDate() + n)] adds [n] whole
      days.  Only the weekend test of the create and update endpoints
      takes the zone as a parameter, the offset from UTC at each instant.
      Invalid dates are not represented.  The functions of date-fns
      are written out from their documented behaviour.
    - Wall-clock time ([new Date()]) is an argument [now] of the functions
      that read it.
    - The relational store is a record of two tables, each a list of rows;
      every storage method takes the store and gives the new one back.  An
      asynchronous method either resolves or rejects ([outcome]).  The table
      order is the order in which the database holds the rows: an insert
      puts a row behind the others, and so does an update, which writes the
      row anew; [ORDER BY] leaves rows of equal key in that order, which
      the database does not promise.  Of what the database checks, these
      are represented, each making the method reject: the foreign key of a
      time entry; the 32-bit range of the id that a method updates, checks
      out or deletes by, of the id that the sequence gives and of the break.
      The uniqueness of an email, the range of a decimal and the range of
      the ids that the read queries are given are not; nor is it that an
      insert which the database refuses has used up a value of the
      sequence: a method that rejects leaves the store as it was.
    - A [decimal] column is read back by the driver as a string; its
      truthiness is therefore that of a non-empty string, not of a number,
      and [Number(...)] of it is the number it holds.  The rounding of the
      column to two places on writing is not represented: a row holds the
      number it was given.
    - A loop over dates is run with fuel, and gives [None] when the fuel
      does not suffice; the fuel the callers pass is shown to suffice. *)

From Stdlib Require Import ZArith QArith Qcanon Qabs Qround Lia Lqa List Bool Ascii String.
From Stdlib Require Import DecimalString Sorted Permutation.
From stdpp Require Import base option list gmap.

Local Open Scope string_scope.
Local Open Scope Z_scope.

(* ===================================================================== *)
(** ** JavaScript numbers *)

Module JS.

Inductive jsnum : Type :=
  | JNaN
  | JNum (q : Qc).

Definition ofZ (z : Z) : jsnum := JNum (Q2Qc (inject_Z z)).

Definition add (a b : jsnum) : jsnum :=
  match a, b with
  | JNum x, JNum y => JNum (x + y)%Qc
  | _, _ => JNaN
  end.

Definition sub (a b : jsnum) : jsnum :=
  match a, b with
  | JNum x, JNum y => JNum (x - y)%Qc
  | _, _ => JNaN
  end.

Definition mul (a b : jsnum) : jsnum :=
  match a, b with
  | JNum x, JNum y => JNum (x * y)%Qc
  | _, _ => JNaN
  end.

(** Division.  Every division of the modelled code has a non-zero constant
    or a divisor that the code has just tested to be positive; a zero
    divisor, which JavaScript sends to an infinity or to NaN, is sent to
    [JNaN] here. *)
Definition div (a b : jsnum) : jsnum :=
  match a, b with
  | JNum x, JNum y => if Qc_eq_dec y (Q2Qc 0) then JNaN else JNum (x / y)%Qc
  | _, _ => JNaN
  end.

(** [a <= b] and [a > b] of JavaScript: false as soon as one side is NaN. *)
Definition leb (a b : jsnum) : bool :=
  match a, b with
  | JNum x, JNum y => bool_decide (x <= y)%Qc
  | _, _ => false
  end.

Definition gtb (a b : jsnum) : bool :=
  match a, b with
  | JNum x, JNum y => bool_decide (y < x)%Qc
  | _, _ => false
  end.

(** Truthiness of a number: NaN and zero are falsy. *)
Definition truthy (a : jsnum) : bool :=
  match a with
  | JNaN => false
  | JNum x => if Qc_eq_dec x (Q2Qc 0) then false else true
  end.

(** [a || 0] on numbers. *)
Definition or0 (a : jsnum) : jsnum := if truthy a then a else ofZ 0.

(** Truthiness of a string, and of a possibly missing string. *)
Definition truthy_str (s : string) : bool :=
  match s with EmptyString => false | _ => true end.

Definition truthy_ostr (s : option string) : bool :=
  match s with Some s => truthy_str s | None => false end.

(** *** The string primitives the time utilities use *)

Fixpoint prefixb (p s : string) : bool :=
  match p, s with
  | EmptyString, _ => true
  | String a p', String b s' => if Ascii.eqb a b then prefixb p' s' else false
  | String _ _, EmptyString => false
  end.

(** [s.includes(sub)] *)
Fixpoint includes (sub s : string) : bool :=
  if prefixb sub s then true
  else match s with
       | EmptyString => false
       | String _ s' => includes sub s'
       end.

(** [s.split(sep)] for a separator of one character: the pieces between
    the separators, so always at least one piece. *)
Fixpoint split_aux (sep : ascii) (s : string) (cur : string) : list string :=
  match s with
  | EmptyString => [cur]
  | String c s' =>
      if Ascii.eqb c sep then cur :: split_aux sep s' EmptyString
      else split_aux sep s' (cur ++ String c EmptyString)
  end.

Definition split (sep : ascii) (s : string) : list string :=
  split_aux sep s EmptyString.

Definition is_digit (c : ascii) : bool :=
  let n := N_of_ascii c in (48 <=? n)%N && (n <=? 57)%N.

Definition digit_val (c : ascii) : Z := Z.of_N (N_of_ascii c) - 48.

Definition is_space (c : ascii) : bool :=
  let n := N_of_ascii c in
  (n =? 32)%N || ((9 <=? n)%N && (n <=? 13)%N).

Fixpoint trim_start (s : string) : string :=
  match s with
  | String c s' => if is_space c then trim_start s' else s
  | EmptyString => EmptyString
  end.

Fixpoint rev_string (s acc : string) : string :=
  match s with
  | EmptyString => acc
  | String c s' => rev_string s' (String c acc)
  end.

Definition trim (s : string) : string :=
  rev_string (trim_start (rev_string (trim_start s) EmptyString)) EmptyString.

(** The digits at the front of [s], read in base ten, and how many there
    were. *)
Fixpoint digits_prefix (s : string) (acc : Z) (n : nat) : Z * nat * string :=
  match s with
  | String c s' =>
      if is_digit c then digits_prefix s' (10 * acc + digit_val c) (S n)
      else (acc, n, s)
  | EmptyString => (acc, n, s)
  end.

Definition signed_rest (s : string) : Z * string :=
  match s with
  | String "-"%char s' => (-1, s')
  | String "+"%char s' => (1, s')
  | _ => (1, s)
  end.

(** [parseInt(s, 10)]: leading white space, an optional sign, then the
    longest run of digits; [None] is NaN. *)
Definition parseInt (s : string) : option Z :=
  let '(sg, r) := signed_rest (trim_start s) in
  let '(v, n, _) := digits_prefix r 0 0%nat in
  match n with
  | O => None
  | _ => Some (sg * v)
  end.

(** [Number(s)] on the decimal integers: white space is trimmed, the empty
    string is 0, an optionally signed run of digits is its value.  The other
    numeric literals of JavaScript (fractions, exponents, the 0x, 0o and 0b
    forms, Infinity) are outside the modelled fragment and read as NaN. *)
Definition Number (s : string) : jsnum :=
  let t := trim s in
  match t with
  | EmptyString => ofZ 0
  | _ =>
      let '(sg, r) := signed_rest t in
      let '(v, n, rest) := digits_prefix r 0 0%nat in
      match n, rest with
      | S _, EmptyString => ofZ (sg * v)
      | _, _ => JNaN
      end
  end.

(** [n.toString()] for an integer. *)
Definition Z_toString (z : Z) : string := NilZero.string_of_int (Z.to_int z).

Definition toString (a : jsnum) : string :=
  match a with
  | JNaN => "NaN"
  | JNum q =>
      (* integers only: the time utilities print nothing else *)
      Z_toString (Qnum (this q) / Zpos (Qden (this q)))
  end.

(** [s.padStart(2, "0")] *)
Definition padStart2 (s : string) : string :=
  match String.length s with
  | 0%nat => "00"
  | 1%nat => "0" ++ s
  | _ => s
  end.

End JS.

Import JS.

(* ===================================================================== *)
(** ** shared/utils: the time arithmetic *)

(** [formatTimeForInput]: a 12-hour string with an AM/PM suffix becomes a
    24-hour one; anything else is returned as it is.  In the template
    literal a missing [minutes] prints as "undefined". *)
Definition formatTimeForInput (timeString : string) : string :=
  if negb (truthy_str timeString) then ""
  else if includes "AM" timeString || includes "PM" timeString then
    let parts := split " "%char timeString in
    let timePart := nth 0 parts "" in
    let period := nth_error parts 1 in
    let hm := split ":"%char timePart in
    let hours := nth 0 hm "" in
    let minutes := match nth_error hm 1 with Some m => m | None => "undefined" end in
    let hourNum := parseInt hours in
    let hourNum' :=
      match hourNum with
      | Some h =>
          if bool_decide (period = Some "PM") && (h <? 12) then Some (h + 12)
          else if bool_decide (period = Some "AM") && (h =? 12) then Some 0
          else Some h
      | None => None
      end in
    let hs := match hourNum' with Some h => Z_toString h | None => "NaN" end in
    padStart2 hs ++ ":" ++ minutes
  else timeString.

(** [timeToMinutes]: the first two pieces around ":" as numbers; a missing
    second piece is [undefined], which makes the sum NaN. *)
Definition timeToMinutes (timeString : string) : jsnum :=
  let formattedTime := formatTimeForInput timeString in
  let parts := map Number (split ":"%char formattedTime) in
  let hours := nth 0 parts JNaN in
  let minutes := nth 1 parts JNaN in
  add (mul hours (ofZ 60)) minutes.

(** [calculateTotalHours]; [None] for a time is a missing (null or
    undefined) argument, [None] as result is [null]. *)
Definition calculateTotalHours
    (checkInTime checkOutTime : option string) (breakMinutes : Z) : option jsnum :=
  if negb (truthy_ostr checkInTime) || negb (truthy_ostr checkOutTime) then None
  else
    let checkInMinutes := timeToMinutes (default "" checkInTime) in
    let checkOutMinutes := timeToMinutes (default "" checkOutTime) in
    if leb checkOutMinutes checkInMinutes then
      Some (div (sub (sub (add (ofZ (24 * 60)) checkOutMinutes) checkInMinutes)
                     (ofZ breakMinutes)) (ofZ 60))
    else
      Some (div (sub (sub checkOutMinutes checkInMinutes) (ofZ breakMinutes))
                (ofZ 60)).

(** [formatTime]: 24-hour to 12-hour.  [minutes.toString()] on a missing
    second piece throws; [None] is that exception. *)
Definition formatTime (time : string) : option string :=
  if negb (truthy_str time) then Some ""
  else if includes "AM" time || includes "PM" time then Some time
  else
    let parts := map Number (split ":"%char time) in
    let hours := nth 0 parts JNaN in
    match nth_error parts 1 with
    | None => None
    | Some minutes =>
        let period := if leb (ofZ 12) hours then "PM" else "AM" in
        let displayHours :=
          match hours with
          | JNum q =>
              let h := Qnum (this q) / Zpos (Qden (this q)) in
              let r := Z.rem h 12 in
              if r =? 0 then 12 else r
          | JNaN => 12
          end in
        Some (Z_toString displayHours ++ ":" ++ padStart2 (toString minutes)
              ++ " " ++ period)
    end.

(* ===================================================================== *)
(** ** Dates: the part of [Date] and of date-fns that the server uses *)

Module DateFns.

Definition msPerDay : Z := 86400000.

(** The calendar day of an instant, counted from 1970-01-01. *)
Definition dayOf (t : Z) : Z := t / msPerDay.

(** Milliseconds elapsed since the start of the day. *)
Definition timeOfDay (t : Z) : Z := t mod msPerDay.

(** [setHours(0,0,0,0)] and [setHours(23,59,59,999)] *)
Definition startOfDay (t : Z) : Z := dayOf t * msPerDay.
Definition endOfDay (t : Z) : Z := dayOf t * msPerDay + (msPerDay - 1).

(** [getDay()]: 0 is Sunday; 1970-01-01 was a Thursday. *)
Definition getDay (t : Z) : Z := (dayOf t + 4) mod 7.

(** [d.setDate(d.getDate() + n)] *)
Definition addDays (t n : Z) : Z := t + n * msPerDay.
Definition subDays (t n : Z) : Z := addDays t (- n).

Definition getHours (t : Z) : Z := timeOfDay t / 3600000.
Definition getMinutes (t : Z) : Z := (timeOfDay t mod 3600000) / 60000.

(** [startOfWeek(d, { weekStartsOn })] *)
Definition startOfWeek (weekStartsOn : Z) (t : Z) : Z :=
  let day := getDay t in
  let diff := (if day <? weekStartsOn then 7 else 0) + day - weekStartsOn in
  startOfDay (addDays t (- diff)).

(** [endOfWeek(d, { weekStartsOn })] *)
Definition endOfWeek (weekStartsOn : Z) (t : Z) : Z :=
  let day := getDay t in
  let diff := (if day <? weekStartsOn then -7 else 0) + 6 - (day - weekStartsOn) in
  endOfDay (addDays t diff).

Definition isWeekend (t : Z) : bool :=
  let day := getDay t in (day =? 0) || (day =? 6).

(** Year, month (1..12) and day of the month of a day number, in the
    proleptic Gregorian calendar. *)
Definition civil_from_days (n : Z) : Z * Z * Z :=
  let z := n + 719468 in
  let era := z / 146097 in
  let doe := z - era * 146097 in
  let yoe := (doe - doe / 1460 + doe / 36524 - doe / 146096) / 365 in
  let doy := doe - (365 * yoe + yoe / 4 - yoe / 100) in
  let mp := (5 * doy + 2) / 153 in
  let d := doy - (153 * mp + 2) / 5 + 1 in
  let m := if mp <? 10 then mp + 3 else mp - 9 in
  let y := yoe + era * 400 + (if m <=? 2 then 1 else 0) in
  (y, m, d).

(** The day number of a year, a month in 1..12 and a day of the month; a
    day beyond the end of the month runs into the next one, as in [Date]. *)
Definition days_from_civil (y m d : Z) : Z :=
  let y' := y - (if m <=? 2 then 1 else 0) in
  let era := y' / 400 in
  let yoe := y' - era * 400 in
  let doy := (153 * (if 2 <? m then m - 3 else m + 9) + 2) / 5 + d - 1 in
  let doe := yoe * 365 + yoe / 4 - yoe / 100 + doy in
  era * 146097 + doe - 719468.

Definition getFullYear (t : Z) : Z := fst (fst (civil_from_days (dayOf t))).
Definition getMonth1 (t : Z) : Z := snd (fst (civil_from_days (dayOf t))).
Definition getDate (t : Z) : Z := snd (civil_from_days (dayOf t)).

(** The first instant of the month of [t]. *)
Definition startOfMonth (t : Z) : Z :=
  days_from_civil (getFullYear t) (getMonth1 t) 1 * msPerDay.

(** The year and month that follow a year and month. *)
Definition next_month (y m : Z) : Z * Z :=
  if m =? 12 then (y + 1, 1) else (y, m + 1).

(** The last instant of the month of [t]. *)
Definition endOfMonth (t : Z) : Z :=
  let '(y, m) := next_month (getFullYear t) (getMonth1 t) in
  days_from_civil y m 1 * msPerDay - 1.

(** [d.setMonth(d.getMonth() + 1)]: same day of the month and time of day
    one month later, a day past the end of that month running over. *)
Definition setNextMonth (t : Z) : Z :=
  let '(y, m) := next_month (getFullYear t) (getMonth1 t) in
  days_from_civil y m (getDate t) * msPerDay + timeOfDay t.

Definition month_short (m : Z) : string :=
  nth (Z.to_nat (m - 1))
    ["Jan"; "Feb"; "Mar"; "Apr"; "May"; "Jun";
     "Jul"; "Aug"; "Sep"; "Oct"; "Nov"; "Dec"] "".

Definition month_long (m : Z) : string :=
  nth (Z.to_nat (m - 1))
    ["January"; "February"; "March"; "April"; "May"; "June"; "July";
     "August"; "September"; "October"; "November"; "December"] "".

Definition weekday_short (day : Z) : string :=
  nth (Z.to_nat day) ["Sun"; "Mon"; "Tue"; "Wed"; "Thu"; "Fri"; "Sat"] "".

(** [format(d, "MMM d")], the short date of the weekly labels *)
Definition format_MMM_d (t : Z) : string :=
  month_short (getMonth1 t) ++ " " ++ Z_toString (getDate t).

(** [format(d, "EEE, MMM d")] *)
Definition format_EEE_MMM_d (t : Z) : string :=
  weekday_short (getDay t) ++ ", " ++ format_MMM_d t.

(** [format(d, "MMMM yyyy")], for the years of four digits *)
Definition format_MMMM_yyyy (t : Z) : string :=
  month_long (getMonth1 t) ++ " " ++ Z_toString (getFullYear t).

(** [format(d, "yyyy-MM-dd")] is used only as the key of a calendar day in
    a [Map]; the key is represented by the day number it names.  In the same
    way [format(d, "yyyy-MM")] is represented by the number of the month,
    counted in months. *)
Definition key_yyyy_MM_dd (t : Z) : Z := dayOf t.
Definition key_yyyy_MM (t : Z) : Z := getFullYear t * 12 + (getMonth1 t - 1).

(** An instant given by calendar fields, for writing examples. *)
Definition mkDate (y m d hh mm : Z) : Z :=
  days_from_civil y m d * msPerDay + hh * 3600000 + mm * 60000.

End DateFns.

Import DateFns.

(* ===================================================================== *)
(** ** shared/schema: the rows and the inputs of the storage layer *)

(** A row of [employees]; its two timestamps play no part below. *)
Module Employee.
Record t : Type := mk
  { id : Z; name : string; email : string; position : string;
    status : string }.
End Employee.

(** A row of [time_entries].  [totalHours] is the [decimal] column:
    [None] is NULL. *)
Module TimeEntry.
Record t : Type := mk
  { id : Z;
    employeeId : Z;
    date : Z;
    checkInTime : string;
    checkOutTime : option string;
    breakMinutes : option Z;
    totalHours : option jsnum;
    createdAt : Z;
    updatedAt : Z }.
End TimeEntry.

(** [InsertTimeEntry]; [None] is an absent (undefined) field.  The routes
    pass [checkInTime] on unchecked, so it may be absent too. *)
Module InsertTimeEntry.
Record t : Type := mk
  { employeeId : Z;
    date : Z;
    checkInTime : option string;
    checkOutTime : option string;
    breakMinutes : option Z;
    totalHours : option jsnum;
    createdAt : option Z;
    updatedAt : option Z }.
End InsertTimeEntry.

(** [Partial<InsertTimeEntry>] *)
Module PartialTimeEntry.
Record t : Type := mk
  { employeeId : option Z;
    date : option Z;
    checkInTime : option string;
    checkOutTime : option string;
    breakMinutes : option Z;
    totalHours : option jsnum;
    createdAt : option Z;
    updatedAt : option Z }.
End PartialTimeEntry.

(** A time entry as the storage layer returns it: the row and the name of
    its employee, when that employee exists. *)
Definition TimeEntryWithName : Type := (TimeEntry.t * option string)%type.

Record Store : Type := mkStore
  { employees : list Employee.t;
    timeEntries : list TimeEntry.t;
    timeEntries_id_seq : Z }.

(** What an asynchronous method does: it resolves with a value or it
    rejects. *)
Inductive outcome (A : Type) : Type :=
  | Resolved (a : A)
  | Rejected.
Arguments Resolved {A} a.
Arguments Rejected {A}.

(* ===================================================================== *)
(** ** server/storage: time entries *)

(** [between(col, lo, hi)] *)
Definition between (x lo hi : Z) : bool := (lo <=? x) && (x <=? hi).

(** [ORDER BY key], ascending.  Rows of equal key are left in table order
    here; the database promises no order for them, and no property is
    stated of it. *)
Fixpoint insert_by {A : Type} (key : A -> Z) (x : A) (l : list A) : list A :=
  match l with
  | [] => [x]
  | y :: l' => if key x <=? key y then x :: l else y :: insert_by key x l'
  end.

Definition orderBy {A : Type} (key : A -> Z) (l : list A) : list A :=
  foldr (insert_by key) [] l.

Definition orderByDesc {A : Type} (key : A -> Z) (l : list A) : list A :=
  orderBy (fun x => - key x) l.

(** [getEmployeeById], without the [lastCheckIn] it attaches, which nothing
    below reads. *)
Definition getEmployeeById (st : Store) (id : Z) : option Employee.t :=
  List.find (fun e => Employee.id e =? id) (employees st).

Definition withEmployeeName (st : Store) (e : TimeEntry.t) : TimeEntryWithName :=
  (e, option_map Employee.name (getEmployeeById st (TimeEntry.employeeId e))).

Definition findTimeEntry (st : Store) (id : Z) : option TimeEntry.t :=
  List.find (fun e => TimeEntry.id e =? id) (timeEntries st).

Definition getTimeEntryById (st : Store) (id : Z) : option TimeEntryWithName :=
  option_map (withEmployeeName st) (findTimeEntry st id).

(** The values of an [integer] or [serial] column.  A statement with a
    parameter or a value for such a column that lies outside is refused by
    the database, and the method that issued it rejects. *)
Definition int4 (n : Z) : bool := (-2147483648 <=? n) && (n <=? 2147483647).

(** What a lookup by id comes to when it finds no row: the answer [absent]
    for an id of the column's type, a failed query for any other id.  (A
    stored id is of the column's type, so that a query for an id outside it
    finds nothing.) *)
Definition no_row {A : Type} (id : Z) (absent : A) : outcome A :=
  if int4 id then Resolved absent else Rejected.

(** The foreign key [employee_id]: some employee has the id. *)
Definition employee_exists (st : Store) (employeeId : Z) : bool :=
  match getEmployeeById st employeeId with Some _ => true | None => false end.

(** What the database checks of the values written to a time entry, where
    they are given: the employee exists and the break fits its column. *)
Definition writable (st : Store) (employeeId breakMinutes : option Z) : bool :=
  match employeeId with Some i => employee_exists st i | None => true end
  && match breakMinutes with Some b => int4 b | None => true end.

(** [UPDATE ... WHERE ...] on the rows of a table: the rows that match are
    written anew by [f], behind the others. *)
Definition update_rows {A : Type} (matches : A -> bool) (f : A -> A) (rows : list A)
  : list A :=
  (List.filter (fun r => negb (matches r)) rows ++ map f (List.filter matches rows))%list.

(** [createTimeEntry], at wall-clock time [now] (the column defaults).  The
    insert is refused when the sequence has run out of the ids that the id
    column can hold, when no employee has the [employeeId] or when the
    break does not fit its column. *)
Definition createTimeEntry (now : Z) (data : InsertTimeEntry.t) (st : Store)
  : outcome (TimeEntryWithName * Store) :=
  let totalHoursValue :=
    if truthy_ostr (InsertTimeEntry.checkOutTime data) then
      calculateTotalHours (InsertTimeEntry.checkInTime data)
                          (InsertTimeEntry.checkOutTime data)
                          (default 0 (InsertTimeEntry.breakMinutes data))
    else None in
  match formatTime (default "" (InsertTimeEntry.checkInTime data)) with
  | None => Rejected
  | Some formattedCheckInTime =>
      let formatted_out :=
        if truthy_ostr (InsertTimeEntry.checkOutTime data)
        then option_map Some (formatTime (default "" (InsertTimeEntry.checkOutTime data)))
        else Some None in
      match formatted_out with
      | None => Rejected
      | Some formattedCheckOutTime =>
          let timeEntry :=
            TimeEntry.mk
              (timeEntries_id_seq st)
              (InsertTimeEntry.employeeId data)
              (InsertTimeEntry.date data)
              formattedCheckInTime
              formattedCheckOutTime
              (Some (default 0 (InsertTimeEntry.breakMinutes data)))
              totalHoursValue
              (default now (InsertTimeEntry.createdAt data))
              (default now (InsertTimeEntry.updatedAt data)) in
          let st' := mkStore (employees st) (timeEntries st ++ [timeEntry])
                             (timeEntries_id_seq st + 1) in
          if int4 (timeEntries_id_seq st)
             && writable st (Some (InsertTimeEntry.employeeId data))
                         (Some (default 0 (InsertTimeEntry.breakMinutes data)))
          then Resolved (withEmployeeName st' timeEntry, st')
          else Rejected
      end
  end.

(** [a || b] on possibly missing strings *)
Definition or_str (a b : option string) : option string :=
  if truthy_ostr a then a else b.

(** The row that [db.update(timeEntries).set(updateData)] leaves: a column
    is written exactly when [updateData] has a value for it. *)
Definition set_columns (updateData : PartialTimeEntry.t) (inTime outTime : option string)
    (hours : option (option jsnum)) (now : Z) (e : TimeEntry.t) : TimeEntry.t :=
  TimeEntry.mk
    (TimeEntry.id e)
    (default (TimeEntry.employeeId e) (PartialTimeEntry.employeeId updateData))
    (default (TimeEntry.date e) (PartialTimeEntry.date updateData))
    (default (TimeEntry.checkInTime e) inTime)
    (match outTime with Some s => Some s | None => TimeEntry.checkOutTime e end)
    (match PartialTimeEntry.breakMinutes updateData with
     | Some b => Some b
     | None => TimeEntry.breakMinutes e
     end)
    (match hours with Some h => h | None => TimeEntry.totalHours e end)
    (default (TimeEntry.createdAt e) (PartialTimeEntry.createdAt updateData))
    now.

(** [updateTimeEntry].  [updateData] starts as a copy of [data]; its
    [totalHours] is overwritten only when both times are at hand, and its
    two times are reformatted only when [data] brings non-empty ones.  The
    update is refused when it names an employee that does not exist or a
    break that does not fit its column, and the lookup fails for an id
    outside the range of the id column. *)
Definition updateTimeEntry (now : Z) (id : Z) (data : PartialTimeEntry.t) (st : Store)
  : outcome (option TimeEntryWithName * Store) :=
  match getTimeEntryById st id with
  | None => no_row id (None, st)
  | Some (currentEntry, _) =>
      let checkInTime :=
        or_str (PartialTimeEntry.checkInTime data) (Some (TimeEntry.checkInTime currentEntry)) in
      let checkOutTime :=
        or_str (PartialTimeEntry.checkOutTime data) (TimeEntry.checkOutTime currentEntry) in
      let breakMinutes :=
        match PartialTimeEntry.breakMinutes data with
        | Some b => Some b
        | None => TimeEntry.breakMinutes currentEntry
        end in
      let hours : option (option jsnum) :=
        if truthy_ostr checkInTime && truthy_ostr checkOutTime then
          Some (calculateTotalHours checkInTime checkOutTime (default 0 breakMinutes))
        else option_map Some (PartialTimeEntry.totalHours data) in
      let inTime : option (option string) :=
        if truthy_ostr (PartialTimeEntry.checkInTime data)
        then option_map Some (formatTime (default "" (PartialTimeEntry.checkInTime data)))
        else Some (PartialTimeEntry.checkInTime data) in
      let outTime : option (option string) :=
        if truthy_ostr (PartialTimeEntry.checkOutTime data)
        then option_map Some (formatTime (default "" (PartialTimeEntry.checkOutTime data)))
        else Some (PartialTimeEntry.checkOutTime data) in
      match inTime, outTime with
      | Some inTime, Some outTime =>
          let rows :=
            update_rows (fun e => TimeEntry.id e =? id)
                        (set_columns data inTime outTime hours now) (timeEntries st) in
          let st' := mkStore (employees st) rows (timeEntries_id_seq st) in
          if writable st (PartialTimeEntry.employeeId data)
                      (PartialTimeEntry.breakMinutes data)
          then Resolved (getTimeEntryById st' id, st')
          else Rejected
      | _, _ => Rejected
      end
  end.

(** The store that [DELETE FROM time_entries WHERE id = $1] leaves. *)
Definition delete_where (id : Z) (st : Store) : Store :=
  mkStore (employees st)
          (List.filter (fun e => negb (TimeEntry.id e =? id)) (timeEntries st))
          (timeEntries_id_seq st).

(** [deleteTimeEntry]: the statement fails for an id that the id column
    cannot hold, and deletes the rows of the id otherwise, be there any or
    none. *)
Definition deleteTimeEntry (id : Z) (st : Store) : outcome Store :=
  if int4 id then Resolved (delete_where id st) else Rejected.

(** [checkoutTimeEntry], at wall-clock time [now] *)
Definition checkoutTimeEntry (now : Z) (id : Z) (st : Store)
  : outcome (option TimeEntryWithName * Store) :=
  match getTimeEntryById st id with
  | None => no_row id (None, st)
  | Some (entry, _) =>
      if truthy_ostr (TimeEntry.checkOutTime entry) then Resolved (None, st)
      else
        let checkOutTime :=
          padStart2 (Z_toString (getHours now)) ++ ":" ++
          padStart2 (Z_toString (getMinutes now)) in
        updateTimeEntry now id
          (PartialTimeEntry.mk None None None (Some checkOutTime) None None None None)
          st
  end.

(** [getTimeEntriesByDate] *)
Definition getTimeEntriesByDate (st : Store) (date : Z) : list TimeEntryWithName :=
  map (withEmployeeName st)
    (orderByDesc TimeEntry.createdAt
       (List.filter (fun e => between (TimeEntry.date e) (startOfDay date) (endOfDay date))
                    (timeEntries st))).

(* ===================================================================== *)
(** ** server/storage: reports *)

(** A point of the chart: a label and the hours per employee id.  The
    [values] object has the employee ids as its property names. *)
Module Bucket.
Record t : Type := mk { label : string; values : gmap Z jsnum }.
End Bucket.

Module SummaryRow.
Record t : Type := mk
  { employeeId : Z;
    employeeName : string;
    totalDays : Z;
    totalHours : jsnum;
    avgDailyHours : jsnum;
    totalBreakMinutes : Z }.
End SummaryRow.

Module Totals.
Record t : Type := mk
  { totalDays : Z;
    totalHours : jsnum;
    avgDailyHours : jsnum;
    totalBreakMinutes : Z }.
End Totals.

(** [employeeId] is [None] when it is undefined or NaN. *)
Module ReportFilters.
Record t : Type := mk
  { reportType : string;
    dateFrom : option Z;
    dateTo : option Z;
    employeeId : option Z }.
End ReportFilters.

Module Report.
Record t : Type := mk
  { title : string;
    chartData : list Bucket.t;
    summaryData : list SummaryRow.t;
    employeeTotals : Totals.t;
    employees : list Employee.t;
    dateRange : Z * Z }.
End Report.

(** [if (employeeId)]: an employee filter counts when it is a non-zero
    number. *)
Definition employee_filter (employeeId : option Z) : option Z :=
  match employeeId with
  | Some i => if i =? 0 then None else Some i
  | None => None
  end.

Definition matches_employee (employeeId : option Z) (e : TimeEntry.t) : bool :=
  match employee_filter employeeId with
  | Some i => TimeEntry.employeeId e =? i
  | None => true
  end.

(** The query of the three chart builders: the entries of a span of days,
    of one employee when a filter is given, by date. *)
Definition chartEntries (st : Store) (lo hi : Z) (employeeId : option Z)
  : list TimeEntry.t :=
  orderBy TimeEntry.date
    (List.filter (fun e => between (TimeEntry.date e) (startOfDay lo) (endOfDay hi)
                           && matches_employee employeeId e)
                 (timeEntries st)).

(** The [Map] from bucket key to bucket and the array of keys in the order
    they were added. *)
Definition BucketMap : Type := (gmap Z Bucket.t * list Z)%type.

(** [while (current <= endDate) { body; current = next(current) }], run
    for at most [fuel] tests of the condition; [None] when they do not
    suffice. *)
Fixpoint date_loop (fuel : nat) (next : Z -> Z) (body : Z -> BucketMap -> BucketMap)
    (current endDate : Z) (acc : BucketMap) : option BucketMap :=
  match fuel with
  | O => None
  | S fuel' =>
      if current <=? endDate
      then date_loop fuel' next body (next current) endDate (body current acc)
      else Some acc
  end.

(** The body of the loop over the entries: an entry without total hours is
    skipped; the others add their hours under their employee id in the
    bucket of their key, when the map has that bucket. *)
Definition addEntry (key : Z -> Z) (m : gmap Z Bucket.t) (entry : TimeEntry.t)
  : gmap Z Bucket.t :=
  match TimeEntry.totalHours entry with
  | None => m
  | Some h =>
      let k := key (TimeEntry.date entry) in
      match m !! k with
      | Some data =>
          let empId := TimeEntry.employeeId entry in
          let old := match Bucket.values data !! empId with
                     | Some v => or0 v
                     | None => ofZ 0
                     end in
          <[k := Bucket.mk (Bucket.label data)
                           (<[empId := add old h]> (Bucket.values data))]> m
      | None => m
      end
  end.

Definition populate (key : Z -> Z) (m : gmap Z Bucket.t) (entries : list TimeEntry.t)
  : gmap Z Bucket.t :=
  fold_left (addEntry key) entries m.

(** [range.map(k => map.get(k)).filter(Boolean)] *)
Definition toArray (m : gmap Z Bucket.t) (range : list Z) : list Bucket.t :=
  omap (fun k => m !! k) range.

(** *** Daily *)

Definition daily_body (current : Z) (acc : BucketMap) : BucketMap :=
  let dateStr := key_yyyy_MM_dd current in
  (<[dateStr := Bucket.mk (format_EEE_MMM_d current) ∅]> (fst acc),
   (snd acc ++ [dateStr])%list).

Definition daily_fuel (startDate endDate : Z) : nat :=
  S (Z.to_nat ((endDate - startDate) / msPerDay + 1)).

Definition daily_init (startDate endDate : Z) : option BucketMap :=
  date_loop (daily_fuel startDate endDate) (fun c => addDays c 1) daily_body
            startDate endDate (∅, []).

Definition getDailyReportData (st : Store) (startDate endDate : Z) (employeeId : option Z)
  : option (list Bucket.t) :=
  let entries := chartEntries st startDate endDate employeeId in
  match daily_init startDate endDate with
  | Some (dateMap, dateRange) =>
      Some (toArray (populate key_yyyy_MM_dd dateMap entries) dateRange)
  | None => None
  end.

(** *** Weekly *)

Definition week_key (t : Z) : Z := key_yyyy_MM_dd (startOfWeek 1 t).

Definition week_label (current : Z) : string :=
  format_MMM_d (startOfWeek 1 current) ++ " - " ++ format_MMM_d (endOfWeek 1 current).

Definition weekly_body (current : Z) (acc : BucketMap) : BucketMap :=
  let weekStr := week_key current in
  match fst acc !! weekStr with
  | Some _ => acc
  | None =>
      (<[weekStr := Bucket.mk (week_label current) ∅]> (fst acc),
       (snd acc ++ [weekStr])%list)
  end.

Definition weekly_fuel (adjustedStart adjustedEnd : Z) : nat :=
  S (Z.to_nat ((adjustedEnd - adjustedStart) / (7 * msPerDay) + 1)).

Definition weekly_init (startDate endDate : Z) : option BucketMap :=
  let adjustedStart := startOfWeek 1 startDate in
  let adjustedEnd := endOfWeek 1 endDate in
  date_loop (weekly_fuel adjustedStart adjustedEnd) (fun c => addDays c 7) weekly_body
            adjustedStart adjustedEnd (∅, []).

Definition getWeeklyReportData (st : Store) (startDate endDate : Z) (employeeId : option Z)
  : option (list Bucket.t) :=
  let adjustedStart := startOfWeek 1 startDate in
  let adjustedEnd := endOfWeek 1 endDate in
  let entries := chartEntries st adjustedStart adjustedEnd employeeId in
  match weekly_init startDate endDate with
  | Some (weekMap, weekRange) =>
      Some (toArray (populate week_key weekMap entries) weekRange)
  | None => None
  end.

(** *** Monthly *)

Definition monthly_body (current : Z) (acc : BucketMap) : BucketMap :=
  let monthStart := startOfMonth current in
  let monthStr := key_yyyy_MM monthStart in
  match fst acc !! monthStr with
  | Some _ => acc
  | None =>
      (<[monthStr := Bucket.mk (format_MMMM_yyyy monthStart) ∅]> (fst acc),
       (snd acc ++ [monthStr])%list)
  end.

Definition monthly_fuel (adjustedStart adjustedEnd : Z) : nat :=
  S (Z.to_nat ((adjustedEnd - adjustedStart) / (28 * msPerDay) + 1)).

Definition monthly_init (startDate endDate : Z) : option BucketMap :=
  let adjustedStart := startOfMonth startDate in
  let adjustedEnd := endOfMonth endDate in
  date_loop (monthly_fuel adjustedStart adjustedEnd) setNextMonth monthly_body
            adjustedStart adjustedEnd (∅, []).

Definition getMonthlyReportData (st : Store) (startDate endDate : Z) (employeeId : option Z)
  : option (list Bucket.t) :=
  let adjustedStart := startOfMonth startDate in
  let adjustedEnd := endOfMonth endDate in
  let entries := chartEntries st adjustedStart adjustedEnd employeeId in
  match monthly_init startDate endDate with
  | Some (monthMap, monthRange) =>
      Some (toArray (populate key_yyyy_MM monthMap entries) monthRange)
  | None => None
  end.

Definition getCustomReportData := getDailyReportData.

(** *** The employee summary and the grand totals *)

Definition activeEmployees (st : Store) : list Employee.t :=
  List.filter (fun e => String.eqb (Employee.status e) "active") (employees st).

(** [curr.totalHours ? Number(curr.totalHours) : 0] *)
Definition hoursOr0 (e : TimeEntry.t) : jsnum :=
  match TimeEntry.totalHours e with Some h => h | None => ofZ 0 end.

Definition sumHours (entries : list TimeEntry.t) : jsnum :=
  fold_left (fun acc curr => add acc (hoursOr0 curr)) entries (ofZ 0).

Definition summaryRow (employee : Employee.t) (entries : list TimeEntry.t) : SummaryRow.t :=
  let workingDays :=
    Z.of_nat (length (List.filter (fun e => bool_decide (TimeEntry.totalHours e <> None))
                                  entries)) in
  let totalHours := sumHours entries in
  let totalBreakMinutes :=
    fold_left (fun acc curr => acc + default 0 (TimeEntry.breakMinutes curr)) entries 0 in
  SummaryRow.mk (Employee.id employee) (Employee.name employee) workingDays totalHours
    (if 0 <? workingDays then div totalHours (ofZ workingDays) else ofZ 0)
    totalBreakMinutes.

Definition getEmployeeSummaryData (st : Store) (startDate endDate : Z)
    (employeeId : option Z) : list SummaryRow.t :=
  let employeesToReport :=
    match employee_filter employeeId with
    | Some i => match getEmployeeById st i with Some e => [e] | None => [] end
    | None => activeEmployees st
    end in
  omap (fun employee =>
          let entries :=
            List.filter (fun e => (TimeEntry.employeeId e =? Employee.id employee)
                                  && between (TimeEntry.date e)
                                             (startOfDay startDate) (endOfDay endDate))
                        (timeEntries st) in
          match entries with
          | [] => None
          | _ => Some (summaryRow employee entries)
          end)
       employeesToReport.

Definition zeroTotals : Totals.t := Totals.mk 0 (ofZ 0) (ofZ 0) 0.

(** The "Calculate totals" block of [generateReport] *)
Definition calculateTotals (summaryData : list SummaryRow.t) : Totals.t :=
  match summaryData with
  | [] => zeroTotals
  | _ =>
      let totalDays := fold_left (fun acc curr => acc + SummaryRow.totalDays curr) summaryData 0 in
      let totalHours :=
        fold_left (fun acc curr => add acc (SummaryRow.totalHours curr)) summaryData (ofZ 0) in
      let totalBreakMinutes :=
        fold_left (fun acc curr => acc + SummaryRow.totalBreakMinutes curr) summaryData 0 in
      Totals.mk totalDays totalHours
        (if 0 <? totalDays then div totalHours (ofZ totalDays) else ofZ 0)
        totalBreakMinutes
  end.

(** [generateReport], at wall-clock time [now] (the default range) *)
Definition generateReport (now : Z) (filters : ReportFilters.t) (st : Store)
  : option Report.t :=
  let startDate := default (subDays now 7) (ReportFilters.dateFrom filters) in
  let endDate := default now (ReportFilters.dateTo filters) in
  let employeeId := ReportFilters.employeeId filters in
  let allEmployees := activeEmployees st in
  let rt := ReportFilters.reportType filters in
  let '(title, chart) :=
    if String.eqb rt "daily" then
      ("Daily Summary", getDailyReportData st startDate endDate employeeId)
    else if String.eqb rt "weekly" then
      ("Weekly Summary", getWeeklyReportData st startDate endDate employeeId)
    else if String.eqb rt "monthly" then
      ("Monthly Summary", getMonthlyReportData st startDate endDate employeeId)
    else
      ("Custom Range Summary", getCustomReportData st startDate endDate employeeId) in
  match chart with
  | None => None
  | Some chartData =>
      let summaryData := getEmployeeSummaryData st startDate endDate employeeId in
      Some (Report.mk title chartData summaryData (calculateTotals summaryData)
                      allEmployees (startDate, endDate))
  end.

(* ===================================================================== *)
(** ** server/storage: the dashboard *)

Module DashboardStats.
Record t : Type := mk
  { totalHours : jsnum;
    activeEmployees : Z;
    checkedInCount : Z;
    avgHoursPerEmployee : jsnum;
    weeklyAvgHours : jsnum }.
End DashboardStats.

(** [parseFloat(x.toFixed(2))]: the nearest multiple of 1/100.  [toFixed]
    rounds the double that the number is.  Where the exact number lies
    halfway between two hundredths, its double lies as a rule to one side
    of it (0.015 and 0.075 are rounded towards zero, 0.125 away from it),
    and the exact number does not tell to which: [tie_up q] says whether
    the tie at [q] goes away from zero. *)
Definition round2 (tie_up : Qc -> bool) (q : Qc) : Qc :=
  let a := Qabs (this q) in
  let x := (a * (100 # 1) + (1 # 2))%Q in
  let n := Qfloor x in
  let n' := if Qeq_bool (inject_Z n) x && negb (tie_up q) then n - 1 else n in
  let r := Q2Qc (inject_Z n' / (100 # 1)) in
  if bool_decide (q < Q2Qc 0)%Qc then (- r)%Qc else r.

Definition toFixed2 (tie_up : Qc -> bool) (a : jsnum) : jsnum :=
  match a with
  | JNaN => JNaN
  | JNum q => JNum (round2 tie_up q)
  end.

Definition weekEntries (st : Store) (date : Z) : list TimeEntry.t :=
  let weekStart := startOfWeek 1 date in
  let weekEnd := endOfWeek 1 date in
  List.filter (fun e => between (TimeEntry.date e) (startOfDay weekStart) (endOfDay weekEnd))
              (timeEntries st).

Definition getDashboardStats (tie_up : Qc -> bool) (st : Store) (date : Z)
  : DashboardStats.t :=
  let todayEntries := map fst (getTimeEntriesByDate st date) in
  let totalHours := sumHours todayEntries in
  let activeCount := Z.of_nat (length (activeEmployees st)) in
  let checkedInCount :=
    Z.of_nat (length (List.filter (fun e => negb (truthy_ostr (TimeEntry.checkOutTime e)))
                                  todayEntries)) in
  let avgHoursPerEmployee :=
    if 0 <? activeCount then div totalHours (ofZ activeCount) else ofZ 0 in
  let weeklyTotalHours := sumHours (weekEntries st date) in
  let workDaysInWeek := 5 in
  let weeklyAvgHours :=
    if 0 <? activeCount
    then div weeklyTotalHours (ofZ (activeCount * workDaysInWeek))
    else ofZ 0 in
  DashboardStats.mk (toFixed2 tie_up totalHours) activeCount checkedInCount
                    (toFixed2 tie_up avgHoursPerEmployee) (toFixed2 tie_up weeklyAvgHours).

(* ===================================================================== *)
(** ** server/routes: the time-entry endpoints *)

(** The zone of the server is given by its offset from UTC at each instant,
    in minutes, positive to the east; [toLocal zone t] is the instant whose
    UTC reading is the wall clock of the server at [t]. *)
Definition toLocal (zone : Z -> Z) (t : Z) : Z := t + zone t * 60000.

Definition utc : Z -> Z := fun _ => 0.

Module Route.

(** The [date] member of a JSON body: absent; a string, given by what
    [new Date(string)] makes of it ([None] is Invalid Date); or a JSON value
    of another type.  A parsed body never holds a [Date] object. *)
Inductive DateField : Type :=
  | DateUndefined
  | DateString (parsed : option Z)
  | DateOther.

(** The body of a create or update request.  [employeeId] and
    [breakMinutes] are given by what [Number(...)] makes of them, [None]
    when the member is absent; the two times are strings or absent. *)
Record Body : Type := mkBody
  { employeeId : option jsnum;
    date : DateField;
    checkInTime : option string;
    checkOutTime : option string;
    breakMinutes : option jsnum }.

(** A request: whether its session is authenticated, what
    [parseInt(req.params.id)] gives ([None] is NaN), and its body. *)
Record Request : Type := mkRequest
  { isAuthenticated : bool;
    params_id : option Z;
    body : Body }.

Inductive Payload : Type :=
  | Message (m : string)
  | Entry (e : TimeEntryWithName)
  | Empty.

Record Response : Type := mkResponse { status : Z; payload : Payload }.

(** The integer a number is, if it is one.  The driver refuses anything
    else for an integer column, and the handler then answers 500. *)
Definition toInteger (a : jsnum) : option Z :=
  match a with
  | JNum q => if Zpos (Qden (this q)) =? 1 then Some (Qnum (this q)) else None
  | JNaN => None
  end.

(** [Number(x)] of a member that may be absent *)
Definition numberOf (x : option jsnum) : jsnum := default JNaN x.

(** POST /api/time-entries.  [isWeekend] reads the instant on the wall
    clock of the server, whose zone is [zone]. *)
Definition post_time_entries (zone : Z -> Z) (now : Z) (req : Request) (st : Store)
  : Response * Store :=
  if negb (isAuthenticated req) then (mkResponse 401 (Message "Not authenticated"), st)
  else
    let data := body req in
    match date data with
    | DateString None => (mkResponse 400 (Message "Invalid date"), st)
    | DateString (Some dateObj) =>
        if isWeekend (toLocal zone dateObj)
        then (mkResponse 400 (Message "Cannot add time entries for weekends"), st)
        else
          match toInteger (numberOf (employeeId data)),
                toInteger (or0 (numberOf (breakMinutes data))) with
          | Some eid, Some bm =>
              let processedData :=
                InsertTimeEntry.mk eid dateObj (checkInTime data)
                  (or_str (checkOutTime data) None) (Some bm) None None None in
              match createTimeEntry now processedData st with
              | Resolved (timeEntry, st') => (mkResponse 201 (Entry timeEntry), st')
              | Rejected => (mkResponse 500 (Message "Failed to create time entry"), st)
              end
          | _, _ => (mkResponse 500 (Message "Failed to create time entry"), st)
          end
    | _ => (mkResponse 400 (Message "Invalid date format"), st)
    end.

(** PATCH /api/time-entries/:id.  [updateTimeEntry] looks the entry up
    before anything is written, so an unknown id is answered 404 also when
    a number of the body is one the driver would refuse; the lookup itself
    fails for an id that the id column cannot hold. *)
Definition patch_time_entry (zone : Z -> Z) (now : Z) (req : Request) (st : Store)
  : Response * Store :=
  if negb (isAuthenticated req) then (mkResponse 401 (Message "Not authenticated"), st)
  else
    let data := body req in
    let dateCheck : Response + option Z :=
      match date data with
      | DateUndefined => inr None
      | DateString None => inl (mkResponse 400 (Message "Invalid date"))
      | DateString (Some dateObj) =>
          if isWeekend (toLocal zone dateObj)
          then inl (mkResponse 400 (Message "Cannot update time entries to weekends"))
          else inr (Some dateObj)
      | DateOther => inl (mkResponse 400 (Message "Invalid date format"))
      end in
    match dateCheck with
    | inl r => (r, st)
    | inr processedDate =>
        let failed := (mkResponse 500 (Message "Failed to update time entry"), st) in
        let notFound := (mkResponse 404 (Message "Time entry not found"), st) in
        let eid : option (option Z) :=
          match employeeId data with
          | Some v => option_map Some (toInteger v)
          | None => Some None
          end in
        let bm : option (option Z) :=
          match breakMinutes data with
          | Some v => option_map Some (toInteger v)
          | None => Some None
          end in
        match params_id req with
        | None => failed
        | Some id =>
            match getTimeEntryById st id, eid, bm with
            | None, _, _ => if int4 id then notFound else failed
            | Some _, Some eid, Some bm =>
                let processedData :=
                  PartialTimeEntry.mk eid processedDate (checkInTime data)
                    (match checkOutTime data with
                     | Some s => or_str (Some s) None
                     | None => None
                     end)
                    bm None None None in
                match updateTimeEntry now id processedData st with
                | Resolved (Some timeEntry, st') => (mkResponse 200 (Entry timeEntry), st')
                | Resolved (None, st') => (mkResponse 404 (Message "Time entry not found"), st')
                | Rejected => failed
                end
            | Some _, _, _ => failed
            end
        end
    end.

(** DELETE /api/time-entries/:id.  With NaN for the id the statement
    fails. *)
Definition delete_time_entry (req : Request) (st : Store) : Response * Store :=
  if negb (isAuthenticated req) then (mkResponse 401 (Message "Not authenticated"), st)
  else
    let failed := (mkResponse 500 (Message "Failed to delete time entry"), st) in
    match params_id req with
    | Some id =>
        match deleteTimeEntry id st with
        | Resolved st' => (mkResponse 204 Empty, st')
        | Rejected => failed
        end
    | None => failed
    end.

End Route.

(* ===================================================================== *)
(** ** shared/utils, server/storage and server/routes: the rest *)

(** The two numbers that [formatMinutesToHoursAndMinutes] prints, for a
    whole number of minutes: [Math.floor(totalMinutes / 60)] and
    [totalMinutes % 60], the remainder with the sign of the dividend. *)
Definition formatMinutesParts (totalMinutes : Z) : Z * Z :=
  (totalMinutes / 60, Z.rem totalMinutes 60).

(** [formatMinutesToHoursAndMinutes] *)
Definition formatMinutesToHoursAndMinutes (totalMinutes : Z) : string :=
  Z_toString (fst (formatMinutesParts totalMinutes)) ++ "h " ++
  Z_toString (snd (formatMinutesParts totalMinutes)) ++ "m".

(** The loop of [getDateRange], run with fuel. *)
Fixpoint getDateRange_loop (fuel : nat) (currentDate endDate : Z) (dates : list Z)
  : option (list Z) :=
  match fuel with
  | O => None
  | S fuel' =>
      if currentDate <=? endDate
      then getDateRange_loop fuel' (addDays currentDate 1) endDate (dates ++ [currentDate])%list
      else Some dates
  end.

(** [getDateRange] *)
Definition getDateRange (startDate endDate : Z) : option (list Z) :=
  getDateRange_loop (S (Z.to_nat ((endDate - startDate) / msPerDay + 1)))
                    startDate endDate [].

(** POST /api/time-entries/:id/checkout *)
Module Checkout.

(** The body of an answer: [{message}], [{error}] or the entry. *)
Inductive Payload : Type :=
  | Message (m : string)
  | Error (m : string)
  | Entry (e : TimeEntryWithName).

Record Response : Type := mkResponse { status : Z; payload : Payload }.

Definition post_checkout (now : Z) (req : Route.Request) (st : Store) : Response * Store :=
  if negb (Route.isAuthenticated req) then (mkResponse 401 (Message "Not authenticated"), st)
  else
    match Route.params_id req with
    | None => (mkResponse 500 (Error "Failed to checkout time entry"), st)
    | Some id =>
        match checkoutTimeEntry now id st with
        | Resolved (Some timeEntry, st') => (mkResponse 200 (Entry timeEntry), st')
        | Resolved (None, st') => (mkResponse 404 (Error "Time entry not found"), st')
        | Rejected => (mkResponse 500 (Error "Failed to checkout time entry"), st)
        end
    end.

End Checkout.

(** [TimeEntriesFilter].  A [Date] is an instant; [page] and [pageSize]
    are integers. *)
Module TimeEntriesFilter.
Record t : Type := mk
  { dateFrom : option Z;
    dateTo : option Z;
    employeeId : option Z;
    page : Z;
    pageSize : Z }.
End TimeEntriesFilter.

(** What [getTimeEntries] resolves with.  [totalPages] is [None] when
    [Math.ceil(totalEntries / pageSize)] is not a finite number. *)
Module TimeEntriesPage.
Record t : Type := mk
  { entries : list TimeEntryWithName;
    totalEntries : Z;
    totalPages : option Z;
    currentPage : Z;
    pageSize : Z;
    startIndex : Z;
    endIndex : Z }.
End TimeEntriesPage.

(** The conjunction of [whereClause].  An [employeeId] of 0 is falsy and
    filters nothing. *)
Definition whereClause (filters : TimeEntriesFilter.t) (e : TimeEntry.t) : bool :=
  match TimeEntriesFilter.dateFrom filters, TimeEntriesFilter.dateTo filters with
  | Some dateFrom, Some dateTo =>
      between (TimeEntry.date e) (startOfDay dateFrom) (endOfDay dateTo)
  | Some dateFrom, None => startOfDay dateFrom <=? TimeEntry.date e
  | None, Some dateTo => TimeEntry.date e <=? endOfDay dateTo
  | None, None => true
  end
  && match TimeEntriesFilter.employeeId filters with
     | Some employeeId =>
         if employeeId =? 0 then true else TimeEntry.employeeId e =? employeeId
     | None => true
     end.

(** [Math.ceil(a / b)] for integers, [b] not 0 *)
Definition ceil_div (a b : Z) : Z := - ((- a) / b).

(** The rows in the order [desc(date), desc(createdAt)], before the page
    is cut out. *)
Definition sortedEntries (filters : TimeEntriesFilter.t) (st : Store) : list TimeEntry.t :=
  orderByDesc TimeEntry.date
    (orderByDesc TimeEntry.createdAt
       (List.filter (whereClause filters) (timeEntries st))).

(** [getTimeEntries].  The database refuses a negative LIMIT or OFFSET. *)
Definition getTimeEntries (filters : TimeEntriesFilter.t) (st : Store)
  : outcome TimeEntriesPage.t :=
  let page := TimeEntriesFilter.page filters in
  let pageSize := TimeEntriesFilter.pageSize filters in
  let offset := (page - 1) * pageSize in
  let totalEntries :=
    Z.of_nat (length (List.filter (whereClause filters) (timeEntries st))) in
  let totalPages :=
    if pageSize =? 0 then None else Some (ceil_div totalEntries pageSize) in
  if (pageSize <? 0) || (offset <? 0) then Rejected
  else
    let entries :=
      take (Z.to_nat pageSize) (drop (Z.to_nat offset) (sortedEntries filters st)) in
    Resolved
      (TimeEntriesPage.mk
         (map (withEmployeeName st) entries)
         totalEntries totalPages page pageSize
         (if 0 <? totalEntries then offset + 1 else 0)
         (Z.min (offset + pageSize) totalEntries)).

(** The entry that [findFirst] gives for an employee under
    [orderBy: [desc(date), desc(createdAt)]]. *)
Definition latestEntry (st : Store) (employeeId : Z) : option TimeEntry.t :=
  head (orderByDesc TimeEntry.date
          (orderByDesc TimeEntry.createdAt
             (List.filter (fun e => TimeEntry.employeeId e =? employeeId) (timeEntries st)))).

(** The [lastCheckIn] that [getEmployeeById], [getAllEmployees] and
    [updateEmployee] attach to an employee: the date of the latest entry,
    given by its instant rather than by its ISO string. *)
Definition lastCheckIn (st : Store) (employeeId : Z) : option Z :=
  option_map TimeEntry.date (latestEntry st employeeId).

(** [Partial<InsertEmployee>]: the columns an update may bring. *)
Module PartialEmployee.
Record t : Type := mk
  { id : option Z;
    name : option string;
    email : option string;
    position : option string;
    status : option string }.
End PartialEmployee.

(** The row that [db.update(employees).set({...data, updatedAt})] leaves;
    the two timestamps are not columns of [Employee.t]. *)
Definition set_employee_columns (data : PartialEmployee.t) (e : Employee.t) : Employee.t :=
  Employee.mk
    (default (Employee.id e) (PartialEmployee.id data))
    (default (Employee.name e) (PartialEmployee.name data))
    (default (Employee.email e) (PartialEmployee.email data))
    (default (Employee.position e) (PartialEmployee.position data))
    (default (Employee.status e) (PartialEmployee.status data)).

(** [updateEmployee]: the first updated row with its [lastCheckIn], and
    the store.  Where no row has the id nothing is written, and the
    statement fails for an id that the id column cannot hold. *)
Definition updateEmployee (id : Z) (data : PartialEmployee.t) (st : Store)
  : outcome (option (Employee.t * option Z) * Store) :=
  let rows := update_rows (fun e => Employee.id e =? id) (set_employee_columns data)
                          (employees st) in
  let st' := mkStore rows (timeEntries st) (timeEntries_id_seq st) in
  match List.find (fun e => Employee.id e =? id) (employees st) with
  | Some e =>
      let employee := set_employee_columns data e in
      Resolved (Some (employee, lastCheckIn st' (Employee.id employee)), st')
  | None => no_row id (None, st)
  end.

(** PATCH /api/employees/:id/deactivate *)
Module Deactivate.

Inductive Payload : Type :=
  | Message (m : string)
  | Error (m : string)
  | Body (employee : Employee.t) (lastCheckIn : option Z).

Record Response : Type := mkResponse { status : Z; payload : Payload }.

Definition inactive : PartialEmployee.t :=
  PartialEmployee.mk None None None None (Some "inactive").

Definition patch_deactivate (req : Route.Request) (st : Store) : Response * Store :=
  if negb (Route.isAuthenticated req) then (mkResponse 401 (Message "Not authenticated"), st)
  else
    match Route.params_id req with
    | None => (mkResponse 500 (Error "Failed to deactivate employee"), st)
    | Some id =>
        match updateEmployee id inactive st with
        | Resolved (Some (employee, last), st') => (mkResponse 200 (Body employee last), st')
        | Resolved (None, st') => (mkResponse 404 (Error "Employee not found"), st')
        | Rejected => (mkResponse 500 (Error "Failed to deactivate employee"), st)
        end
    end.

End Deactivate.

(* ===================================================================== *)
(** * The vocabulary of the properties, and data for the examples *)

(** ** Times and calendar *)

(** A time argument is missing when it is null or undefined, or the empty
    string. *)
Definition missing (s : option string) : Prop := s = None \/ s = Some "".

(** The Monday on or before a day, as a day number. *)
Definition mondayOf (d : Z) : Z := d - (d + 3) mod 7.

(** Day [d] is a Monday. *)
Definition isMonday (d : Z) : Prop := (d + 4) mod 7 = 1.

(** The short date ("MMM d") of a calendar day. *)
Definition short_date (d : Z) : string := format_MMM_d (d * msPerDay).

(** The label ("EEE, MMM d") of a calendar day. *)
Definition day_label (d : Z) : string := format_EEE_MMM_d (d * msPerDay).

(** Days up to the first of March of year [y], the start of the year as
    the conversions count it. *)
Definition march_first (y : Z) : Z :=
  (y / 400) * 146097 + ((y - (y / 400) * 400) * 365
    + (y - (y / 400) * 400) / 4 - (y - (y / 400) * 400) / 100).

(** ** Buckets *)

(** The empty bucket of the week that starts on Monday [w]. *)
Definition week_bucket (w : Z) : Bucket.t :=
  Bucket.mk (short_date w ++ " - " ++ short_date (w + 6)) ∅.

(** [n] Mondays in a row, from [first] on. *)
Definition mondays_from (first : Z) (n : nat) : list Z :=
  map (fun i => first + 7 * Z.of_nat i) (seq 0 n).

(** The number of Monday-start weeks from the week of [startDate] to the
    week of [endDate]. *)
Definition week_count (startDate endDate : Z) : nat :=
  Z.to_nat ((mondayOf (dayOf endDate) - mondayOf (dayOf startDate)) / 7 + 1).

(** The entry falls in the Monday-start week that holds [date]. *)
Definition same_week (date : Z) (e : TimeEntry.t) : bool :=
  bool_decide (mondayOf (dayOf (TimeEntry.date e)) = mondayOf (dayOf date)).

(** The empty bucket of day [d]. *)
Definition day_bucket (d : Z) : Bucket.t := Bucket.mk (day_label d) ∅.

(** [n] days in a row, from [first] on. *)
Definition days_from (first : Z) (n : nat) : list Z :=
  map (fun i => first + Z.of_nat i) (seq 0 n).

(** How many times the loop of the daily report runs. *)
Definition daily_count (startDate endDate : Z) : nat :=
  Z.to_nat ((endDate - startDate) / msPerDay + 1).

(** The calendar days from the day of [startDate] to the day of [endDate]. *)
Definition calendar_days (startDate endDate : Z) : list Z :=
  days_from (dayOf startDate) (Z.to_nat (dayOf endDate - dayOf startDate + 1)).

(** The hours that bucket [k] of a map holds for employee [emp]. *)
Definition values_at (m : gmap Z Bucket.t) (k emp : Z) : option jsnum :=
  match m !! k with
  | Some b => Bucket.values b !! emp
  | None => None
  end.

(** The entry has total hours and belongs to bucket [k] and employee [emp]. *)
Definition relevant (key : Z -> Z) (k emp : Z) (e : TimeEntry.t) : bool :=
  bool_decide (TimeEntry.totalHours e <> None)
  && (key (TimeEntry.date e) =? k) && (TimeEntry.employeeId e =? emp).

(** One step of the running total of a bucket value:
    [(values[empId] || 0) + Number(entry.totalHours)]. *)
Definition add_hours (v : option jsnum) (e : TimeEntry.t) : option jsnum :=
  Some (add (match v with Some x => or0 x | None => ofZ 0 end) (hoursOr0 e)).

(** ** Sums *)

Definition sumZ (l : list Z) : Z := foldr Z.add 0 l.

Definition sumJ (l : list jsnum) : jsnum := foldr add (ofZ 0) l.

Definition is_number (a : jsnum) : Prop := a <> JNaN.

(** No stored total is NaN. *)
Definition totals_are_numbers (st : Store) : Prop :=
  forall e, In e (timeEntries st) -> TimeEntry.totalHours e <> Some JNaN.

(** The mean of the average daily hours of the rows. *)
Definition mean_of_row_averages (rows : list SummaryRow.t) : jsnum :=
  div (sumJ (map SummaryRow.avgDailyHours rows)) (ofZ (Z.of_nat (length rows))).

(** Two rows differ in their number of days. *)
Definition unequal_day_counts (rows : list SummaryRow.t) : Prop :=
  exists d1 d2,
    In d1 (map SummaryRow.totalDays rows) /\
    In d2 (map SummaryRow.totalDays rows) /\ d1 <> d2.

(** ** Requests *)

(** The request brings a date that [new Date] reads as an instant which is
    of a Saturday or a Sunday on the wall clock of the server. *)
Definition weekend_request (zone : Z -> Z) (req : Route.Request) : Prop :=
  exists t, Route.date (Route.body req) = Route.DateString (Some t) /\
            isWeekend (toLocal zone t) = true.

(** The request brings the date of a Saturday or a Sunday as the entry
    form of the client sends it: the midnight that starts the day in UTC. *)
Definition weekend_date_request (req : Route.Request) : Prop :=
  exists d, Route.date (Route.body req) = Route.DateString (Some (d * msPerDay)) /\
            isWeekend (d * msPerDay) = true.

(** A request of an authenticated session for Saturday 6 January 2024 as
    the entry form sends it ("2024-01-06T00:00:00.000Z"), all other fields
    in order. *)
Definition saturday_request : Route.Request :=
  Route.mkRequest true (Some 1)
    (Route.mkBody (Some (ofZ 1)) (Route.DateString (Some (mkDate 2024 1 6 0 0)))
                  (Some "09:00") (Some "17:00") (Some (ofZ 30))).

(** A zone five hours west of UTC the year round. *)
Definition five_hours_west : Z -> Z := fun _ => -300.

(** ** Stores *)

Definition two_employees : list Employee.t :=
  [Employee.mk 1 "Ann" "ann@example.com" "Developer" "active";
   Employee.mk 2 "Bob" "bob@example.com" "Designer" "active"].

(** A closed entry of so many hours on a day of January 2024. *)
Definition worked (id employeeId day hours : Z) : TimeEntry.t :=
  TimeEntry.mk id employeeId (mkDate 2024 1 day 0 0) "9:00 AM" (Some "5:00 PM") (Some 0)
               (Some (ofZ hours)) 0 0.

(** One entry, checked out. *)
Definition closed_entry : TimeEntry.t := worked 1 1 2 8.

Definition closed_store : Store := mkStore two_employees [closed_entry] 2.

(** One entry, still checked in. *)
Definition open_entry : TimeEntry.t :=
  TimeEntry.mk 1 1 (mkDate 2024 1 2 0 0) "9:00 AM" None (Some 0) None 0 0.

Definition open_store : Store := mkStore two_employees [open_entry] 2.

(** Ann worked one day of 8 hours, Bob two days of 8 hours. *)
Definition even_store : Store :=
  mkStore two_employees [worked 1 1 1 8; worked 2 2 1 8; worked 3 2 2 8] 4.

(** Ann worked one day of 4 hours, Bob three days of 8 hours. *)
Definition uneven_store : Store :=
  mkStore two_employees
          [worked 1 1 1 4; worked 2 2 1 8; worked 3 2 2 8; worked 4 2 3 8] 5.

(** A daily report from Monday 1 to Friday 5 January 2024. *)
Definition first_week_of_2024 : ReportFilters.t :=
  ReportFilters.mk "daily" (Some (mkDate 2024 1 1 0 0)) (Some (mkDate 2024 1 5 0 0)) None.

Definition no_entries : Store := mkStore two_employees [] 1.

(** Ann worked 8 hours on 3 January 2024. *)
Definition third_of_january : Store :=
  mkStore two_employees [worked 1 1 3 8] 2.

(** Ann worked 8 hours on 10 June 2024. *)
Definition tenth_of_june_entry : TimeEntry.t :=
  TimeEntry.mk 1 1 (mkDate 2024 6 10 0 0) "9:00 AM" (Some "5:00 PM") (Some 0)
               (Some (ofZ 8)) 0 0.

Definition tenth_of_june : Store := mkStore two_employees [tenth_of_june_entry] 2.

(** ** The vocabulary of the further properties *)

(** The 24-hour string "HH:MM" of an hour and a minute. *)
Definition hhmm (h m : Z) : string :=
  padStart2 (Z_toString h) ++ ":" ++ padStart2 (Z_toString m).

(** The 12-hour string "h:MM AM" or "h:MM PM". *)
Definition time12 (h m : Z) (pm : bool) : string :=
  Z_toString h ++ ":" ++ padStart2 (Z_toString m) ++ " " ++ (if pm then "PM" else "AM").

(** The hour of the 12-hour clock for an hour of the day. *)
Definition hour12 (h : Z) : Z := if h mod 12 =? 0 then 12 else h mod 12.

(** The integers from [lo], [n] of them. *)
Definition Zrange (lo : Z) (n : nat) : list Z := map (fun i => lo + Z.of_nat i) (seq 0 n).

(** Equality of two numbers as a boolean; NaN counts as equal to NaN
    here, the two being the same value of [jsnum]. *)
Definition jsnum_beq (a b : jsnum) : bool :=
  match a, b with
  | JNaN, JNaN => true
  | JNum x, JNum y => Qeq_bool (this x) (this y)
  | _, _ => false
  end.

(** What is checked of each time of day [h]:[m]. *)
Definition check24 (h m : Z) : bool :=
  match formatTime (hhmm h m) with
  | Some s =>
      String.eqb s (time12 (hour12 h) m (12 <=? h))
      && String.eqb (formatTimeForInput s) (hhmm h m)
      && jsnum_beq (timeToMinutes s) (ofZ (60 * h + m))
      && jsnum_beq (timeToMinutes (hhmm h m)) (ofZ (60 * h + m))
      && truthy_str s && truthy_str (hhmm h m)
  | None => false
  end.

(** What is checked of each 12-hour time. *)
Definition check12 (h m : Z) : bool :=
  let h' := h + 1 in
  String.eqb (formatTimeForInput (time12 h' m false)) (hhmm (h' mod 12) m)
  && String.eqb (formatTimeForInput (time12 h' m true)) (hhmm (h' mod 12 + 12) m)
  && String.eqb (formatTimeForInput (formatTimeForInput (time12 h' m false)))
                (formatTimeForInput (time12 h' m false))
  && String.eqb (formatTimeForInput (formatTimeForInput (time12 h' m true)))
                (formatTimeForInput (time12 h' m true)).

(** The minutes from a check-in to a check-out on the clock, the check-out
    taken on the next day when it is not after the check-in. *)
Definition elapsedMinutes (checkIn checkOut : Z) : Z :=
  if checkOut <=? checkIn then 24 * 60 + checkOut - checkIn else checkOut - checkIn.

(** Every stored id is below the next value of the sequence, as it is when
    ids come from the sequence alone. *)
Definition ids_below_seq (st : Store) : Prop :=
  forall e, In e (timeEntries st) -> TimeEntry.id e < timeEntries_id_seq st.

(** Bob worked from nine to five on 3 January 2024, with a break of half
    an hour. *)
Definition nine_to_five : InsertTimeEntry.t :=
  InsertTimeEntry.mk 2 (mkDate 2024 1 3 0 0) (Some "09:00") (Some "17:00") (Some 30)
                     None None None.

(** The total hours that [updateTimeEntry] writes, if it writes any, for
    an update [data] of the stored entry [cur]. *)
Definition update_hours (data : PartialTimeEntry.t) (cur : TimeEntry.t)
  : option (option jsnum) :=
  let checkInTime :=
    or_str (PartialTimeEntry.checkInTime data) (Some (TimeEntry.checkInTime cur)) in
  let checkOutTime :=
    or_str (PartialTimeEntry.checkOutTime data) (TimeEntry.checkOutTime cur) in
  let breakMinutes :=
    match PartialTimeEntry.breakMinutes data with
    | Some b => Some b
    | None => TimeEntry.breakMinutes cur
    end in
  if truthy_ostr checkInTime && truthy_ostr checkOutTime then
    Some (calculateTotalHours checkInTime checkOutTime (default 0 breakMinutes))
  else option_map Some (PartialTimeEntry.totalHours data).

(** A time of an update as it is written: reformatted when it is not
    empty, as it is otherwise; [None] when reformatting throws. *)
Definition update_time (t : option string) : option (option string) :=
  if truthy_ostr t then option_map Some (formatTime (default "" t)) else Some t.

(** The check-out time that [checkoutTimeEntry] stores at [now]. *)
Definition checkout_time (now : Z) : string :=
  time12 (hour12 (getHours now)) (getMinutes now) (12 <=? getHours now).

(** An entry without a check-out time has no total hours. *)
Definition open_without_total (st : Store) : Prop :=
  forall e, In e (timeEntries st) ->
    truthy_ostr (TimeEntry.checkOutTime e) = false -> TimeEntry.totalHours e = None.

(** The primary key: no two entries share an id. *)
Definition ids_distinct (st : Store) : Prop :=
  List.NoDup (map TimeEntry.id (timeEntries st)).

(** What the endpoints keep true of the stored entries. *)
Definition consistent (st : Store) : Prop :=
  ids_distinct st /\ ids_below_seq st /\ open_without_total st.

(** The same filter, asking for page [p]. *)
Definition atPage (filters : TimeEntriesFilter.t) (p : Z) : TimeEntriesFilter.t :=
  TimeEntriesFilter.mk (TimeEntriesFilter.dateFrom filters) (TimeEntriesFilter.dateTo filters)
    (TimeEntriesFilter.employeeId filters) p (TimeEntriesFilter.pageSize filters).

(** The entries of an answer, none for a rejection. *)
Definition entriesOf (r : outcome TimeEntriesPage.t) : list TimeEntryWithName :=
  match r with Resolved r => TimeEntriesPage.entries r | Rejected => [] end.

(** Later date first, and of two entries of a date the later created
    first. *)
Definition listed_before (a b : TimeEntry.t) : Prop :=
  TimeEntry.date a > TimeEntry.date b \/
  (TimeEntry.date a = TimeEntry.date b /\ TimeEntry.createdAt a >= TimeEntry.createdAt b).

(** Later date first, and of two entries of a date the one created later
    first, no two being equal in both. *)
Definition strictly_before (a b : TimeEntry.t) : Prop :=
  TimeEntry.date a > TimeEntry.date b \/
  (TimeEntry.date a = TimeEntry.date b /\ TimeEntry.createdAt a > TimeEntry.createdAt b).

(** The entries dated on the calendar day of [date], in table order. *)
Definition entriesOfDay (st : Store) (date : Z) : list TimeEntry.t :=
  List.filter (fun e => bool_decide (dayOf (TimeEntry.date e) = dayOf date)) (timeEntries st).

(** Months are counted from year 0: month [k] is month [k mod 12 + 1] of
    year [k / 12], which is what the key "yyyy-MM" names. *)
Definition first_of_month (k : Z) : Z :=
  days_from_civil (k / 12) (k mod 12 + 1) 1 * msPerDay.

(** The label ("MMMM yyyy") of month [k]. *)
Definition month_label (k : Z) : string :=
  month_long (k mod 12 + 1) ++ " " ++ Z_toString (k / 12).

(** The empty bucket of month [k]. *)
Definition month_bucket (k : Z) : Bucket.t := Bucket.mk (month_label k) ∅.

(** The number of months from the month of [startDate] to that of
    [endDate]. *)
Definition month_count (startDate endDate : Z) : nat :=
  Z.to_nat (key_yyyy_MM endDate - key_yyyy_MM startDate + 1).

(** The store after [updateEmployee(id, {status: "inactive"})], which is
    the store before it where that fails. *)
Definition deactivated (id : Z) (st : Store) : Store :=
  match updateEmployee id Deactivate.inactive st with
  | Resolved (_, st') => st'
  | Rejected => st
  end.



(** Bob clocks in at nine on 3 January 2024. *)
Definition clock_in_at_nine : InsertTimeEntry.t :=
  InsertTimeEntry.mk 2 (mkDate 2024 1 3 0 0) (Some "09:00") None (Some 30) None None None.

(** The store without the entries dated before the day of [startDate] or
    after the day of [endDate]. *)
Definition within_days (startDate endDate : Z) (st : Store) : Store :=
  mkStore (employees st)
          (List.filter (fun x => bool_decide (dayOf startDate <= dayOf (TimeEntry.date x)
                                              <= dayOf endDate))
                       (timeEntries st))
          (timeEntries_id_seq st).

(* ===================================================================== *)
(** * Properties *)

(** ** Numbers *)

Lemma JNum_eq (q r : Qc) : (this q == this r)%Q -> JNum q = JNum r.
Proof. intros H. f_equal. now apply Qc_is_canon. Qed.

Ltac jsnum_eq :=
  lazymatch goal with
  | |- Some (JNum _) = Some (JNum _) => apply (f_equal Some), JNum_eq
  | |- JNum _ = JNum _ => apply JNum_eq
  end; vm_compute; reflexivity.

Lemma Qcle_sub_0 (x y : Qc) : (x - y <= Q2Qc 0)%Qc <-> (x <= y)%Qc.
Proof.
  rewrite (Qcplus_le_mono_r (x - y) (Q2Qc 0) y).
  replace (x - y + y)%Qc with x by ring.
  replace (Q2Qc 0 + y)%Qc with y by ring.
  reflexivity.
Qed.

Lemma leb_sub_0 (a b : jsnum) : leb (sub a b) (ofZ 0) = leb a b.
Proof.
  destruct a as [|x], b as [|y]; simpl; try reflexivity.
  apply bool_decide_ext. apply Qcle_sub_0.
Qed.

Lemma gtb_sub_0 (a b : jsnum) : gtb (sub a b) (ofZ 0) = true -> leb a b = false.
Proof.
  destruct a as [|x], b as [|y]; simpl; try discriminate.
  intros H. apply bool_decide_eq_true in H. apply bool_decide_eq_false.
  intros Hle. apply Qcle_sub_0 in Hle. apply Qclt_not_le in H. now apply H.
Qed.

(** ** Time arithmetic *)

Lemma missing_falsy (s : option string) : missing s <-> truthy_ostr s = false.
Proof.
  unfold missing. split.
  - intros [-> | ->]; reflexivity.
  - destruct s as [[|c s]|]; simpl; intros H; auto; discriminate.
Qed.

(** C1.  [calculateTotalHours(c, o, b)] is null as soon as [c] or [o] is
    missing or empty.  Otherwise, with [d = toMinutes(o) - toMinutes(c)]:
    when [d <= 0] the result is [(1440 + toMinutes(o) - toMinutes(c) - b) / 60],
    one correction for the passage of midnight, made before the break is
    taken off and never made twice; when [d > 0] it is
    [(toMinutes(o) - toMinutes(c) - b) / 60].  From 22:00 to 06:00 without a
    break is 8 hours, and from 09:00 to 17:30 with a break of 30 minutes is
    8 hours. *)
Theorem calculateTotalHours_spec (c o : option string) (b : Z) :
  (missing c \/ missing o -> calculateTotalHours c o b = None) /\
  (~ missing c -> ~ missing o ->
   let mc := timeToMinutes (default "" c) in
   let mo := timeToMinutes (default "" o) in
   (leb (sub mo mc) (ofZ 0) = true ->
    calculateTotalHours c o b =
      Some (div (sub (sub (add (ofZ 1440) mo) mc) (ofZ b)) (ofZ 60))) /\
   (gtb (sub mo mc) (ofZ 0) = true ->
    calculateTotalHours c o b =
      Some (div (sub (sub mo mc) (ofZ b)) (ofZ 60)))) /\
  calculateTotalHours (Some "22:00") (Some "06:00") 0 = Some (ofZ 8) /\
  calculateTotalHours (Some "09:00") (Some "17:30") 30 = Some (ofZ 8).
Proof.
  split; [|split; [|split]].
  - intros H. unfold calculateTotalHours.
    destruct H as [H | H]; apply missing_falsy in H; rewrite H; simpl;
      [reflexivity | now rewrite orb_true_r].
  - intros Hc Ho mc mo.
    assert (truthy_ostr c = true) as Tc
        by (destruct (truthy_ostr c) eqn:E; [reflexivity | now apply missing_falsy in E]).
    assert (truthy_ostr o = true) as To
        by (destruct (truthy_ostr o) eqn:E; [reflexivity | now apply missing_falsy in E]).
    unfold calculateTotalHours. rewrite Tc, To. simpl.
    fold mc mo. split; intros H.
    + rewrite leb_sub_0 in H. now rewrite H.
    + apply gtb_sub_0 in H. now rewrite H.
  - vm_compute. jsnum_eq.
  - vm_compute. jsnum_eq.
Qed.

Lemma calculateTotalHours_spec_witness :
  calculateTotalHours (Some "10:00 PM") (Some "6:15 AM") 15 = Some (ofZ 8) /\
  calculateTotalHours (Some "09:00") None 15 = None.
Proof.
  destruct (calculateTotalHours_spec (Some "10:00 PM") (Some "6:15 AM") 15)
    as (_ & H & _).
  destruct (calculateTotalHours_spec (Some "09:00") None 15) as (H0 & _).
  split.
  - destruct H as [H _].
    + intros [E | E]; discriminate E.
    + intros [E | E]; discriminate E.
    + rewrite H by (vm_compute; reflexivity). vm_compute. jsnum_eq.
  - apply H0. right. left. reflexivity.
Defined.

(** ** Calendar arithmetic *)

Ltac date_unfold :=
  unfold endOfWeek, startOfWeek, startOfDay, endOfDay, addDays, subDays, getDay,
         key_yyyy_MM_dd, timeOfDay, dayOf, msPerDay in *.

Ltac date_arith := date_unfold; Z.div_mod_to_equations; lia.

Lemma dayOf_mul (d : Z) : dayOf (d * msPerDay) = d.
Proof. unfold dayOf, msPerDay. now rewrite Z.div_mul. Qed.

Lemma dayOf_addDays (t n : Z) : dayOf (addDays t n) = dayOf t + n.
Proof. unfold addDays, dayOf, msPerDay. now rewrite Z.div_add. Qed.

Lemma timeOfDay_addDays (t n : Z) : timeOfDay (addDays t n) = timeOfDay t.
Proof. unfold addDays, timeOfDay, msPerDay. now rewrite Z.mod_add. Qed.

Lemma day_time (t : Z) : t = dayOf t * msPerDay + timeOfDay t.
Proof. date_arith. Qed.

Lemma timeOfDay_range (t : Z) : 0 <= timeOfDay t < msPerDay.
Proof. date_arith. Qed.

Lemma mondayOf_isMonday (d : Z) : isMonday (mondayOf d).
Proof. unfold isMonday, mondayOf. Z.div_mod_to_equations. lia. Qed.

Lemma mondayOf_week (d : Z) : mondayOf d <= d <= mondayOf d + 6.
Proof. unfold mondayOf. Z.div_mod_to_equations. lia. Qed.

(** The Monday-start week of a day is the only run of seven days from a
    Monday that holds it. *)
Lemma mondayOf_unique (d m : Z) : isMonday m -> m <= d <= m + 6 -> m = mondayOf d.
Proof. unfold isMonday, mondayOf. intros. Z.div_mod_to_equations. lia. Qed.

Lemma mondayOf_fixed (m : Z) : isMonday m -> mondayOf m = m.
Proof. unfold isMonday, mondayOf. intros. Z.div_mod_to_equations. lia. Qed.

Lemma isMonday_add7 (m k : Z) : isMonday m -> isMonday (m + 7 * k).
Proof.
  unfold isMonday. intros H.
  replace (m + 7 * k + 4) with (m + 4 + k * 7) by lia.
  now rewrite Z.mod_add.
Qed.

Lemma startOfWeek_monday (t : Z) : startOfWeek 1 t = mondayOf (dayOf t) * msPerDay.
Proof.
  unfold mondayOf, startOfWeek.
  destruct (Z.ltb_spec (getDay t) 1); date_arith.
Qed.

Lemma endOfWeek_monday (t : Z) :
  endOfWeek 1 t = (mondayOf (dayOf t) + 6) * msPerDay + (msPerDay - 1).
Proof.
  unfold mondayOf, endOfWeek.
  destruct (Z.ltb_spec (getDay t) 1); date_arith.
Qed.

Lemma getDay_startOfWeek (t : Z) : getDay (startOfWeek 1 t) = 1.
Proof.
  rewrite startOfWeek_monday. unfold getDay. rewrite dayOf_mul.
  apply mondayOf_isMonday.
Qed.

Lemma week_key_monday (t : Z) : week_key t = mondayOf (dayOf t).
Proof. unfold week_key, key_yyyy_MM_dd. now rewrite startOfWeek_monday, dayOf_mul. Qed.

Lemma format_MMM_d_day (t : Z) : format_MMM_d t = short_date (dayOf t).
Proof.
  unfold short_date, format_MMM_d, getMonth1, getDate. now rewrite dayOf_mul.
Qed.

Lemma week_label_monday (t : Z) :
  week_label t = short_date (mondayOf (dayOf t)) ++ " - "
                 ++ short_date (mondayOf (dayOf t) + 6).
Proof.
  unfold week_label. rewrite !format_MMM_d_day.
  rewrite startOfWeek_monday, endOfWeek_monday, dayOf_mul.
  replace (dayOf ((mondayOf (dayOf t) + 6) * msPerDay + (msPerDay - 1)))
    with (mondayOf (dayOf t) + 6); [reflexivity|].
  date_arith.
Qed.

(** ** The loops over dates *)

Lemma fold_left_pointwise {A B : Type} (f g : A -> B -> A) (l : list B) :
  (forall a x, f a x = g a x) -> forall a, fold_left f l a = fold_left g l a.
Proof.
  intros H. induction l as [|x l IH]; intros a; simpl; [reflexivity|].
  now rewrite H, IH.
Qed.

Lemma fold_left_seq_S {A : Type} (f : A -> nat -> A) (n : nat) :
  forall s a, fold_left f (seq (S s) n) a = fold_left (fun a i => f a (S i)) (seq s n) a.
Proof.
  induction n as [|n IH]; intros s a; simpl; [reflexivity|]. apply IH.
Qed.

Lemma date_loop_unroll (next : Z -> Z) (body : Z -> BucketMap -> BucketMap) (endDate : Z) :
  forall (n fuel : nat) (current : Z) (acc : BucketMap),
    (n < fuel)%nat ->
    (forall i, (i < n)%nat -> Nat.iter i next current <= endDate) ->
    endDate < Nat.iter n next current ->
    date_loop fuel next body current endDate acc =
      Some (fold_left (fun a i => body (Nat.iter i next current) a) (seq 0 n) acc).
Proof.
  induction n as [|n IH]; intros fuel current acc Hf Hle Hgt.
  - destruct fuel as [|fuel]; [lia|]. simpl in *.
    destruct (Z.leb_spec current endDate); [lia | reflexivity].
  - destruct fuel as [|fuel]; [lia|]. cbn [date_loop].
    pose proof (Hle 0%nat ltac:(lia)) as H0. simpl in H0.
    destruct (Z.leb_spec current endDate); [|lia].
    rewrite (IH fuel (next current) (body current acc)).
    + f_equal. cbn [seq fold_left]. rewrite fold_left_seq_S.
      cbn [Nat.iter]. apply fold_left_pointwise. intros a i.
      now rewrite Nat.iter_succ_r.
    + lia.
    + intros i Hi. rewrite <- Nat.iter_succ_r. apply Hle. lia.
    + now rewrite <- Nat.iter_succ_r.
Qed.

Lemma iter_addDays (k : Z) (i : nat) (t : Z) :
  Nat.iter i (fun c => addDays c k) t = t + Z.of_nat i * (k * msPerDay).
Proof.
  induction i as [|i IH]; [simpl; lia|].
  rewrite Nat.iter_succ, IH. unfold addDays. lia.
Qed.

(** ** Buckets: what the entries can and cannot change *)

Lemma addEntry_label (key : Z -> Z) (m : gmap Z Bucket.t) (e : TimeEntry.t) (k : Z) :
  Bucket.label <$> (addEntry key m e !! k) = Bucket.label <$> (m !! k).
Proof.
  unfold addEntry. destruct (TimeEntry.totalHours e) as [h|]; [|reflexivity].
  destruct (m !! key (TimeEntry.date e)) as [data|] eqn:E; [|reflexivity].
  destruct (decide (k = key (TimeEntry.date e))) as [->|Hne].
  - now rewrite lookup_insert_eq, E.
  - now rewrite lookup_insert_ne by congruence.
Qed.

Lemma populate_label (key : Z -> Z) (entries : list TimeEntry.t) :
  forall (m : gmap Z Bucket.t) (k : Z),
    Bucket.label <$> (populate key m entries !! k) = Bucket.label <$> (m !! k).
Proof.
  unfold populate. induction entries as [|e entries IH]; intros m k; simpl.
  - reflexivity.
  - now rewrite IH, addEntry_label.
Qed.

Lemma toArray_labels (m : gmap Z Bucket.t) (f : Z -> string) (range : list Z) :
  (forall k, In k range -> Bucket.label <$> (m !! k) = Some (f k)) ->
  map Bucket.label (toArray m range) = map f range.
Proof.
  unfold toArray. induction range as [|k range IH]; intros H; [reflexivity|].
  cbn [omap list_omap]. fold (omap (fun k => m !! k) range).
  pose proof (H k (or_introl eq_refl)) as Hk.
  destruct (m !! k) as [b|]; [|discriminate].
  simpl in Hk. injection Hk as Hk. cbn [map]. rewrite Hk. f_equal.
  apply IH. intros k' Hin. apply H. now right.
Qed.

(** ** The weekly report *)

Lemma In_mondays_from (first w : Z) (n : nat) :
  In w (mondays_from first n) <-> exists i, (i < n)%nat /\ w = first + 7 * Z.of_nat i.
Proof.
  unfold mondays_from. rewrite in_map_iff. split.
  - intros (i & <- & Hi). apply in_seq in Hi. exists i. split; [lia | reflexivity].
  - intros (i & Hi & ->). exists i. split; [reflexivity | apply in_seq; lia].
Qed.

Lemma weekly_fold (first : Z) :
  isMonday first ->
  forall n : nat, exists M : gmap Z Bucket.t,
    fold_left (fun a i => weekly_body (Nat.iter i (fun c => addDays c 7) (first * msPerDay)) a)
              (seq 0 n) (∅, []) = (M, mondays_from first n) /\
    (forall k, In k (mondays_from first n) -> M !! k = Some (week_bucket k)) /\
    (forall k, ~ In k (mondays_from first n) -> M !! k = None).
Proof.
  intros Hm. induction n as [|n (M & Hfold & Hin & Hout)].
  - exists ∅. split; [reflexivity|]. split; [intros k []|]. intros k _. apply lookup_empty.
  - rewrite seq_S, fold_left_app, Hfold. cbn [fold_left Nat.add].
    rewrite iter_addDays.
    replace (first * msPerDay + Z.of_nat n * (7 * msPerDay))
      with ((first + 7 * Z.of_nat n) * msPerDay) by lia.
    set (w := first + 7 * Z.of_nat n).
    assert (isMonday w) as Hw by (apply isMonday_add7; exact Hm).
    assert (~ In w (mondays_from first n)) as Hnew.
    { rewrite In_mondays_from. intros (i & Hi & E). unfold w in E. lia. }
    unfold weekly_body. cbn [fst snd].
    rewrite week_key_monday, dayOf_mul, (mondayOf_fixed w Hw), (Hout w Hnew).
    rewrite week_label_monday, dayOf_mul, (mondayOf_fixed w Hw).
    exists (<[w := week_bucket w]> M).
    assert (mondays_from first (S n) = (mondays_from first n ++ [w])%list) as ER.
    { unfold mondays_from. now rewrite seq_S, map_app. }
    rewrite ER. split; [reflexivity|]. split.
    + intros k Hk. apply in_app_or in Hk. destruct Hk as [Hk | [<- | []]].
      * rewrite lookup_insert_ne; [now apply Hin|]. intros <-. now apply Hnew.
      * now rewrite lookup_insert_eq.
    + intros k Hk. rewrite lookup_insert_ne.
      * apply Hout. intros Hk'. apply Hk. apply in_or_app. now left.
      * intros <-. apply Hk. apply in_or_app. right. now left.
Qed.

Lemma weekly_init_weeks (startDate endDate : Z) :
  exists weekMap : gmap Z Bucket.t,
    weekly_init startDate endDate
      = Some (weekMap, mondays_from (mondayOf (dayOf startDate)) (week_count startDate endDate)) /\
    (forall k, In k (mondays_from (mondayOf (dayOf startDate)) (week_count startDate endDate)) ->
               weekMap !! k = Some (week_bucket k)).
Proof.
  pose proof (mondayOf_isMonday (dayOf startDate)) as Hf.
  pose proof (mondayOf_isMonday (dayOf endDate)) as Hl.
  destruct (weekly_fold _ Hf (week_count startDate endDate)) as (M & Hfold & Hin & _).
  exists M. split; [|exact Hin].
  unfold weekly_init. rewrite <- Hfold.
  rewrite startOfWeek_monday, endOfWeek_monday.
  unfold week_count in *. unfold isMonday in Hf, Hl.
  set (first := mondayOf (dayOf startDate)) in *.
  set (last := mondayOf (dayOf endDate)) in *.
  apply date_loop_unroll.
  - unfold weekly_fuel, msPerDay. Z.div_mod_to_equations. lia.
  - intros i Hi. rewrite iter_addDays. unfold msPerDay. Z.div_mod_to_equations. lia.
  - rewrite iter_addDays. unfold msPerDay. Z.div_mod_to_equations. lia.
Qed.

(** C3.  The weekly report widens the range to whole Monday-start weeks:
    from the Monday of the week of [dateFrom], at midnight, to the last
    instant of the Sunday of the week of [dateTo].  It then has exactly one
    bucket for each week of the widened range, in order: the bucket keys are
    the Mondays from the first week to the last, seven days apart, whatever
    the day of the week of [dateFrom]; and the label of a bucket is the short
    date of its Monday, then " - ", then the short date of its Sunday. *)
Theorem weekly_buckets_on_mondays (st : Store) (startDate endDate : Z)
    (employeeId : option Z) :
  let first := mondayOf (dayOf startDate) in
  let last := mondayOf (dayOf endDate) in
  let weeks := mondays_from first (week_count startDate endDate) in
  (startOfWeek 1 startDate = first * msPerDay /\
   isMonday first /\ first <= dayOf startDate <= first + 6) /\
  (endOfWeek 1 endDate = (last + 6) * msPerDay + (msPerDay - 1) /\
   isMonday last /\ last <= dayOf endDate <= last + 6) /\
  (exists weekMap, weekly_init startDate endDate = Some (weekMap, weeks)) /\
  (forall w, In w weeks <-> isMonday w /\ first <= w <= last) /\
  NoDup weeks /\
  (exists buckets,
     getWeeklyReportData st startDate endDate employeeId = Some buckets /\
     length buckets = length weeks /\
     map Bucket.label buckets
       = map (fun w => short_date w ++ " - " ++ short_date (w + 6)) weeks).
Proof.
  intros first last weeks.
  pose proof (mondayOf_isMonday (dayOf startDate)) as Hf.
  pose proof (mondayOf_isMonday (dayOf endDate)) as Hl.
  fold first in Hf. fold last in Hl.
  destruct (weekly_init_weeks startDate endDate) as (weekMap & Hinit & Hin).
  fold first in Hinit, Hin. fold weeks in Hinit, Hin.
  assert (forall w, In w weeks <-> isMonday w /\ first <= w <= last) as Hweeks.
  { intros w. unfold weeks. rewrite In_mondays_from. unfold week_count.
    fold first last. unfold isMonday in *. split.
    - intros (i & Hi & ->). split.
      + replace (first + 7 * Z.of_nat i + 4) with (first + 4 + Z.of_nat i * 7) by lia.
        now rewrite Z.mod_add.
      + Z.div_mod_to_equations. lia.
    - intros (Hw & Hr). exists (Z.to_nat ((w - first) / 7)).
      Z.div_mod_to_equations. lia. }
  split; [|split; [|split; [|split; [|split]]]].
  - split; [apply startOfWeek_monday|]. split; [exact Hf | apply mondayOf_week].
  - split; [apply endOfWeek_monday|]. split; [exact Hl | apply mondayOf_week].
  - now exists weekMap.
  - exact Hweeks.
  - unfold weeks, mondays_from. apply NoDup_ListNoDup.
    apply NoDup_map_NoDup_ForallPairs; [|apply seq_NoDup].
    intros i j _ _ H. lia.
  - unfold getWeeklyReportData. rewrite Hinit.
    eexists. split; [reflexivity|].
    assert (map Bucket.label
              (toArray (populate week_key weekMap
                          (chartEntries st (startOfWeek 1 startDate) (endOfWeek 1 endDate)
                                        employeeId)) weeks)
            = map (fun w => short_date w ++ " - " ++ short_date (w + 6)) weeks) as HL.
    { apply toArray_labels. intros k Hk.
      rewrite populate_label, (Hin k Hk). reflexivity. }
    split; [|exact HL].
    apply (f_equal (@length string)) in HL. now rewrite !length_map in HL.
Qed.

(** ** The dashboard *)

Lemma add_0_l (a : jsnum) : add (ofZ 0) a = a.
Proof. destruct a as [|x]; [reflexivity|]. simpl. f_equal. apply Qcplus_0_l. Qed.

Lemma add_assoc (a b c : jsnum) : add (add a b) c = add a (add b c).
Proof.
  destruct a as [|x], b as [|y], c as [|z]; simpl; try reflexivity.
  f_equal. ring.
Qed.

Lemma fold_left_add_sumJ {A : Type} (f : A -> jsnum) (l : list A) :
  forall a, fold_left (fun acc x => add acc (f x)) l a = add a (sumJ (map f l)).
Proof.
  induction l as [|x l IH]; intros a; simpl.
  - destruct a as [|q]; [reflexivity|]. simpl. f_equal. symmetry. apply Qcplus_0_r.
  - now rewrite IH, add_assoc.
Qed.

(** The sum that the reduction over the entries accumulates is the sum of
    the total hours of the entries, an entry without a total counting 0. *)
Lemma sumHours_sumJ (l : list TimeEntry.t) : sumHours l = sumJ (map hoursOr0 l).
Proof. unfold sumHours. now rewrite fold_left_add_sumJ, add_0_l. Qed.

Lemma sumHours_totals (l : list TimeEntry.t) :
  sumHours l = sumJ (map (fun e => default (ofZ 0) (TimeEntry.totalHours e)) l).
Proof.
  rewrite sumHours_sumJ. reflexivity.
Qed.

Lemma nearest_hundredth (a : Q) (down : bool) :
  let x := (a * (100 # 1) + (1 # 2))%Q in
  let n := Qfloor x in
  let n' := if Qeq_bool (inject_Z n) x && down then n - 1 else n in
  (a - (1 # 200) <= inject_Z n' / (100 # 1) <= a + (1 # 200))%Q.
Proof.
  intros x n n'.
  pose proof (Qfloor_le x) as H1.
  pose proof (Qlt_floor x) as H2.
  fold n in H1, H2. rewrite inject_Z_plus in H2.
  change (inject_Z 1) with 1%Q in H2.
  assert (forall y : Q, y / (100 # 1) == y * (1 # 100))%Q as Hdiv by (intros y; field).
  rewrite Hdiv. subst n'.
  destruct (Qeq_bool (inject_Z n) x) eqn:E; cbn [andb].
  - apply Qeq_bool_eq in E. destruct down.
    + unfold Z.sub. rewrite inject_Z_plus, inject_Z_opp.
      change (inject_Z 1) with 1%Q. subst x. split; lra.
    + subst x. split; lra.
  - subst x. split; lra.
Qed.

(** [round2] gives a number of hundredths, at most half a hundredth away,
    whichever way the ties go. *)
Lemma round2_two_decimals (tie_up : Qc -> bool) (q : Qc) :
  exists k : Z,
    round2 tie_up q = Q2Qc (inject_Z k / (100 # 1)) /\
    (Qabs (inject_Z k / (100 # 1) - this q) <= 1 # 200)%Q.
Proof.
  unfold round2.
  set (a := Qabs (this q)).
  pose proof (nearest_hundredth a (negb (tie_up q))) as Hn. cbv zeta in Hn.
  set (n' := if Qeq_bool _ _ && negb (tie_up q) then _ else _) in *.
  destruct (bool_decide_reflect (q < Q2Qc 0)%Qc) as [Hlt | Hge].
  - exists (- n')%Z. split.
    + apply Qc_is_canon. simpl. rewrite !Qred_correct, inject_Z_opp. field.
    + assert (a == - this q)%Q as Ha.
      { apply Qabs_neg. unfold Qclt in Hlt.
        change (this (Q2Qc 0)) with 0%Q in Hlt. lra. }
      apply Qabs_Qle_condition. rewrite inject_Z_opp.
      assert (forall y : Q, y / (100 # 1) == y * (1 # 100))%Q as Hdiv by (intros y; field).
      rewrite Hdiv in *.
      set (x := inject_Z n') in *. set (y := this q) in *.
      rewrite Ha in Hn. split; lra.
  - exists n'. split; [reflexivity|].
    assert (a == this q)%Q as Ha.
    { apply Qabs_pos. apply Qcnot_lt_le in Hge. unfold Qcle in Hge.
      change (this (Q2Qc 0)) with 0%Q in Hge. lra. }
    apply Qabs_Qle_condition.
    set (x := (inject_Z n' / (100 # 1))%Q) in *. set (y := this q) in *.
    rewrite Ha in Hn. split; lra.
Qed.

(** Off the ties [round2] does not depend on the way the ties go. *)
Lemma round2_off_ties (tie_up tie_up' : Qc -> bool) (q : Qc) :
  (forall k : Z, ~ (Qabs (this q) * (100 # 1) + (1 # 2) == inject_Z k)%Q) ->
  round2 tie_up q = round2 tie_up' q.
Proof.
  intros H. unfold round2.
  destruct (Qeq_bool (inject_Z (Qfloor (Qabs (this q) * (100 # 1) + (1 # 2))))
                     (Qabs (this q) * (100 # 1) + (1 # 2))) eqn:E; [|reflexivity].
  apply Qeq_bool_eq in E. exfalso. eapply H. symmetry. exact E.
Qed.

Lemma toFixed2_nearest (tie_up : Qc -> bool) (q : Qc) :
  exists k : Z,
    toFixed2 tie_up (JNum q) = JNum (Q2Qc (inject_Z k / (100 # 1))) /\
    (Qabs (inject_Z k / (100 # 1) - this q) <= 1 # 200)%Q.
Proof.
  destruct (round2_two_decimals tie_up q) as (k & Hk & Hd).
  exists k. split; [|exact Hd]. simpl. now rewrite Hk.
Qed.

Lemma between_week (date x : Z) :
  between x (startOfDay (startOfWeek 1 date)) (endOfDay (endOfWeek 1 date))
  = bool_decide (mondayOf (dayOf x) = mondayOf (dayOf date)).
Proof.
  rewrite startOfWeek_monday, endOfWeek_monday.
  pose proof (mondayOf_isMonday (dayOf date)) as Hm.
  pose proof (mondayOf_week (dayOf x)) as Hx.
  pose proof (mondayOf_isMonday (dayOf x)) as Hmx.
  set (first := mondayOf (dayOf date)) in *.
  assert (between x (startOfDay (first * msPerDay))
                    (endOfDay ((first + 6) * msPerDay + (msPerDay - 1))) = true
          <-> first <= dayOf x <= first + 6) as Hb.
  { unfold between. rewrite andb_true_iff, !Z.leb_le. date_arith. }
  destruct (bool_decide_reflect (mondayOf (dayOf x) = first)) as [E | NE].
  - apply Hb. rewrite <- E. exact Hx.
  - apply not_true_is_false. intros Ht. apply Hb in Ht. apply NE.
    symmetry. now apply mondayOf_unique.
Qed.

Lemma weekEntries_same_week (st : Store) (date : Z) :
  weekEntries st date = List.filter (same_week date) (timeEntries st).
Proof.
  unfold weekEntries. apply filter_ext. intros e. apply between_week.
Qed.

(** C7.  [weeklyAvgHours] is the sum of the total hours of the entries that
    fall in the Monday-start week of the given date, an entry without a
    total counting 0, divided by five times the number of active employees
    and rounded to two decimals; it is 0, without any division, when no
    employee is active.  The divisor has the fixed factor 5, however many
    entries the week has.  Rounding gives the number of hundredths that is
    nearest: a whole number of hundredths at most half a hundredth away,
    and the same whichever way the ties go when the number is not halfway
    between two hundredths.  This holds whichever way the ties go. *)
Theorem dashboard_weeklyAvgHours (tie_up : Qc -> bool) (st : Store) (date : Z) :
  let active :=
    Z.of_nat (length (List.filter (fun e => String.eqb (Employee.status e) "active")
                                  (employees st))) in
  let week := List.filter (same_week date) (timeEntries st) in
  let total := sumJ (map (fun e => default (ofZ 0) (TimeEntry.totalHours e)) week) in
  DashboardStats.weeklyAvgHours (getDashboardStats tie_up st date)
    = (if active =? 0 then ofZ 0
       else toFixed2 tie_up (div total (ofZ (active * 5)))) /\
  toFixed2 tie_up JNaN = JNaN /\
  (forall q : Qc, exists k : Z,
      toFixed2 tie_up (JNum q) = JNum (Q2Qc (inject_Z k / (100 # 1))) /\
      (Qabs (inject_Z k / (100 # 1) - this q) <= 1 # 200)%Q) /\
  (forall (q : Qc) (tie_up' : Qc -> bool),
      (forall k : Z, ~ (Qabs (this q) * (100 # 1) + (1 # 2) == inject_Z k)%Q) ->
      toFixed2 tie_up (JNum q) = toFixed2 tie_up' (JNum q)).
Proof.
  intros active week total. split; [|split; [reflexivity|split]].
  - unfold getDashboardStats. cbn [DashboardStats.weeklyAvgHours].
    rewrite weekEntries_same_week, sumHours_totals.
    change (activeEmployees st)
      with (List.filter (fun e => String.eqb (Employee.status e) "active") (employees st)).
    fold active week total.
    destruct (Z.eqb_spec active 0) as [E | NE].
    + rewrite E. cbn [Z.ltb Z.compare]. apply JNum_eq. vm_compute. reflexivity.
    + assert ((0 <? active) = true) as -> by (apply Z.ltb_lt; unfold active; lia).
      reflexivity.
  - apply toFixed2_nearest.
  - intros q tie_up' H. simpl. f_equal. now apply round2_off_ties.
Qed.

(** ** Checkout and deletion *)

(** C9.  On an entry whose check-out time is already set,
    [checkoutTimeEntry] resolves with undefined and changes nothing: the
    store, and with it the entry, its check-out time and its total hours,
    is the one it was given. *)
Theorem checkout_closed_is_noop (now id : Z) (st : Store) (e : TimeEntry.t) (s : string) :
  findTimeEntry st id = Some e ->
  TimeEntry.checkOutTime e = Some s ->
  s <> "" ->
  checkoutTimeEntry now id st = Resolved (None, st) /\
  forall st', checkoutTimeEntry now id st = Resolved (None, st') ->
              findTimeEntry st' id = Some e.
Proof.
  intros Hfind Hout Hs.
  assert (checkoutTimeEntry now id st = Resolved (None, st)) as H.
  { unfold checkoutTimeEntry, getTimeEntryById. rewrite Hfind. cbn [option_map withEmployeeName].
    rewrite Hout. destruct s as [|c s]; [congruence | reflexivity]. }
  split; [exact H|]. intros st' H'. rewrite H in H'. now inversion H'; subst.
Qed.

Lemma checkout_closed_is_noop_witness :
  checkoutTimeEntry (mkDate 2024 1 2 18 30) 1 closed_store = Resolved (None, closed_store).
Proof.
  apply (checkout_closed_is_noop (mkDate 2024 1 2 18 30) 1 closed_store closed_entry "5:00 PM").
  - reflexivity.
  - reflexivity.
  - discriminate.
Defined.

Lemma filter_all {A : Type} (p : A -> bool) (l : list A) :
  (forall x, In x l -> p x = true) -> List.filter p l = l.
Proof.
  induction l as [|x l IH]; intros H; [reflexivity|]. simpl.
  rewrite (H x (or_introl eq_refl)). f_equal. apply IH. intros y Hy. apply H. now right.
Qed.

Lemma delete_where_absent (id : Z) (st : Store) :
  findTimeEntry st id = None -> delete_where id st = st.
Proof.
  unfold findTimeEntry, delete_where. intros H. destruct st as [emps rows next].
  cbn [employees timeEntries timeEntries_id_seq] in *. f_equal.
  apply filter_all. intros x Hx.
  now rewrite (find_none _ _ H x Hx).
Qed.

Lemma findTimeEntry_deleted (id : Z) (st : Store) :
  findTimeEntry (delete_where id st) id = None.
Proof.
  unfold findTimeEntry, delete_where. cbn [timeEntries].
  induction (timeEntries st) as [|x l IH]; [reflexivity|]. simpl.
  destruct (TimeEntry.id x =? id) eqn:E; simpl; [exact IH|]. now rewrite E.
Qed.

(** C10.  Deleting never fails for want of an entry.  For every id that
    the id column can hold, [deleteTimeEntry] resolves, whether or not an
    entry has the id; no entry has the id afterwards, the store is left as
    it was when none had it before, and deleting twice is deleting once.
    It rejects only for an id that the column cannot hold, where the
    statement fails.  The DELETE route never answers 404.  In the cases
    without an error, those of an authenticated session whose id is one
    that the column can hold, it answers 204 with the store that
    [deleteTimeEntry] leaves, whether or not an entry had the id; the other
    answers are 401 for a request without a session and 500 when the
    statement fails, the id being NaN or beyond the column, both with the
    store untouched. *)
Theorem delete_never_not_found (id : Z) (st : Store) :
  (int4 id = true ->
   exists st',
     deleteTimeEntry id st = Resolved st' /\
     findTimeEntry st' id = None /\
     (findTimeEntry st id = None -> st' = st) /\
     deleteTimeEntry id st' = Resolved st') /\
  (deleteTimeEntry id st = Rejected <-> int4 id = false) /\
  (forall req, Route.status (fst (Route.delete_time_entry req st)) <> 404) /\
  (forall req,
      Route.isAuthenticated req = true ->
      Route.params_id req = Some id ->
      int4 id = true ->
      exists st',
        deleteTimeEntry id st = Resolved st' /\
        Route.delete_time_entry req st = (Route.mkResponse 204 Route.Empty, st')) /\
  (forall req,
      Route.status (fst (Route.delete_time_entry req st)) = 204 \/
      snd (Route.delete_time_entry req st) = st /\
      (Route.isAuthenticated req = false /\
       Route.status (fst (Route.delete_time_entry req st)) = 401 \/
       (Route.params_id req = None \/
        exists id', Route.params_id req = Some id' /\ int4 id' = false) /\
       Route.status (fst (Route.delete_time_entry req st)) = 500)).
Proof.
  split; [|split; [|split; [|split]]].
  - intros Hid. exists (delete_where id st). unfold deleteTimeEntry. rewrite Hid.
    split; [reflexivity|]. split; [apply findTimeEntry_deleted|].
    split; [apply delete_where_absent|].
    f_equal. apply delete_where_absent, findTimeEntry_deleted.
  - unfold deleteTimeEntry. destruct (int4 id); split; intros H; congruence.
  - intros req. unfold Route.delete_time_entry, deleteTimeEntry.
    destruct (Route.isAuthenticated req); simpl; [|discriminate].
    destruct (Route.params_id req) as [id'|]; simpl; [|discriminate].
    destruct (int4 id'); simpl; discriminate.
  - intros req Ha Hp Hid. exists (delete_where id st).
    unfold Route.delete_time_entry, deleteTimeEntry. now rewrite Ha, Hp, Hid.
  - intros req. unfold Route.delete_time_entry, deleteTimeEntry.
    destruct (Route.isAuthenticated req); simpl; [|right; split; [|left]; easy].
    destruct (Route.params_id req) as [id'|]; simpl.
    + destruct (int4 id') eqn:E; simpl; [now left|].
      right. split; [reflexivity|]. right. split; [|reflexivity].
      right. now exists id'.
    + right. split; [reflexivity|]. right. split; [now left | reflexivity].
Qed.

Lemma delete_never_not_found_witness :
  deleteTimeEntry 7 closed_store = Resolved closed_store /\
  Route.delete_time_entry
    (Route.mkRequest true (Some 7)
       (Route.mkBody None Route.DateUndefined None None None)) closed_store
    = (Route.mkResponse 204 Route.Empty, closed_store).
Proof.
  destruct (delete_never_not_found 7 closed_store) as (H1 & _ & _ & H4 & _).
  destruct (H1 eq_refl) as (st' & Hdel & _ & Habs & _).
  rewrite (Habs eq_refl) in Hdel. split; [exact Hdel|].
  destruct (H4 (Route.mkRequest true (Some 7)
                  (Route.mkBody None Route.DateUndefined None None None))
               eq_refl eq_refl eq_refl) as (st'' & Hdel' & Hroute).
  rewrite Hroute. rewrite Hdel in Hdel'. now inversion Hdel'.
Defined.

(** ** Weekend dates *)

Lemma isWeekend_days (t : Z) : isWeekend t = true <-> getDay t = 0 \/ getDay t = 6.
Proof. unfold isWeekend. rewrite orb_true_iff, !Z.eqb_eq. reflexivity. Qed.

Lemma isWeekend_of_day (t t' : Z) : dayOf t' = dayOf t -> isWeekend t' = isWeekend t.
Proof. intros H. unfold isWeekend, getDay. now rewrite H. Qed.

(** What both handlers ensure: a request of an authenticated session whose
    date is of a Saturday or a Sunday on the wall clock of the server is
    answered 400 with a validation message, whatever its other fields and
    whatever the id of the update, and the store is left as it was. *)
Lemma weekend_on_server_clock_rejected (zone : Z -> Z) (now : Z) (req : Route.Request)
    (st : Store) :
  Route.isAuthenticated req = true ->
  weekend_request zone req ->
  Route.post_time_entries zone now req st
    = (Route.mkResponse 400 (Route.Message "Cannot add time entries for weekends"), st) /\
  Route.patch_time_entry zone now req st
    = (Route.mkResponse 400 (Route.Message "Cannot update time entries to weekends"), st).
Proof.
  intros Ha (t & Hd & Hw).
  unfold Route.post_time_entries, Route.patch_time_entry.
  rewrite Ha, Hd, Hw. split; reflexivity.
Qed.

(** On a server at UTC or east of it, the start of a day in UTC is an
    instant of that day on the wall clock. *)
Lemma weekend_date_east_of_utc (zone : Z -> Z) (req : Route.Request) :
  (forall t, 0 <= zone t < 24 * 60) ->
  weekend_date_request req -> weekend_request zone req.
Proof.
  intros Hz (d & Hd & Hw). exists (d * msPerDay). split; [exact Hd|].
  rewrite <- Hw. apply isWeekend_of_day. unfold toLocal, dayOf, msPerDay.
  specialize (Hz (d * 86400000)). rewrite Z.div_mul by lia.
  symmetry. apply Z.div_unique with (r := zone (d * 86400000) * 60000); lia.
Qed.

(** C8.  A request of an authenticated session whose date is of a Saturday
    or a Sunday on the wall clock of the server is answered 400 by both
    endpoints, whatever its other fields, and nothing is stored; so is,
    on a server at UTC or east of it, every request that brings a Saturday
    or a Sunday as the entry form sends it.  On a server west of UTC it is
    not: there the request for Saturday 6 January 2024, which is rejected
    at UTC, creates an entry dated that Saturday (answer 201), and as an
    update moves entry 1 to that Saturday (answer 200). *)
Theorem weekend_dates_by_server_zone :
  (forall zone now req st,
      Route.isAuthenticated req = true ->
      weekend_request zone req ->
      Route.post_time_entries zone now req st
        = (Route.mkResponse 400 (Route.Message "Cannot add time entries for weekends"), st) /\
      Route.patch_time_entry zone now req st
        = (Route.mkResponse 400 (Route.Message "Cannot update time entries to weekends"),
           st)) /\
  (forall zone now req st,
      (forall t, 0 <= zone t < 24 * 60) ->
      Route.isAuthenticated req = true ->
      weekend_date_request req ->
      Route.status (fst (Route.post_time_entries zone now req st)) = 400 /\
      snd (Route.post_time_entries zone now req st) = st /\
      Route.status (fst (Route.patch_time_entry zone now req st)) = 400 /\
      snd (Route.patch_time_entry zone now req st) = st) /\
  (let saturday := mkDate 2024 1 6 0 0 in
   let created := Route.post_time_entries five_hours_west 0 saturday_request closed_store in
   let updated := Route.patch_time_entry five_hours_west 0 saturday_request closed_store in
   getDay saturday = 6 /\
   weekend_date_request saturday_request /\
   Route.isAuthenticated saturday_request = true /\
   Route.status (fst created) = 201 /\
   option_map TimeEntry.date (findTimeEntry (snd created) 2) = Some saturday /\
   findTimeEntry closed_store 2 = None /\
   Route.status (fst updated) = 200 /\
   option_map TimeEntry.date (findTimeEntry (snd updated) 1) = Some saturday /\
   option_map TimeEntry.date (findTimeEntry closed_store 1) = Some (mkDate 2024 1 2 0 0) /\
   Route.status (fst (Route.post_time_entries utc 0 saturday_request closed_store)) = 400 /\
   Route.status (fst (Route.patch_time_entry utc 0 saturday_request closed_store)) = 400).
Proof.
  split; [exact weekend_on_server_clock_rejected|]. split.
  - intros zone now req st Hz Ha Hw.
    destruct (weekend_on_server_clock_rejected zone now req st Ha
                (weekend_date_east_of_utc zone req Hz Hw)) as [-> ->].
    repeat split.
  - cbv zeta. split; [reflexivity|]. split.
    { exists 19728. split; reflexivity. }
    split; [reflexivity|].
    split; [vm_compute; reflexivity|]. split; [vm_compute; reflexivity|].
    split; [reflexivity|].
    split; [vm_compute; reflexivity|]. split; [vm_compute; reflexivity|].
    split; [reflexivity|]. split; vm_compute; reflexivity.
Qed.


(** ** Total hours of created and updated entries *)

(** What [createTimeEntry] stores as total hours comes from the times and
    the break alone: a [totalHours] in its input is never looked at. *)
Lemma createTimeEntry_totalHours (now : Z) (data : InsertTimeEntry.t) (st st' : Store)
    (e : TimeEntry.t) (n : option string) :
  createTimeEntry now data st = Resolved ((e, n), st') ->
  In e (timeEntries st') /\
  TimeEntry.totalHours e =
    (if truthy_ostr (InsertTimeEntry.checkOutTime data)
     then calculateTotalHours (InsertTimeEntry.checkInTime data)
                              (InsertTimeEntry.checkOutTime data)
                              (default 0 (InsertTimeEntry.breakMinutes data))
     else None).
Proof.
  unfold createTimeEntry.
  destruct (formatTime (default "" (InsertTimeEntry.checkInTime data))) as [fi|];
    [|discriminate].
  destruct (truthy_ostr (InsertTimeEntry.checkOutTime data)) eqn:T.
  - destruct (formatTime (default "" (InsertTimeEntry.checkOutTime data))) as [fo|];
      [|discriminate].
    cbn [option_map withEmployeeName]. destruct (int4 _ && writable _ _ _); [|discriminate].
    intros H. inversion H; subst; clear H.
    cbn [timeEntries TimeEntry.totalHours]. split; [|reflexivity].
    apply in_or_app. right. now left.
  - cbn [withEmployeeName]. destruct (int4 _ && writable _ _ _); [|discriminate].
    intros H. inversion H; subst; clear H.
    cbn [timeEntries TimeEntry.totalHours]. split; [|reflexivity].
    apply in_or_app. right. now left.
Qed.

Lemma find_app_none {A : Type} (p : A -> bool) (l l' : list A) :
  List.find p l = None -> List.find p (l ++ l') = List.find p l'.
Proof.
  induction l as [|x l IH]; [reflexivity|]. simpl.
  destruct (p x); [discriminate | exact IH].
Qed.

Lemma find_app_some {A : Type} (p : A -> bool) (l l' : list A) (x : A) :
  List.find p l = Some x -> List.find p (l ++ l') = Some x.
Proof.
  induction l as [|y l IH]; [discriminate|]. simpl.
  destruct (p y); [trivial | exact IH].
Qed.

Lemma find_none_all {A : Type} (p : A -> bool) (l : list A) :
  (forall x, In x l -> p x = false) -> List.find p l = None.
Proof.
  induction l as [|x l IH]; intros H; [reflexivity|]. simpl.
  rewrite (H x (or_introl eq_refl)). apply IH. intros y Hy. apply H. now right.
Qed.

Lemma find_update_rows {A : Type} (key : A -> Z) (id : Z) (f : A -> A) (l : list A) :
  (forall e, key (f e) = key e) ->
  List.find (fun e => key e =? id) (update_rows (fun e => key e =? id) f l)
  = option_map f (List.find (fun e => key e =? id) l).
Proof.
  intros Hid. unfold update_rows. rewrite find_app_none.
  - induction l as [|x l IH]; [reflexivity|]. cbn [List.filter List.find].
    destruct (key x =? id) eqn:E; [|exact IH].
    cbn [map List.find option_map]. now rewrite Hid, E.
  - apply find_none_all. intros x Hx. apply List.filter_In in Hx.
    destruct Hx as [_ Hx]. now destruct (key x =? id).
Qed.

Lemma find_filter_other {A : Type} (key : A -> Z) (id id' : Z) (l : list A) :
  id' <> id ->
  List.find (fun e => key e =? id') (List.filter (fun e => negb (key e =? id)) l)
  = List.find (fun e => key e =? id') l.
Proof.
  intros Hne. induction l as [|x l IH]; [reflexivity|]. simpl.
  destruct (Z.eqb_spec (key x) id) as [E | NE]; simpl.
  - rewrite IH. destruct (Z.eqb_spec (key x) id'); [congruence | reflexivity].
  - destruct (key x =? id'); [reflexivity | exact IH].
Qed.

Lemma find_app_none_r {A : Type} (p : A -> bool) (l l' : list A) :
  List.find p l' = None -> List.find p (l ++ l') = List.find p l.
Proof.
  intros H. induction l as [|x l IH]; [exact H|]. simpl. now destruct (p x).
Qed.

Lemma find_update_rows_other {A : Type} (key : A -> Z) (id id' : Z) (f : A -> A)
    (l : list A) :
  id' <> id ->
  (forall e, key (f e) = key e) ->
  List.find (fun e => key e =? id') (update_rows (fun e => key e =? id) f l)
  = List.find (fun e => key e =? id') l.
Proof.
  intros Hne Hid. unfold update_rows. rewrite find_app_none_r.
  - now apply find_filter_other.
  - apply find_none_all. intros x Hx. apply in_map_iff in Hx.
    destruct Hx as (y & <- & Hy). apply List.filter_In in Hy. destruct Hy as [_ Hy].
    apply Z.eqb_eq in Hy. rewrite Hid. apply Z.eqb_neq. lia.
Qed.

Lemma In_update_rows {A : Type} (matches : A -> bool) (f : A -> A) (l : list A) (x : A) :
  In x (update_rows matches f l) <->
  (In x l /\ matches x = false) \/ (exists y, In y l /\ matches y = true /\ x = f y).
Proof.
  unfold update_rows. rewrite in_app_iff, List.filter_In, in_map_iff. split.
  - intros [[H1 H2] | (y & <- & Hy)].
    + left. split; [exact H1|]. now destruct (matches x).
    + right. exists y. apply List.filter_In in Hy. tauto.
  - intros [[H1 H2] | (y & H1 & H2 & ->)].
    + left. now rewrite H2.
    + right. exists y. split; [reflexivity|]. apply List.filter_In. tauto.
Qed.

Lemma update_rows_perm {A : Type} (matches : A -> bool) (l : list A) :
  Permutation (List.filter (fun r => negb (matches r)) l ++ List.filter matches l) l.
Proof.
  induction l as [|x l IH]; [reflexivity|]. cbn [List.filter].
  destruct (matches x); cbn [negb].
  - rewrite <- Permutation_middle. now constructor.
  - cbn [app]. now constructor.
Qed.

Lemma update_rows_ids {A : Type} (key : A -> Z) (id : Z) (f : A -> A) (l : list A) :
  (forall e, key (f e) = key e) ->
  Permutation (map key (update_rows (fun e => key e =? id) f l)) (map key l).
Proof.
  intros Hid. unfold update_rows. rewrite map_app, map_map.
  rewrite (map_ext (fun x => key (f x)) key) by exact Hid.
  rewrite <- map_app.
  apply Permutation_map, update_rows_perm.
Qed.

Lemma update_rows_none {A : Type} (matches : A -> bool) (f : A -> A) (l : list A) :
  List.find matches l = None -> update_rows matches f l = l.
Proof.
  intros H. unfold update_rows.
  assert (forall x, In x l -> matches x = false) as Hall by (apply find_none; exact H).
  clear H. induction l as [|x l IH]; [reflexivity|]. cbn [List.filter].
  rewrite (Hall x (or_introl eq_refl)). cbn [negb app]. f_equal.
  apply IH. intros y Hy. apply Hall. now right.
Qed.

(** When [updateTimeEntry] has a check-in and a check-out time at hand, from
    its input or else from the stored entry, the total hours it stores are
    those of [calculateTotalHours] on them. *)
Lemma updateTimeEntry_totalHours (now id : Z) (data : PartialTimeEntry.t) (st st' : Store)
    (cur : TimeEntry.t) (r : option TimeEntryWithName) :
  findTimeEntry st id = Some cur ->
  let checkInTime :=
    or_str (PartialTimeEntry.checkInTime data) (Some (TimeEntry.checkInTime cur)) in
  let checkOutTime :=
    or_str (PartialTimeEntry.checkOutTime data) (TimeEntry.checkOutTime cur) in
  let breakMinutes :=
    match PartialTimeEntry.breakMinutes data with
    | Some b => Some b
    | None => TimeEntry.breakMinutes cur
    end in
  truthy_ostr checkInTime = true ->
  truthy_ostr checkOutTime = true ->
  updateTimeEntry now id data st = Resolved (r, st') ->
  exists e n,
    r = Some (e, n) /\ findTimeEntry st' id = Some e /\
    TimeEntry.totalHours e
      = calculateTotalHours checkInTime checkOutTime (default 0 breakMinutes).
Proof.
  intros Hfind ci co bm Tci Tco.
  unfold updateTimeEntry, getTimeEntryById. rewrite Hfind.
  cbn [option_map withEmployeeName]. fold ci co bm. rewrite Tci, Tco. cbn [andb].
  destruct (if truthy_ostr (PartialTimeEntry.checkInTime data)
            then option_map Some (formatTime (default "" (PartialTimeEntry.checkInTime data)))
            else Some (PartialTimeEntry.checkInTime data)) as [inT|]; [|discriminate].
  destruct (if truthy_ostr (PartialTimeEntry.checkOutTime data)
            then option_map Some (formatTime (default "" (PartialTimeEntry.checkOutTime data)))
            else Some (PartialTimeEntry.checkOutTime data)) as [outT|]; [|discriminate].
  destruct (writable _ _ _); [|discriminate].
  intros H. inversion H; subst; clear H.
  unfold findTimeEntry. cbn [timeEntries].
  rewrite find_update_rows by reflexivity.
  unfold findTimeEntry in Hfind. rewrite Hfind. cbn [option_map].
  eexists. eexists. split; [reflexivity|]. split; reflexivity.
Qed.

(** C6 does not hold of [updateTimeEntry].  An update of an entry that is
    still open, with no check-out time in the update either, recomputes
    nothing, and the copy of the input that is written to the row carries
    the caller's [totalHours] with it: the entry stays without a check-out
    time and stores 5 hours that no time arithmetic produced.
    [createTimeEntry] discards the same field. *)
Theorem update_open_entry_stores_caller_totalHours :
  let data := PartialTimeEntry.mk None None None None None (Some (ofZ 5)) None None in
  exists e st',
    updateTimeEntry (mkDate 2024 1 2 12 0) 1 data open_store
      = Resolved (Some (e, Some "Ann"), st') /\
    findTimeEntry st' 1 = Some e /\
    TimeEntry.checkOutTime e = None /\
    TimeEntry.totalHours e = Some (ofZ 5) /\
    calculateTotalHours (Some (TimeEntry.checkInTime e)) (TimeEntry.checkOutTime e) 0 = None.
Proof.
  intros data. eexists. eexists.
  split; [vm_compute; reflexivity|].
  repeat split; vm_compute; reflexivity.
Qed.

(** ** Months: the calendar conversions are inverse and months advance *)

Lemma civil_roundtrip (n : Z) :
  days_from_civil (fst (fst (civil_from_days n))) (snd (fst (civil_from_days n)))
                  (snd (civil_from_days n)) = n /\
  1 <= snd (fst (civil_from_days n)) <= 12.
Proof.
  unfold civil_from_days. cbv zeta. cbn [fst snd].
  set (z := n + 719468).
  set (era := z / 146097).
  set (doe := z - era * 146097).
  set (yoe := (doe - doe / 1460 + doe / 36524 - doe / 146096) / 365).
  set (doy := doe - (365 * yoe + yoe / 4 - yoe / 100)).
  set (mp := (5 * doy + 2) / 153).
  assert (0 <= doe <= 146096) as Hdoe by (unfold doe, era; Z.div_mod_to_equations; lia).
  assert (0 <= yoe <= 399 /\ 0 <= doy <= 365) as [Hyoe Hdoy]
      by (unfold doy, yoe; Z.div_mod_to_equations; lia).
  assert (0 <= mp <= 11) as Hmp by (unfold mp; Z.div_mod_to_equations; lia).
  unfold days_from_civil. cbv zeta.
  destruct (Z.ltb_spec mp 10) as [Hlt | Hge].
  - destruct (Z.leb_spec (mp + 3) 2); [lia|].
    destruct (Z.ltb_spec 2 (mp + 3)); [|lia].
    split; [|lia].
    replace (mp + 3 - 3) with mp by lia.
    replace (yoe + era * 400 + 0 - 0) with (yoe + era * 400) by lia.
    replace ((yoe + era * 400) / 400) with era by (Z.div_mod_to_equations; lia).
    replace (yoe + era * 400 - era * 400) with yoe by lia.
    unfold doy, doe, z. lia.
  - destruct (Z.leb_spec (mp - 9) 2); [|lia].
    destruct (Z.ltb_spec 2 (mp - 9)); [lia|].
    split; [|lia].
    replace (mp - 9 + 9) with mp by lia.
    replace (yoe + era * 400 + 1 - 1) with (yoe + era * 400) by lia.
    replace ((yoe + era * 400) / 400) with era by (Z.div_mod_to_equations; lia).
    replace (yoe + era * 400 - era * 400) with yoe by lia.
    unfold doy, doe, z. lia.
Qed.

Lemma year_days (y : Z) : 365 <= march_first (y + 1) - march_first y <= 366.
Proof.
  unfold march_first.
  assert ((y + 1) / 400 = y / 400 \/ ((y + 1) / 400 = y / 400 + 1 /\ y mod 400 = 399))
    as [E | [E Hm]] by (Z.div_mod_to_equations; lia).
  - rewrite E. Z.div_mod_to_equations. lia.
  - rewrite E.
    assert (y - y / 400 * 400 = 399) as -> by (Z.div_mod_to_equations; lia).
    replace (y + 1 - (y / 400 + 1) * 400) with 0 by (Z.div_mod_to_equations; lia).
    change (399 / 4) with 99. change (399 / 100) with 3.
    change (0 / 4) with 0. change (0 / 100) with 0. lia.
Qed.

Lemma days_from_civil_JanFeb (y m d : Z) :
  m <= 2 ->
  days_from_civil y m d = march_first (y - 1) + (153 * (m + 9) + 2) / 5 + d - 1 - 719468.
Proof.
  intros H. unfold days_from_civil, march_first.
  destruct (Z.leb_spec m 2); [|lia]. destruct (Z.ltb_spec 2 m); [lia|]. lia.
Qed.

Lemma days_from_civil_MarDec (y m d : Z) :
  2 < m ->
  days_from_civil y m d = march_first y + (153 * (m - 3) + 2) / 5 + d - 1 - 719468.
Proof.
  intros H. unfold days_from_civil, march_first.
  destruct (Z.leb_spec m 2); [lia|]. destruct (Z.ltb_spec 2 m); [|lia].
  replace (y - 0) with y by lia. lia.
Qed.

Lemma next_month_advance (y m d : Z) :
  1 <= m <= 12 ->
  days_from_civil (fst (next_month y m)) (snd (next_month y m)) d
    >= days_from_civil y m d + 28.
Proof.
  intros Hm. unfold next_month.
  destruct (Z.eqb_spec m 12) as [-> | Hne]; cbn [fst snd].
  - rewrite days_from_civil_JanFeb, days_from_civil_MarDec by lia.
    replace (y + 1 - 1) with y by lia. Z.div_mod_to_equations. lia.
  - destruct (Z.le_gt_cases m 1) as [H1 | H1].
    + assert (m = 1) as -> by lia.
      rewrite !days_from_civil_JanFeb by lia.
      change ((153 * (1 + 1 + 9) + 2) / 5) with 337.
      change ((153 * (1 + 9) + 2) / 5) with 306. lia.
    + destruct (Z.eq_dec m 2) as [-> | H2].
      * rewrite (days_from_civil_JanFeb y 2), (days_from_civil_MarDec y (2 + 1)) by lia.
        pose proof (year_days (y - 1)) as Hy. replace (y - 1 + 1) with y in Hy by lia.
        change ((153 * (2 + 1 - 3) + 2) / 5) with 0.
        change ((153 * (2 + 9) + 2) / 5) with 337. lia.
      * rewrite !days_from_civil_MarDec by lia. Z.div_mod_to_equations. lia.
Qed.

Lemma setNextMonth_advance (t : Z) : t + 28 * msPerDay <= setNextMonth t.
Proof.
  unfold setNextMonth, getFullYear, getMonth1, getDate.
  destruct (civil_roundtrip (dayOf t)) as [Hrt Hm].
  pose proof (next_month_advance (fst (fst (civil_from_days (dayOf t))))
                (snd (fst (civil_from_days (dayOf t))))
                (snd (civil_from_days (dayOf t))) Hm) as Hadv.
  rewrite Hrt in Hadv.
  destruct (next_month _ _) as [y' m']. cbn [fst snd] in Hadv.
  pose proof (day_time t) as Ht.
  set (D := days_from_civil y' m' (snd (civil_from_days (dayOf t)))) in *.
  unfold msPerDay in *. lia.
Qed.

(** A loop whose step moves the date on by at least four weeks ends when
    it has one test of fuel for each four weeks of the range, and one more. *)
Lemma date_loop_total (next : Z -> Z) (body : Z -> BucketMap -> BucketMap) (endDate : Z) :
  (forall t, t + 28 * msPerDay <= next t) ->
  forall (fuel : nat) (current : Z) (acc : BucketMap),
    (Z.to_nat ((endDate - current) / (28 * msPerDay) + 1) < fuel)%nat ->
    exists r, date_loop fuel next body current endDate acc = Some r.
Proof.
  intros Hnext. induction fuel as [|fuel IH]; intros current acc Hf; [lia|].
  cbn [date_loop]. destruct (Z.leb_spec current endDate) as [Hle | Hgt].
  - apply IH. specialize (Hnext current).
    unfold msPerDay in *. Z.div_mod_to_equations. lia.
  - eexists. reflexivity.
Qed.

Lemma monthly_init_total (startDate endDate : Z) :
  exists r, monthly_init startDate endDate = Some r.
Proof.
  unfold monthly_init. apply date_loop_total.
  - apply setNextMonth_advance.
  - unfold monthly_fuel. lia.
Qed.

(** ** The daily report *)

Lemma format_EEE_MMM_d_day (t : Z) : format_EEE_MMM_d t = day_label (dayOf t).
Proof.
  unfold day_label, format_EEE_MMM_d, getDay. rewrite !format_MMM_d_day.
  now rewrite dayOf_mul.
Qed.

Lemma In_days_from (first d : Z) (n : nat) :
  In d (days_from first n) <-> first <= d < first + Z.of_nat n.
Proof.
  unfold days_from. rewrite in_map_iff. split.
  - intros (i & <- & Hi). apply in_seq in Hi. lia.
  - intros H. exists (Z.to_nat (d - first)). split; [lia | apply in_seq; lia].
Qed.

Lemma daily_fold (startDate : Z) :
  forall n : nat, exists M : gmap Z Bucket.t,
    fold_left (fun a i => daily_body (Nat.iter i (fun c => addDays c 1) startDate) a)
              (seq 0 n) (∅, []) = (M, days_from (dayOf startDate) n) /\
    (forall k, In k (days_from (dayOf startDate) n) -> M !! k = Some (day_bucket k)) /\
    (forall k, ~ In k (days_from (dayOf startDate) n) -> M !! k = None).
Proof.
  induction n as [|n (M & Hfold & Hin & Hout)].
  - exists ∅. split; [reflexivity|]. split; [intros k []|]. intros k _. apply lookup_empty.
  - rewrite seq_S, fold_left_app, Hfold. cbn [fold_left Nat.add].
    rewrite iter_addDays. unfold daily_body. cbn [fst snd].
    rewrite format_EEE_MMM_d_day. unfold key_yyyy_MM_dd.
    replace (dayOf (startDate + Z.of_nat n * (1 * msPerDay)))
      with (dayOf startDate + Z.of_nat n)
      by (rewrite <- (dayOf_addDays startDate (Z.of_nat n)); unfold addDays; f_equal; lia).
    set (d := dayOf startDate + Z.of_nat n).
    exists (<[d := day_bucket d]> M).
    assert (days_from (dayOf startDate) (S n) = (days_from (dayOf startDate) n ++ [d])%list)
      as ER by (unfold days_from; now rewrite seq_S, map_app).
    rewrite ER. split; [reflexivity|]. split.
    + intros k Hk. apply in_app_or in Hk. destruct Hk as [Hk | [<- | []]].
      * rewrite lookup_insert_ne; [now apply Hin|].
        apply In_days_from in Hk. unfold d. lia.
      * now rewrite lookup_insert_eq.
    + intros k Hk. rewrite lookup_insert_ne.
      * apply Hout. intros Hk'. apply Hk. apply in_or_app. now left.
      * intros <-. apply Hk. apply in_or_app. right. now left.
Qed.

(** The daily loop ends, with one bucket for each of [daily_count] days
    from the day of [startDate] on. *)
Lemma daily_init_days (startDate endDate : Z) :
  exists dateMap : gmap Z Bucket.t,
    daily_init startDate endDate
      = Some (dateMap, days_from (dayOf startDate) (daily_count startDate endDate)) /\
    (forall k, In k (days_from (dayOf startDate) (daily_count startDate endDate)) ->
               dateMap !! k = Some (day_bucket k)) /\
    (forall k, ~ In k (days_from (dayOf startDate) (daily_count startDate endDate)) ->
               dateMap !! k = None).
Proof.
  destruct (daily_fold startDate (daily_count startDate endDate)) as (M & Hfold & Hin & Hout).
  exists M. split; [|split; assumption].
  unfold daily_init. rewrite <- Hfold. apply date_loop_unroll.
  - unfold daily_fuel, daily_count. lia.
  - intros i Hi. rewrite iter_addDays. unfold daily_count, msPerDay in *.
    Z.div_mod_to_equations. lia.
  - rewrite iter_addDays. unfold daily_count, msPerDay in *.
    Z.div_mod_to_equations. lia.
Qed.

(** When the time of day of [startDate] is not after that of [endDate], as
    with two dates at midnight, the loop visits every calendar day of the
    range; when it is after, the loop stops one day short. *)
Lemma daily_count_aligned (startDate endDate : Z) :
  startDate <= endDate ->
  timeOfDay startDate <= timeOfDay endDate ->
  days_from (dayOf startDate) (daily_count startDate endDate)
    = calendar_days startDate endDate.
Proof.
  intros Hle Ht. unfold calendar_days, daily_count. f_equal. f_equal. date_arith.
Qed.

Lemma daily_count_short (startDate endDate : Z) :
  startDate <= endDate ->
  timeOfDay endDate < timeOfDay startDate ->
  Z.of_nat (daily_count startDate endDate) = dayOf endDate - dayOf startDate /\
  Z.of_nat (length (calendar_days startDate endDate)) = dayOf endDate - dayOf startDate + 1.
Proof.
  intros Hle Ht. unfold calendar_days, days_from, daily_count.
  rewrite length_map, length_seq. date_arith.
Qed.

Lemma getDailyReportData_total (st : Store) (startDate endDate : Z) (employeeId : option Z) :
  exists buckets, getDailyReportData st startDate endDate employeeId = Some buckets /\
    map Bucket.label buckets
      = map day_label (days_from (dayOf startDate) (daily_count startDate endDate)).
Proof.
  destruct (daily_init_days startDate endDate) as (M & Hinit & Hin & _).
  unfold getDailyReportData. rewrite Hinit. eexists. split; [reflexivity|].
  apply toArray_labels. intros k Hk. now rewrite populate_label, (Hin k Hk).
Qed.

Lemma getWeeklyReportData_total (st : Store) (startDate endDate : Z) (employeeId : option Z) :
  exists buckets, getWeeklyReportData st startDate endDate employeeId = Some buckets.
Proof.
  destruct (weekly_init_weeks startDate endDate) as (M & Hinit & _).
  unfold getWeeklyReportData. rewrite Hinit. eexists. reflexivity.
Qed.

Lemma getMonthlyReportData_total (st : Store) (startDate endDate : Z) (employeeId : option Z) :
  exists buckets, getMonthlyReportData st startDate endDate employeeId = Some buckets.
Proof.
  destruct (monthly_init_total startDate endDate) as ([M R] & Hinit).
  unfold getMonthlyReportData. rewrite Hinit. eexists. reflexivity.
Qed.

(** [generateReport] always produces a report, whose summary and totals
    are those of the summary functions. *)
Lemma generateReport_total (now : Z) (filters : ReportFilters.t) (st : Store) :
  exists r, generateReport now filters st = Some r /\
    Report.summaryData r
      = getEmployeeSummaryData st
          (default (subDays now 7) (ReportFilters.dateFrom filters))
          (default now (ReportFilters.dateTo filters))
          (ReportFilters.employeeId filters) /\
    Report.employeeTotals r = calculateTotals (Report.summaryData r).
Proof.
  unfold generateReport.
  set (startDate := default (subDays now 7) (ReportFilters.dateFrom filters)).
  set (endDate := default now (ReportFilters.dateTo filters)).
  set (emp := ReportFilters.employeeId filters).
  destruct (getDailyReportData_total st startDate endDate emp) as (bd & Hd & _).
  destruct (getWeeklyReportData_total st startDate endDate emp) as (bw & Hw).
  destruct (getMonthlyReportData_total st startDate endDate emp) as (bm & Hm).
  unfold getCustomReportData.
  destruct (String.eqb _ "daily"); [rewrite Hd; eexists; repeat split|].
  destruct (String.eqb _ "weekly"); [rewrite Hw; eexists; repeat split|].
  destruct (String.eqb _ "monthly"); [rewrite Hm; eexists; repeat split|].
  rewrite Hd. eexists. repeat split.
Qed.

(** ** The grand totals *)

Lemma fold_left_add_sumZ {A : Type} (f : A -> Z) (l : list A) :
  forall a, fold_left (fun acc x => acc + f x) l a = a + sumZ (map f l).
Proof.
  induction l as [|x l IH]; intros a; simpl; [lia|]. rewrite IH. lia.
Qed.

Lemma summaryRow_days_nonneg (employee : Employee.t) (entries : list TimeEntry.t) :
  0 <= SummaryRow.totalDays (summaryRow employee entries).
Proof. unfold summaryRow. cbn [SummaryRow.totalDays]. lia. Qed.

Lemma getEmployeeSummaryData_days_nonneg (st : Store) (startDate endDate : Z)
    (employeeId : option Z) :
  0 <= sumZ (map SummaryRow.totalDays
                 (getEmployeeSummaryData st startDate endDate employeeId)).
Proof.
  unfold getEmployeeSummaryData.
  generalize (match employee_filter employeeId with
              | Some i => match getEmployeeById st i with
                          | Some e => [e]
                          | None => []
                          end
              | None => activeEmployees st
              end).
  intros l. unfold sumZ. induction l as [|x l IH]; [simpl; lia|].
  cbn [omap list_omap].
  destruct (List.filter _ (timeEntries st)) as [|e es]; [exact IH|].
  cbn [map foldr].
  pose proof (summaryRow_days_nonneg x (e :: es)). lia.
Qed.

(** C5, as stated, fails in its last part: rows of unequal day counts do
    not make the grand average differ from the mean of the row averages.
    With one day of 8 hours in one row and two days of 8 hours in the other,
    both are 8. *)
Lemma grand_average_meets_mean_of_averages :
  (exists r,
     generateReport 0 first_week_of_2024 even_store = Some r /\
     Report.summaryData r <> [] /\
     unequal_day_counts (Report.summaryData r) /\
     Totals.avgDailyHours (Report.employeeTotals r)
       = mean_of_row_averages (Report.summaryData r)) /\
  ~ (forall now filters st r,
        generateReport now filters st = Some r ->
        Report.summaryData r <> [] ->
        unequal_day_counts (Report.summaryData r) ->
        Totals.avgDailyHours (Report.employeeTotals r)
          <> mean_of_row_averages (Report.summaryData r)).
Proof.
  assert (exists r,
     generateReport 0 first_week_of_2024 even_store = Some r /\
     Report.summaryData r <> [] /\
     unequal_day_counts (Report.summaryData r) /\
     Totals.avgDailyHours (Report.employeeTotals r)
       = mean_of_row_averages (Report.summaryData r)) as H.
  { destruct (generateReport_total 0 first_week_of_2024 even_store) as (r & Hr & Hs & Ht).
    exists r. split; [exact Hr|]. rewrite Ht, Hs. split; [|split].
    - vm_compute. discriminate.
    - exists 1, 2. vm_compute. split; [now left|]. split; [right; now left | discriminate].
    - vm_compute. apply JNum_eq. reflexivity. }
  split; [exact H|].
  destruct H as (r & Hr & Hne & Hu & He). intros Hall.
  exact (Hall 0 first_week_of_2024 even_store r Hr Hne Hu He).
Qed.

(** C5, amended.  A report is always produced.  When its summary list is
    not empty, the [totalDays], [totalHours] and [totalBreakMinutes] of the
    grand totals are the sums of those fields over the summary rows, and
    [avgDailyHours] is the total hours divided by the total days, 0 when the
    total days are 0.  That is not the mean of the averages of the rows: the
    two can differ when the rows have unequal day counts, as they do for one
    day of 4 hours and three days of 8 hours (7 against 6). *)
Theorem report_grand_totals (now : Z) (filters : ReportFilters.t) (st : Store) :
  (exists r,
     generateReport now filters st = Some r /\
     (Report.summaryData r <> [] ->
      let rows := Report.summaryData r in
      let t := Report.employeeTotals r in
      Totals.totalDays t = sumZ (map SummaryRow.totalDays rows) /\
      Totals.totalHours t = sumJ (map SummaryRow.totalHours rows) /\
      Totals.totalBreakMinutes t = sumZ (map SummaryRow.totalBreakMinutes rows) /\
      Totals.avgDailyHours t
        = (if Totals.totalDays t =? 0 then ofZ 0
           else div (Totals.totalHours t) (ofZ (Totals.totalDays t))))) /\
  (exists r,
     generateReport 0 first_week_of_2024 uneven_store = Some r /\
     unequal_day_counts (Report.summaryData r) /\
     Totals.avgDailyHours (Report.employeeTotals r) = ofZ 7 /\
     mean_of_row_averages (Report.summaryData r) = ofZ 6).
Proof.
  split.
  - destruct (generateReport_total now filters st) as (r & Hr & Hs & Ht).
    exists r. split; [exact Hr|]. intros Hne rows t. subst t. rewrite Ht.
    pose proof (getEmployeeSummaryData_days_nonneg st
                  (default (subDays now 7) (ReportFilters.dateFrom filters))
                  (default now (ReportFilters.dateTo filters))
                  (ReportFilters.employeeId filters)) as Hnn.
    rewrite <- Hs in Hnn. fold rows in Hnn, Hne.
    unfold calculateTotals. fold rows.
    destruct rows as [|x rows'] eqn:E; [congruence|]. rewrite <- E in *.
    cbn [Totals.totalDays Totals.totalHours Totals.totalBreakMinutes Totals.avgDailyHours].
    rewrite !fold_left_add_sumZ, fold_left_add_sumJ, add_0_l, !Z.add_0_l.
    repeat split.
    destruct (Z.eqb_spec (sumZ (map SummaryRow.totalDays rows)) 0) as [E0 | N0].
    + rewrite E0. reflexivity.
    + assert ((0 <? sumZ (map SummaryRow.totalDays rows)) = true) as ->
          by (apply Z.ltb_lt; lia).
      reflexivity.
  - destruct (generateReport_total 0 first_week_of_2024 uneven_store) as (r & Hr & Hs & Ht).
    exists r. split; [exact Hr|]. rewrite Ht, Hs. split; [|split].
    + exists 1, 3. vm_compute. split; [now left|]. split; [right; now left | discriminate].
    + vm_compute. apply JNum_eq. reflexivity.
    + vm_compute. apply JNum_eq. reflexivity.
Qed.

Lemma report_grand_totals_witness :
  exists r,
    generateReport 0 first_week_of_2024 uneven_store = Some r /\
    Totals.totalDays (Report.employeeTotals r) = 4 /\
    Totals.totalHours (Report.employeeTotals r) = ofZ 28.
Proof.
  destruct (report_grand_totals 0 first_week_of_2024 uneven_store) as ((r & Hr & H) & _).
  exists r. split; [exact Hr|].
  destruct (generateReport_total 0 first_week_of_2024 uneven_store) as (r' & Hr' & Hs & _).
  rewrite Hr in Hr'. injection Hr' as <-.
  destruct H as (Hd & Hh & _).
  - rewrite Hs. vm_compute. discriminate.
  - cbv zeta in Hd, Hh. rewrite Hd, Hh, Hs. split.
    + vm_compute. reflexivity.
    + vm_compute. apply JNum_eq. reflexivity.
Defined.

(** ** The daily report stops short *)

(** C2 does not hold of the code.  From 1 January 2024, 18:00, to
    3 January 2024, 09:00, the range holds three calendar days and the
    report has two buckets: the loop steps by whole days from [startDate]
    itself and compares instants, so it never reaches the day of [endDate]
    when [startDate] is later in its day than [endDate] is in its own.  The
    same happens through [generateReport] when only [dateTo] is given and
    the start defaults to this time of day a week ago: asked at 14:00 for
    the days up to 10 June 2024, the report ends with 9 June. *)
Theorem daily_report_stops_a_day_short :
  let startDate := mkDate 2024 1 1 18 0 in
  let endDate := mkDate 2024 1 3 9 0 in
  startDate <= endDate /\
  length (calendar_days startDate endDate) = 3%nat /\
  getDailyReportData no_entries startDate endDate None
    = Some [Bucket.mk "Mon, Jan 1" ∅; Bucket.mk "Tue, Jan 2" ∅] /\
  exists r,
    generateReport (mkDate 2024 6 10 14 0)
      (ReportFilters.mk "daily" None (Some (mkDate 2024 6 10 0 0)) None) no_entries
      = Some r /\
    map Bucket.label (Report.chartData r)
      = ["Mon, Jun 3"; "Tue, Jun 4"; "Wed, Jun 5"; "Thu, Jun 6"; "Fri, Jun 7";
         "Sat, Jun 8"; "Sun, Jun 9"].
Proof.
  intros startDate endDate.
  split; [vm_compute; discriminate|].
  split; [vm_compute; reflexivity|].
  split; [vm_compute; reflexivity|].
  eexists. split; vm_compute; reflexivity.
Qed.

(** C4 does not hold of the daily report, for the reason C2 does not.  An
    entry of 3 January with 8 hours lies within the range from 1 January,
    18:00, to 3 January, 09:00, and is fetched by the query, but there is no
    bucket for its day and its hours are added nowhere; the summary of the
    same range counts them.  Likewise a report asked at 14:00 for the days
    up to 10 June 2024, its start left to the default, has the entry of
    10 June in its summary and in no bucket of its chart. *)
Theorem daily_report_drops_entry_of_last_day :
  let startDate := mkDate 2024 1 1 18 0 in
  let endDate := mkDate 2024 1 3 9 0 in
  let entry := worked 1 1 3 8 in
  (TimeEntry.totalHours entry = Some (ofZ 8) /\
   startDate <= TimeEntry.date entry <= endDate /\
   chartEntries third_of_january startDate endDate None = [entry] /\
   getDailyReportData third_of_january startDate endDate None
     = Some [Bucket.mk "Mon, Jan 1" ∅; Bucket.mk "Tue, Jan 2" ∅] /\
   map SummaryRow.totalDays (getEmployeeSummaryData third_of_january startDate endDate None)
     = [1]) /\
  (let now := mkDate 2024 6 10 14 0 in
   let filters := ReportFilters.mk "daily" None (Some (mkDate 2024 6 10 0 0)) None in
   subDays now 7 <= TimeEntry.date tenth_of_june_entry <= mkDate 2024 6 10 0 0 /\
   exists r,
     generateReport now filters tenth_of_june = Some r /\
     Forall (fun b => Bucket.values b = ∅) (Report.chartData r) /\
     map SummaryRow.totalDays (Report.summaryData r) = [1]).
Proof.
  intros startDate endDate entry. split.
  - split; [reflexivity|].
    split; [vm_compute; split; discriminate|].
    split; [vm_compute; reflexivity|].
    split; vm_compute; reflexivity.
  - intros now filters. split; [vm_compute; split; discriminate|].
    eexists. split; [vm_compute; reflexivity|].
    split; [|vm_compute; reflexivity].
    repeat constructor.
Qed.

(** ** What the entries add to the buckets *)

Lemma addEntry_null (key : Z -> Z) (m : gmap Z Bucket.t) (e : TimeEntry.t) :
  TimeEntry.totalHours e = None -> addEntry key m e = m.
Proof. unfold addEntry. now intros ->. Qed.

Lemma addEntry_present (key : Z -> Z) (m : gmap Z Bucket.t) (e : TimeEntry.t) (k : Z) :
  is_Some (m !! k) -> is_Some (addEntry key m e !! k).
Proof.
  intros [b Hb]. pose proof (addEntry_label key m e k) as H. rewrite Hb in H.
  destruct (addEntry key m e !! k); [eauto | discriminate].
Qed.

Lemma addEntry_values (key : Z -> Z) (m : gmap Z Bucket.t) (e : TimeEntry.t) (k emp : Z) :
  is_Some (m !! k) ->
  values_at (addEntry key m e) k emp
    = if relevant key k emp e then add_hours (values_at m k emp) e else values_at m k emp.
Proof.
  intros [b Hb]. unfold relevant, addEntry, values_at, add_hours, hoursOr0.
  destruct (TimeEntry.totalHours e) as [h|] eqn:Eh; [|now rewrite Hb].
  rewrite bool_decide_eq_true_2 by discriminate. cbn [andb].
  destruct (Z.eqb_spec (key (TimeEntry.date e)) k) as [Ek | Nk]; cbn [andb].
  - rewrite Ek, Hb, lookup_insert_eq. cbn [Bucket.values].
    destruct (Z.eqb_spec (TimeEntry.employeeId e) emp) as [Ee | Ne].
    + rewrite Ee, lookup_insert_eq. reflexivity.
    + now rewrite lookup_insert_ne.
  - destruct (m !! key (TimeEntry.date e)) as [data|]; [|now rewrite Hb].
    rewrite lookup_insert_ne by congruence. now rewrite Hb.
Qed.

(** Each bucket value is the running total of the entries of its bucket
    and employee, in the order of the query; the other entries, and those
    without total hours, leave it alone. *)
Lemma populate_values (key : Z -> Z) (k emp : Z) (entries : list TimeEntry.t) :
  forall m : gmap Z Bucket.t,
    is_Some (m !! k) ->
    values_at (populate key m entries) k emp
      = fold_left add_hours (List.filter (relevant key k emp) entries) (values_at m k emp).
Proof.
  unfold populate. induction entries as [|e entries IH]; intros m Hm; [reflexivity|].
  cbn [fold_left List.filter].
  rewrite IH by (now apply addEntry_present).
  rewrite addEntry_values by exact Hm.
  destruct (relevant key k emp e); reflexivity.
Qed.

Lemma or0_JNum (q : Qc) : or0 (JNum q) = JNum q.
Proof.
  unfold or0, truthy. destruct (Qc_eq_dec q (Q2Qc 0)) as [-> | _]; reflexivity.
Qed.

Lemma add_is_number (a b : jsnum) : is_number a -> is_number b -> is_number (add a b).
Proof. unfold is_number. destruct a, b; simpl; intros; congruence. Qed.

Lemma sumJ_is_number (l : list jsnum) : Forall is_number l -> is_number (sumJ l).
Proof.
  induction 1 as [|a l Ha Hl IH]; simpl; [discriminate|]. now apply add_is_number.
Qed.

(** When no number involved is NaN, the running total is the sum. *)
Lemma fold_add_hours_sum (es : list TimeEntry.t) :
  Forall (fun e => is_number (hoursOr0 e)) es ->
  forall a, is_number a ->
    fold_left add_hours es (Some a)
      = Some (add a (sumJ (map hoursOr0 es))).
Proof.
  induction 1 as [|e es He Hes IH]; intros a Ha; cbn [fold_left map sumJ foldr].
  - f_equal. destruct a as [|q]; [now destruct Ha|]. simpl. f_equal.
    symmetry. apply Qcplus_0_r.
  - unfold add_hours at 2. destruct a as [|q]; [now destruct Ha|].
    rewrite or0_JNum, IH by (now apply add_is_number).
    now rewrite add_assoc.
Qed.

Lemma fold_add_hours_from_none (es : list TimeEntry.t) :
  Forall (fun e => is_number (hoursOr0 e)) es ->
  fold_left add_hours es None
    = match es with
      | [] => None
      | _ => Some (sumJ (map hoursOr0 es))
      end.
Proof.
  intros H. destruct H as [|e es He Hes]; [reflexivity|].
  cbn [fold_left]. unfold add_hours at 2.
  rewrite fold_add_hours_sum; [|exact Hes|].
  - now rewrite add_assoc, add_0_l.
  - rewrite add_0_l. exact He.
Qed.

Lemma In_insert_by {A : Type} (key : A -> Z) (x y : A) (l : list A) :
  In y (insert_by key x l) <-> y = x \/ In y l.
Proof.
  induction l as [|z l IH]; simpl; [intuition|].
  destruct (key x <=? key z); simpl; [intuition|]. rewrite IH. intuition.
Qed.

Lemma In_orderBy {A : Type} (key : A -> Z) (y : A) (l : list A) :
  In y (orderBy key l) <-> In y l.
Proof.
  unfold orderBy. induction l as [|x l IH]; simpl; [reflexivity|].
  rewrite In_insert_by, IH. intuition.
Qed.

Lemma In_chartEntries (st : Store) (lo hi : Z) (employeeId : option Z) (e : TimeEntry.t) :
  In e (chartEntries st lo hi employeeId) <->
  In e (timeEntries st) /\
  startOfDay lo <= TimeEntry.date e <= endOfDay hi /\
  matches_employee employeeId e = true.
Proof.
  unfold chartEntries. rewrite In_orderBy, filter_In, andb_true_iff.
  unfold between. rewrite andb_true_iff, !Z.leb_le. tauto.
Qed.

Lemma hoursOr0_is_number (e : TimeEntry.t) :
  TimeEntry.totalHours e <> Some JNaN -> is_number (hoursOr0 e).
Proof.
  unfold hoursOr0, is_number.
  destruct (TimeEntry.totalHours e) as [[|q]|]; intros H; try discriminate.
  now destruct H.
Qed.

(** The value that a chart built with [key] over the query [entries] holds
    for bucket [k] and employee [emp], when [k] has a bucket at all. *)
Lemma chart_value (key : Z -> Z) (m : gmap Z Bucket.t) (entries : list TimeEntry.t)
    (k emp : Z) (b0 : Bucket.t) :
  m !! k = Some b0 ->
  Bucket.values b0 = ∅ ->
  Forall (fun e => TimeEntry.totalHours e <> Some JNaN) entries ->
  exists b,
    populate key m entries !! k = Some b /\
    Bucket.label b = Bucket.label b0 /\
    Bucket.values b !! emp
      = match List.filter (relevant key k emp) entries with
        | [] => None
        | _ => Some (sumJ (map hoursOr0 (List.filter (relevant key k emp) entries)))
        end.
Proof.
  intros Hk Hv Hnum.
  pose proof (populate_values key k emp entries m (ex_intro _ b0 Hk)) as Hval.
  pose proof (populate_label key entries m k) as Hlab.
  unfold values_at in Hval. rewrite Hk, Hv, lookup_empty in Hval. rewrite Hk in Hlab.
  destruct (populate key m entries !! k) as [b|]; [|discriminate].
  exists b. split; [reflexivity|]. split; [now injection Hlab|].
  rewrite Hval. apply fold_add_hours_from_none.
  apply List.Forall_forall. intros e He. apply filter_In in He. destruct He as [He _].
  apply hoursOr0_is_number. rewrite List.Forall_forall in Hnum. now apply Hnum.
Qed.

Lemma toArray_In (m : gmap Z Bucket.t) (range : list Z) (k : Z) (b : Bucket.t) :
  In k range -> m !! k = Some b -> In b (toArray m range).
Proof.
  unfold toArray. induction range as [|x range IH]; intros Hin Hb; [destruct Hin|].
  cbn [omap list_omap]. destruct Hin as [-> | Hin].
  - rewrite Hb. now left.
  - destruct (m !! x); [right|]; now apply IH.
Qed.

(** The weekly report adds up, by week and employee, every entry with total
    hours that lies within the range and matches the employee filter, and
    with it the other such entries of its week within the widened range. *)
Lemma weekly_report_adds_hours (st : Store) (startDate endDate : Z)
    (employeeId : option Z) (e : TimeEntry.t) :
  totals_are_numbers st ->
  In e (timeEntries st) ->
  TimeEntry.totalHours e <> None ->
  startDate <= TimeEntry.date e <= endDate ->
  matches_employee employeeId e = true ->
  let w := week_key (TimeEntry.date e) in
  let counted :=
    List.filter (relevant week_key w (TimeEntry.employeeId e))
      (chartEntries st (startOfWeek 1 startDate) (endOfWeek 1 endDate) employeeId) in
  exists buckets b,
    getWeeklyReportData st startDate endDate employeeId = Some buckets /\
    In b buckets /\
    Bucket.label b = short_date w ++ " - " ++ short_date (w + 6) /\
    In e counted /\
    Bucket.values b !! TimeEntry.employeeId e = Some (sumJ (map hoursOr0 counted)).
Proof.
  intros Hnum Hin Hh Hrange Hmatch w counted.
  destruct (weekly_init_weeks startDate endDate) as (M & Hinit & HM).
  set (entries := chartEntries st (startOfWeek 1 startDate) (endOfWeek 1 endDate) employeeId)
    in *.
  assert (In e entries) as He.
  { apply In_chartEntries. split; [exact Hin|]. split; [|exact Hmatch].
    rewrite startOfWeek_monday, endOfWeek_monday.
    pose proof (mondayOf_week (dayOf startDate)). pose proof (mondayOf_week (dayOf endDate)).
    date_arith. }
  assert (In e counted) as Hc.
  { apply filter_In. split; [exact He|]. unfold relevant.
    rewrite bool_decide_eq_true_2 by exact Hh. now rewrite !Z.eqb_refl. }
  assert (In w (mondays_from (mondayOf (dayOf startDate)) (week_count startDate endDate)))
    as Hw.
  { apply In_mondays_from. unfold w. rewrite week_key_monday. unfold week_count.
    pose proof (mondayOf_isMonday (dayOf startDate)) as H1.
    pose proof (mondayOf_isMonday (dayOf endDate)) as H2.
    pose proof (mondayOf_isMonday (dayOf (TimeEntry.date e))) as H3.
    pose proof (mondayOf_week (dayOf startDate)).
    pose proof (mondayOf_week (dayOf endDate)).
    pose proof (mondayOf_week (dayOf (TimeEntry.date e))).
    assert (dayOf startDate <= dayOf (TimeEntry.date e) <= dayOf endDate) by date_arith.
    unfold isMonday in *.
    exists (Z.to_nat ((mondayOf (dayOf (TimeEntry.date e)) - mondayOf (dayOf startDate)) / 7)).
    Z.div_mod_to_equations. lia. }
  destruct (chart_value week_key M entries w (TimeEntry.employeeId e) (week_bucket w))
    as (b & Hb & Hl & Hv).
  - now apply HM.
  - reflexivity.
  - apply List.Forall_forall. intros x Hx. apply In_chartEntries in Hx. now apply Hnum.
  - exists (toArray (populate week_key M entries)
                    (mondays_from (mondayOf (dayOf startDate)) (week_count startDate endDate))),
           b.
    unfold getWeeklyReportData. fold entries. rewrite Hinit.
    split; [reflexivity|]. split; [now apply (toArray_In _ _ w)|].
    split; [exact Hl|]. split; [exact Hc|].
    rewrite Hv. fold counted. destruct counted; [destruct Hc | reflexivity].
Qed.

(** The daily report does the same, day by day, when the time of day of
    [startDate] is not after that of [endDate]. *)
Lemma daily_report_adds_hours (st : Store) (startDate endDate : Z)
    (employeeId : option Z) (e : TimeEntry.t) :
  timeOfDay startDate <= timeOfDay endDate ->
  totals_are_numbers st ->
  In e (timeEntries st) ->
  TimeEntry.totalHours e <> None ->
  startDate <= TimeEntry.date e <= endDate ->
  matches_employee employeeId e = true ->
  let d := dayOf (TimeEntry.date e) in
  let counted :=
    List.filter (relevant key_yyyy_MM_dd d (TimeEntry.employeeId e))
      (chartEntries st startDate endDate employeeId) in
  exists buckets b,
    getDailyReportData st startDate endDate employeeId = Some buckets /\
    map Bucket.label buckets = map day_label (calendar_days startDate endDate) /\
    In b buckets /\
    Bucket.label b = day_label d /\
    In e counted /\
    Bucket.values b !! TimeEntry.employeeId e = Some (sumJ (map hoursOr0 counted)).
Proof.
  intros Hal Hnum Hin Hh Hrange Hmatch d counted.
  destruct (daily_init_days startDate endDate) as (M & Hinit & HM & _).
  rewrite daily_count_aligned in Hinit, HM by lia.
  set (entries := chartEntries st startDate endDate employeeId) in *.
  assert (In e entries) as He.
  { apply In_chartEntries. split; [exact Hin|]. split; [|exact Hmatch]. date_arith. }
  assert (In e counted) as Hc.
  { apply filter_In. split; [exact He|]. unfold relevant, key_yyyy_MM_dd.
    rewrite bool_decide_eq_true_2 by exact Hh. now rewrite !Z.eqb_refl. }
  assert (In d (calendar_days startDate endDate)) as Hd.
  { apply In_days_from. unfold d. date_arith. }
  destruct (chart_value key_yyyy_MM_dd M entries d (TimeEntry.employeeId e) (day_bucket d))
    as (b & Hb & Hl & Hv).
  - now apply HM.
  - reflexivity.
  - apply List.Forall_forall. intros x Hx. apply In_chartEntries in Hx. now apply Hnum.
  - exists (toArray (populate key_yyyy_MM_dd M entries) (calendar_days startDate endDate)), b.
    unfold getDailyReportData. fold entries. rewrite Hinit.
    split; [reflexivity|]. split.
    { apply toArray_labels. intros k Hk. now rewrite populate_label, (HM k Hk). }
    split; [now apply (toArray_In _ _ d)|].
    split; [exact Hl|]. split; [exact Hc|].
    rewrite Hv. fold counted. destruct counted; [destruct Hc | reflexivity].
Qed.

Lemma toArray_all (m : gmap Z Bucket.t) (f : Z -> Bucket.t) (range : list Z) :
  (forall k, In k range -> m !! k = Some (f k)) -> toArray m range = map f range.
Proof.
  unfold toArray. induction range as [|k range IH]; intros H; [reflexivity|].
  cbn [omap list_omap map]. rewrite (H k (or_introl eq_refl)). f_equal.
  apply IH. intros k' Hk'. apply H. now right.
Qed.

Lemma populate_untouched (key : Z -> Z) (k : Z) (entries : list TimeEntry.t) :
  forall m : gmap Z Bucket.t,
    (forall e, In e entries -> TimeEntry.totalHours e <> None ->
               key (TimeEntry.date e) <> k) ->
    populate key m entries !! k = m !! k.
Proof.
  unfold populate. induction entries as [|e entries IH]; intros m H; [reflexivity|].
  cbn [fold_left]. rewrite IH by (intros x Hx; apply H; now right).
  unfold addEntry. destruct (TimeEntry.totalHours e) as [h|] eqn:Eh; [|reflexivity].
  destruct (m !! key (TimeEntry.date e)); [|reflexivity].
  apply lookup_insert_ne. apply H; [now left | congruence].
Qed.

(** For a range whose start is not later in its day than its end is in its
    own, two midnights for one, the daily report has one bucket for each
    calendar day of the range, in order; a day on which the query finds no
    entry with total hours has its bucket with an empty mapping; and so has
    every day when the query finds no entry at all. *)
Lemma daily_report_every_day (st : Store) (startDate endDate : Z) (employeeId : option Z) :
  startDate <= endDate ->
  timeOfDay startDate <= timeOfDay endDate ->
  exists buckets,
    getDailyReportData st startDate endDate employeeId = Some buckets /\
    map Bucket.label buckets = map day_label (calendar_days startDate endDate) /\
    Z.of_nat (length buckets) = dayOf endDate - dayOf startDate + 1 /\
    (forall d,
        In d (calendar_days startDate endDate) ->
        (forall e, In e (chartEntries st startDate endDate employeeId) ->
                   TimeEntry.totalHours e <> None -> dayOf (TimeEntry.date e) <> d) ->
        In (day_bucket d) buckets) /\
    (chartEntries st startDate endDate employeeId = [] ->
     buckets = map day_bucket (calendar_days startDate endDate)).
Proof.
  intros Hle Hal.
  destruct (daily_init_days startDate endDate) as (M & Hinit & HM & _).
  rewrite daily_count_aligned in Hinit, HM by lia.
  unfold getDailyReportData. rewrite Hinit. eexists. split; [reflexivity|].
  assert (map Bucket.label
            (toArray (populate key_yyyy_MM_dd M (chartEntries st startDate endDate employeeId))
                     (calendar_days startDate endDate))
          = map day_label (calendar_days startDate endDate)) as HL.
  { apply toArray_labels. intros k Hk. now rewrite populate_label, (HM k Hk). }
  split; [exact HL|]. split; [|split].
  - apply (f_equal (@length string)) in HL. rewrite !length_map in HL. rewrite HL.
    unfold calendar_days, days_from. rewrite length_map, length_seq. date_arith.
  - intros d Hd Hnone. apply (toArray_In _ _ d); [exact Hd|].
    rewrite populate_untouched by exact Hnone. now apply HM.
  - intros ->. cbn [populate fold_left]. now apply toArray_all.
Qed.

(* ===================================================================== *)
(** * Further properties *)

(** ** Times of day in both notations *)

Lemma jsnum_beq_eq (a b : jsnum) : jsnum_beq a b = true -> a = b.
Proof.
  destruct a as [|x], b as [|y]; simpl; try discriminate; [reflexivity|].
  intros H. apply JNum_eq. now apply Qeq_bool_iff.
Qed.

Lemma In_Zrange (lo x : Z) (n : nat) : In x (Zrange lo n) <-> lo <= x < lo + Z.of_nat n.
Proof.
  unfold Zrange. rewrite in_map_iff. split.
  - intros (i & <- & Hi). apply in_seq in Hi. lia.
  - intros H. exists (Z.to_nat (x - lo)). split; [lia | apply in_seq; lia].
Qed.

Lemma forallb_Zrange2 (p : Z -> Z -> bool) (n1 n2 : nat) :
  forallb (fun h => forallb (p h) (Zrange 0 n2)) (Zrange 0 n1) = true ->
  forall h m, 0 <= h < Z.of_nat n1 -> 0 <= m < Z.of_nat n2 -> p h m = true.
Proof.
  intros H h m Hh Hm. rewrite forallb_forall in H.
  specialize (H h (proj2 (In_Zrange 0 h n1) ltac:(lia))).
  rewrite forallb_forall in H. apply H. apply In_Zrange. lia.
Qed.

Lemma check24_all (h m : Z) : 0 <= h < 24 -> 0 <= m < 60 -> check24 h m = true.
Proof.
  apply (forallb_Zrange2 check24 24 60). vm_compute. reflexivity.
Qed.

Lemma formatTime_hhmm (h m : Z) :
  0 <= h < 24 -> 0 <= m < 60 ->
  formatTime (hhmm h m) = Some (time12 (hour12 h) m (12 <=? h)) /\
  formatTimeForInput (time12 (hour12 h) m (12 <=? h)) = hhmm h m /\
  timeToMinutes (time12 (hour12 h) m (12 <=? h)) = ofZ (60 * h + m) /\
  timeToMinutes (hhmm h m) = ofZ (60 * h + m) /\
  truthy_str (time12 (hour12 h) m (12 <=? h)) = true /\
  truthy_str (hhmm h m) = true.
Proof.
  intros Hh Hm. pose proof (check24_all h m Hh Hm) as H. unfold check24 in H.
  destruct (formatTime (hhmm h m)) as [s|]; [|discriminate].
  repeat (apply andb_true_iff in H; destruct H as [H ?]).
  apply String.eqb_eq in H. subst s.
  repeat split; auto using jsnum_beq_eq. now apply String.eqb_eq.
Qed.

(** A stored time is written in the 12-hour notation and read back to the
    same time: for every hour and minute of the day, [formatTime] turns
    "HH:MM" into "h:MM AM" or "h:MM PM", with 12 for the hours 0 and 12,
    [formatTimeForInput] turns that back into "HH:MM", and [timeToMinutes]
    gives 60 h + m for either notation. *)
Theorem time_notations_round_trip (h m : Z) :
  0 <= h < 24 -> 0 <= m < 60 ->
  formatTime (hhmm h m) = Some (time12 (hour12 h) m (12 <=? h)) /\
  formatTimeForInput (time12 (hour12 h) m (12 <=? h)) = hhmm h m /\
  timeToMinutes (time12 (hour12 h) m (12 <=? h)) = ofZ (60 * h + m) /\
  timeToMinutes (hhmm h m) = ofZ (60 * h + m).
Proof.
  intros Hh Hm. destruct (formatTime_hhmm h m Hh Hm) as (H1 & H2 & H3 & H4 & _).
  auto.
Qed.

Lemma time_notations_round_trip_witness :
  formatTime "00:05" = Some "12:05 AM" /\ formatTimeForInput "12:05 AM" = "00:05".
Proof.
  destruct (time_notations_round_trip 0 5) as (H1 & H2 & _); [lia | lia |].
  split; [exact H1 | exact H2].
Defined.

Lemma check12_all (h m : Z) : 0 <= h < 12 -> 0 <= m < 60 -> check12 h m = true.
Proof.
  apply (forallb_Zrange2 check12 12 60). vm_compute. reflexivity.
Qed.

(** [formatTimeForInput] on the 12-hour times: "h:MM AM" becomes "HH:MM"
    with the hour [h mod 12], so that 12 AM is hour 0, and "h:MM PM" the
    same with 12 added, so that 12 PM stays hour 12; and on its own result
    the function changes nothing. *)
Theorem formatTimeForInput_12_hour (h m : Z) (pm : bool) :
  1 <= h <= 12 -> 0 <= m < 60 ->
  formatTimeForInput (time12 h m pm) = hhmm (h mod 12 + (if pm then 12 else 0)) m /\
  formatTimeForInput (formatTimeForInput (time12 h m pm))
    = formatTimeForInput (time12 h m pm).
Proof.
  intros Hh Hm. pose proof (check12_all (h - 1) m ltac:(lia) Hm) as H.
  unfold check12 in H. replace (h - 1 + 1) with h in H by lia.
  repeat (apply andb_true_iff in H; destruct H as [H ?]).
  repeat match goal with E : String.eqb _ _ = true |- _ => apply String.eqb_eq in E end.
  destruct pm.
  - split; assumption.
  - rewrite Z.add_0_r. split; assumption.
Qed.

Lemma formatTimeForInput_12_hour_witness :
  formatTimeForInput "12:30 AM" = "00:30".
Proof.
  destruct (formatTimeForInput_12_hour 12 30 false) as [H _]; [lia | lia |].
  exact H.
Defined.

(** ** Elapsed hours between two times of day *)

Lemma ofZ_add (a b : Z) : add (ofZ a) (ofZ b) = ofZ (a + b).
Proof.
  apply JNum_eq. simpl. rewrite !Qred_correct, inject_Z_plus. reflexivity.
Qed.

Lemma ofZ_sub (a b : Z) : sub (ofZ a) (ofZ b) = ofZ (a - b).
Proof.
  apply JNum_eq. simpl. rewrite !Qred_correct.
  unfold Z.sub. rewrite inject_Z_plus, inject_Z_opp. reflexivity.
Qed.

Lemma ofZ_leb (a b : Z) : leb (ofZ a) (ofZ b) = (a <=? b).
Proof.
  unfold leb, ofZ.
  assert ((Q2Qc (inject_Z a) <= Q2Qc (inject_Z b))%Qc <-> a <= b) as E.
  { unfold Qcle, Q2Qc. cbn [this]. rewrite !Qred_correct, <- Zle_Qle. reflexivity. }
  destruct (Z.leb_spec a b) as [H | H].
  - apply bool_decide_eq_true. now apply E.
  - apply bool_decide_eq_false. rewrite E. lia.
Qed.

Lemma calculateTotalHours_of_minutes (c o : string) (b mc mo : Z) :
  truthy_str c = true -> truthy_str o = true ->
  timeToMinutes c = ofZ mc -> timeToMinutes o = ofZ mo ->
  calculateTotalHours (Some c) (Some o) b
    = Some (div (ofZ (elapsedMinutes mc mo - b)) (ofZ 60)).
Proof.
  intros Tc To Hc Ho. unfold calculateTotalHours, elapsedMinutes.
  change (default "" (Some c)) with c. change (default "" (Some o)) with o.
  cbn [truthy_ostr]. rewrite Tc, To, Hc, Ho. cbn [negb orb].
  rewrite ofZ_leb. destruct (mo <=? mc).
  - now rewrite ofZ_add, !ofZ_sub.
  - now rewrite !ofZ_sub.
Qed.

(** Between any two times of day the elapsed time is more than 0 and at
    most 24 hours, before the break is taken off: a check-out at or before
    the time of the check-in counts as next day's, so that equal times give
    24 hours and not 0.  The break is subtracted without a floor, so the
    result is negative when the break is longer than the elapsed time.  The
    times may be in the 24-hour or in the stored 12-hour notation. *)
Theorem calculateTotalHours_between_0_and_24 (hi mi ho mo b : Z) :
  0 <= hi < 24 -> 0 <= mi < 60 -> 0 <= ho < 24 -> 0 <= mo < 60 ->
  let e := elapsedMinutes (60 * hi + mi) (60 * ho + mo) in
  calculateTotalHours (Some (hhmm hi mi)) (Some (hhmm ho mo)) b
    = Some (div (ofZ (e - b)) (ofZ 60)) /\
  calculateTotalHours (Some (time12 (hour12 hi) mi (12 <=? hi)))
                      (Some (time12 (hour12 ho) mo (12 <=? ho))) b
    = Some (div (ofZ (e - b)) (ofZ 60)) /\
  0 < e <= 1440 /\
  e = (60 * ho + mo - (60 * hi + mi) - 1) mod 1440 + 1 /\
  (hi = ho -> mi = mo -> e = 1440).
Proof.
  intros Hhi Hmi Hho Hmo e.
  destruct (formatTime_hhmm hi mi Hhi Hmi) as (_ & _ & Ai & Bi & Ci & Di).
  destruct (formatTime_hhmm ho mo Hho Hmo) as (_ & _ & Ao & Bo & Co & Do).
  split; [now apply calculateTotalHours_of_minutes|].
  split; [now apply calculateTotalHours_of_minutes|].
  unfold e, elapsedMinutes.
  destruct (Z.leb_spec (60 * ho + mo) (60 * hi + mi)); repeat split;
    try lia; Z.div_mod_to_equations; lia.
Qed.

Lemma calculateTotalHours_between_0_and_24_witness :
  calculateTotalHours (Some "09:00") (Some "09:00") 0 = Some (ofZ 24).
Proof.
  destruct (calculateTotalHours_between_0_and_24 9 0 9 0 0) as (H & _);
    [lia | lia | lia | lia |].
  refine (eq_trans H _). vm_compute. jsnum_eq.
Defined.

(** ** Durations in hours and minutes *)

(** For a duration that is not negative the two printed numbers are the
    whole hours and the minutes below 60 that remain.  For a negative one
    that is not a whole number of hours they are not: the hours are rounded
    down and the minutes keep the sign of the duration, so the two add up
    to an hour less than the duration (-30 prints as "-1h -30m"). *)
Theorem formatMinutes_parts (totalMinutes : Z) :
  let h := fst (formatMinutesParts totalMinutes) in
  let m := snd (formatMinutesParts totalMinutes) in
  formatMinutesToHoursAndMinutes totalMinutes = Z_toString h ++ "h " ++ Z_toString m ++ "m" /\
  (0 <= totalMinutes -> 60 * h + m = totalMinutes /\ 0 <= m < 60) /\
  (totalMinutes < 0 -> totalMinutes mod 60 <> 0 ->
   60 * h + m = totalMinutes - 60 /\ -60 < m < 0).
Proof.
  unfold formatMinutesParts. cbn [fst snd]. split; [reflexivity|].
  split; intros; Z.div_mod_to_equations; Z.quot_rem_to_equations; lia.
Qed.

Lemma formatMinutes_parts_witness :
  formatMinutesToHoursAndMinutes 330 = "5h 30m" /\
  formatMinutesToHoursAndMinutes (-30) = "-1h -30m".
Proof.
  destruct (formatMinutes_parts 330) as (H1 & H2 & _).
  destruct (formatMinutes_parts (-30)) as (H3 & _ & H4).
  specialize (H2 ltac:(lia)). specialize (H4 ltac:(lia) ltac:(discriminate)).
  rewrite H1, H3. split; reflexivity.
Defined.

(** ** Ranges of dates *)

Lemma getDateRange_loop_unroll (endDate : Z) :
  forall (n fuel : nat) (current : Z) (dates : list Z),
    (n < fuel)%nat ->
    (forall i, (i < n)%nat -> addDays current (Z.of_nat i) <= endDate) ->
    endDate < addDays current (Z.of_nat n) ->
    getDateRange_loop fuel current endDate dates
      = Some (dates ++ map (fun i => addDays current (Z.of_nat i)) (seq 0 n))%list.
Proof.
  induction n as [|n IH]; intros fuel current dates Hf Hle Hgt.
  - destruct fuel as [|fuel]; [lia|]. cbn [getDateRange_loop seq map].
    unfold addDays in Hgt. destruct (Z.leb_spec current endDate); [lia|].
    now rewrite app_nil_r.
  - destruct fuel as [|fuel]; [lia|]. cbn [getDateRange_loop].
    pose proof (Hle 0%nat ltac:(lia)) as H0. unfold addDays in H0.
    destruct (Z.leb_spec current endDate); [|lia].
    rewrite (IH fuel (addDays current 1) (dates ++ [current])%list).
    + f_equal. rewrite <- app_assoc. f_equal. cbn [seq map app].
      f_equal; [unfold addDays; lia|].
      rewrite <- seq_shift, map_map. apply map_ext. intros i. unfold addDays. lia.
    + lia.
    + intros i Hi. specialize (Hle (S i) ltac:(lia)). unfold addDays in *. lia.
    + unfold addDays in *. lia.
Qed.

(** [getDateRange] returns the instants [startDate], a day later, two days
    later and so on, as many as there are whole days from [startDate] to
    [endDate] and one more: all lie from [startDate] to [endDate], the next
    one would be after [endDate], and there is none when [endDate] is before
    [startDate].  The time of day of every one is that of [startDate]. *)
Theorem getDateRange_days (startDate endDate : Z) :
  let n := Z.to_nat ((endDate - startDate) / msPerDay + 1) in
  exists dates,
    getDateRange startDate endDate = Some dates /\
    dates = map (fun i => addDays startDate (Z.of_nat i)) (seq 0 n) /\
    (forall d, In d dates ->
       startDate <= d <= endDate /\ timeOfDay d = timeOfDay startDate) /\
    endDate < addDays startDate (Z.of_nat n) /\
    (endDate < startDate <-> dates = []).
Proof.
  intros n. eexists. split.
  - unfold getDateRange. apply (getDateRange_loop_unroll endDate n).
    + fold n. lia.
    + intros i Hi. unfold n in *. date_arith.
    + unfold n. date_arith.
  - cbn [app]. split; [reflexivity|]. split; [|split].
    + intros d Hd. apply in_map_iff in Hd. destruct Hd as (i & <- & Hi).
      apply in_seq in Hi. split; [|apply timeOfDay_addDays].
      unfold n in *. date_arith.
    + unfold n. date_arith.
    + split.
      * intros H. assert (n = 0%nat) as -> by (unfold n; date_arith). reflexivity.
      * intros H. destruct n as [|k] eqn:E; [|discriminate]. unfold n in E. date_arith.
Qed.

(** ** Creating, finding, deleting and updating entries *)

Lemma findTimeEntry_fresh (st : Store) :
  ids_below_seq st -> findTimeEntry st (timeEntries_id_seq st) = None.
Proof.
  intros H. unfold findTimeEntry. apply find_none_all. intros e He.
  apply Z.eqb_neq. specialize (H e He). lia.
Qed.

Lemma createTimeEntry_row (now : Z) (data : InsertTimeEntry.t) (st st' : Store)
    (e : TimeEntry.t) (n : option string) :
  createTimeEntry now data st = Resolved ((e, n), st') ->
  TimeEntry.id e = timeEntries_id_seq st /\
  st' = mkStore (employees st) (timeEntries st ++ [e]) (timeEntries_id_seq st + 1) /\
  n = option_map Employee.name (getEmployeeById st (TimeEntry.employeeId e)).
Proof.
  unfold createTimeEntry.
  destruct (formatTime (default "" (InsertTimeEntry.checkInTime data))) as [fi|];
    [|discriminate].
  destruct (truthy_ostr (InsertTimeEntry.checkOutTime data)).
  - destruct (formatTime (default "" (InsertTimeEntry.checkOutTime data))) as [fo|];
      [|discriminate].
    cbn [option_map withEmployeeName]. destruct (int4 _ && writable _ _ _); [|discriminate].
    intros H. inversion H; subst; clear H. repeat split.
  - cbn [withEmployeeName]. destruct (int4 _ && writable _ _ _); [|discriminate].
    intros H. inversion H; subst; clear H. repeat split.
Qed.

(** An entry that [createTimeEntry] has stored is the one that
    [getTimeEntryById] then finds under its id, the id is the next value of
    the sequence, the entries that were there are found as before, and the
    sequence moves on by one, still above every id.  The creation is
    rejected when a time it has to reformat cannot be reformatted, and
    nothing is stored then. *)
Theorem createTimeEntry_then_getTimeEntryById (now : Z) (data : InsertTimeEntry.t)
    (st : Store) :
  ids_below_seq st ->
  (formatTime (default "" (InsertTimeEntry.checkInTime data)) = None \/
   (truthy_ostr (InsertTimeEntry.checkOutTime data) = true /\
    formatTime (default "" (InsertTimeEntry.checkOutTime data)) = None) ->
   createTimeEntry now data st = Rejected) /\
  (forall e n st',
      createTimeEntry now data st = Resolved ((e, n), st') ->
      TimeEntry.id e = timeEntries_id_seq st /\
      getTimeEntryById st' (TimeEntry.id e) = Some (e, n) /\
      (forall id, id <> TimeEntry.id e -> findTimeEntry st' id = findTimeEntry st id) /\
      timeEntries_id_seq st' = timeEntries_id_seq st + 1 /\
      ids_below_seq st').
Proof.
  intros Hinv. split.
  - unfold createTimeEntry.
    destruct (formatTime (default "" (InsertTimeEntry.checkInTime data))) as [fi|];
      [|reflexivity].
    intros [H | [Hco H]]; [discriminate|]. now rewrite Hco, H.
  - intros e n st' H. destruct (createTimeEntry_row _ _ _ _ _ _ H) as (Hid & -> & ->).
    split; [exact Hid|]. split; [|split; [|split]].
    + unfold getTimeEntryById, findTimeEntry. cbn [timeEntries].
      rewrite find_app_none by (rewrite Hid; now apply findTimeEntry_fresh).
      cbn [List.find]. rewrite Z.eqb_refl. reflexivity.
    + intros id Hne. unfold findTimeEntry. cbn [timeEntries].
      destruct (List.find (fun e0 => TimeEntry.id e0 =? id) (timeEntries st)) as [x|] eqn:E.
      * now apply find_app_some.
      * rewrite find_app_none by exact E. cbn [List.find].
        destruct (Z.eqb_spec (TimeEntry.id e) id); [congruence | reflexivity].
    + reflexivity.
    + intros x Hx. cbn [timeEntries timeEntries_id_seq] in *.
      apply in_app_or in Hx. destruct Hx as [Hx | [<- | []]].
      * specialize (Hinv x Hx). lia.
      * lia.
Qed.

Lemma closed_store_ids_below_seq : ids_below_seq closed_store.
Proof. intros e [<- | []]. vm_compute. reflexivity. Qed.

Lemma createTimeEntry_then_getTimeEntryById_witness :
  exists e st',
    createTimeEntry 0 nine_to_five closed_store = Resolved ((e, Some "Bob"), st') /\
    getTimeEntryById st' 2 = Some (e, Some "Bob").
Proof.
  destruct (createTimeEntry_then_getTimeEntryById 0 nine_to_five closed_store
              closed_store_ids_below_seq) as [_ H].
  destruct (createTimeEntry 0 nine_to_five closed_store) as [[[e n] st']|] eqn:E;
    [|vm_compute in E; discriminate E].
  destruct (H e n st' eq_refl) as (Hid & Hget & _).
  assert (n = Some "Bob") as -> by (vm_compute in E; congruence).
  exists e, st'. split; [reflexivity|].
  replace 2 with (TimeEntry.id e) by (rewrite Hid; reflexivity). exact Hget.
Defined.

Lemma filter_app_last {A : Type} (p : A -> bool) (l : list A) (x : A) :
  (forall y, In y l -> p y = true) -> p x = false -> List.filter p (l ++ [x]) = l.
Proof.
  intros Hl Hx. rewrite List.filter_app. cbn [List.filter]. rewrite Hx, app_nil_r.
  now apply filter_all.
Qed.

Lemma createTimeEntry_guard (now : Z) (data : InsertTimeEntry.t) (st st' : Store)
    (r : TimeEntryWithName) :
  createTimeEntry now data st = Resolved (r, st') ->
  int4 (timeEntries_id_seq st) = true /\
  writable st (Some (InsertTimeEntry.employeeId data))
           (Some (default 0 (InsertTimeEntry.breakMinutes data))) = true.
Proof.
  unfold createTimeEntry.
  destruct (formatTime (default "" (InsertTimeEntry.checkInTime data))) as [fi|];
    [|discriminate].
  destruct (truthy_ostr (InsertTimeEntry.checkOutTime data)).
  - destruct (formatTime (default "" (InsertTimeEntry.checkOutTime data))) as [fo|];
      [|discriminate].
    cbn [option_map]. destruct (int4 _); [|discriminate].
    destruct (writable _ _ _); [|discriminate]. now split.
  - destruct (int4 _); [|discriminate].
    destruct (writable _ _ _); [|discriminate]. now split.
Qed.

(** Deleting the entry that was just created gives back the table as it
    was before the creation; the sequence has moved on, so the id is not
    given out again. *)
Theorem deleteTimeEntry_undoes_createTimeEntry (now : Z) (data : InsertTimeEntry.t)
    (st st' : Store) (e : TimeEntry.t) (n : option string) :
  ids_below_seq st ->
  createTimeEntry now data st = Resolved ((e, n), st') ->
  deleteTimeEntry (TimeEntry.id e) st'
    = Resolved (mkStore (employees st) (timeEntries st) (timeEntries_id_seq st + 1)).
Proof.
  intros Hinv H. destruct (createTimeEntry_guard _ _ _ _ _ H) as [Hseq _].
  destruct (createTimeEntry_row _ _ _ _ _ _ H) as (Hid & -> & _).
  unfold deleteTimeEntry, delete_where. rewrite Hid, Hseq.
  cbn [employees timeEntries timeEntries_id_seq]. do 2 f_equal.
  apply filter_app_last.
  - intros y Hy. specialize (Hinv y Hy). apply negb_true_iff, Z.eqb_neq. lia.
  - rewrite Hid. now rewrite Z.eqb_refl.
Qed.

Lemma deleteTimeEntry_undoes_createTimeEntry_witness :
  exists e st',
    createTimeEntry 0 nine_to_five closed_store = Resolved ((e, Some "Bob"), st') /\
    deleteTimeEntry 2 st'
      = Resolved (mkStore (employees closed_store) (timeEntries closed_store) 3).
Proof.
  destruct (createTimeEntry 0 nine_to_five closed_store) as [[[e n] st']|] eqn:E;
    [|vm_compute in E; discriminate E].
  pose proof (deleteTimeEntry_undoes_createTimeEntry 0 nine_to_five closed_store st' e n
                closed_store_ids_below_seq E) as H.
  destruct (createTimeEntry_row _ _ _ _ _ _ E) as (Hid & _ & _).
  assert (n = Some "Bob") as -> by (vm_compute in E; congruence).
  exists e, st'. split; [reflexivity|].
  replace 2 with (TimeEntry.id e) by (rewrite Hid; reflexivity). exact H.
Defined.

(** [deleteTimeEntry] removes the entry of the given id and nothing else:
    every other id is found as before, with the same entry, and the
    employees and the sequence are untouched.  It rejects only for an id
    that the id column cannot hold. *)
Theorem deleteTimeEntry_leaves_the_others (id id' : Z) (st : Store) :
  id' <> id ->
  match deleteTimeEntry id st with
  | Resolved st' =>
      getTimeEntryById st' id' = getTimeEntryById st id' /\
      employees st' = employees st /\
      timeEntries_id_seq st' = timeEntries_id_seq st
  | Rejected => int4 id = false
  end.
Proof.
  intros Hne. unfold deleteTimeEntry. destruct (int4 id); [|reflexivity].
  split; [|split; reflexivity].
  unfold getTimeEntryById, findTimeEntry, delete_where. cbn [timeEntries employees].
  now rewrite find_filter_other.
Qed.

Lemma deleteTimeEntry_leaves_the_others_witness :
  exists st',
    deleteTimeEntry 5 closed_store = Resolved st' /\
    getTimeEntryById st' 1 = getTimeEntryById closed_store 1.
Proof.
  assert (1 <> 5) as Hne by discriminate.
  pose proof (deleteTimeEntry_leaves_the_others 5 1 closed_store Hne) as H.
  destruct (deleteTimeEntry 5 closed_store) as [st'|] eqn:E;
    [|vm_compute in E; discriminate E].
  exists st'. split; [reflexivity | apply H].
Defined.

Lemma updateTimeEntry_resolved (now id : Z) (data : PartialTimeEntry.t) (st st' : Store)
    (cur : TimeEntry.t) (r : option TimeEntryWithName) :
  findTimeEntry st id = Some cur ->
  updateTimeEntry now id data st = Resolved (r, st') ->
  exists inT outT,
    update_time (PartialTimeEntry.checkInTime data) = Some inT /\
    update_time (PartialTimeEntry.checkOutTime data) = Some outT /\
    writable st (PartialTimeEntry.employeeId data) (PartialTimeEntry.breakMinutes data)
      = true /\
    st' = mkStore (employees st)
            (update_rows (fun e => TimeEntry.id e =? id)
               (set_columns data inT outT (update_hours data cur) now) (timeEntries st))
            (timeEntries_id_seq st) /\
    r = getTimeEntryById st' id /\
    findTimeEntry st' id = Some (set_columns data inT outT (update_hours data cur) now cur).
Proof.
  intros Hfind. unfold updateTimeEntry, getTimeEntryById. rewrite Hfind.
  cbn [option_map withEmployeeName]. fold (update_hours data cur).
  fold (update_time (PartialTimeEntry.checkInTime data)).
  fold (update_time (PartialTimeEntry.checkOutTime data)).
  destruct (update_time (PartialTimeEntry.checkInTime data)) as [inT|]; [|discriminate].
  destruct (update_time (PartialTimeEntry.checkOutTime data)) as [outT|]; [|discriminate].
  destruct (writable _ _ _); [|discriminate].
  intros H. inversion H; subst; clear H. exists inT, outT.
  repeat split. unfold findTimeEntry. cbn [timeEntries].
  rewrite find_update_rows by reflexivity.
  unfold findTimeEntry in Hfind. now rewrite Hfind.
Qed.

Lemma updateTimeEntry_absent (now id : Z) (data : PartialTimeEntry.t) (st : Store) :
  findTimeEntry st id = None ->
  updateTimeEntry now id data st = if int4 id then Resolved (None, st) else Rejected.
Proof. intros H. unfold updateTimeEntry, getTimeEntryById. now rewrite H. Qed.

Lemma updateTimeEntry_rejected (now id : Z) (data : PartialTimeEntry.t) (st : Store) :
  updateTimeEntry now id data st = Rejected <->
  (findTimeEntry st id = None /\ int4 id = false) \/
  (findTimeEntry st id <> None /\
   (update_time (PartialTimeEntry.checkInTime data) = None \/
    update_time (PartialTimeEntry.checkOutTime data) = None \/
    writable st (PartialTimeEntry.employeeId data) (PartialTimeEntry.breakMinutes data)
      = false)).
Proof.
  destruct (findTimeEntry st id) as [cur|] eqn:Hfind.
  - unfold updateTimeEntry, getTimeEntryById. rewrite Hfind.
    cbn [option_map withEmployeeName].
    fold (update_time (PartialTimeEntry.checkInTime data)).
    fold (update_time (PartialTimeEntry.checkOutTime data)).
    destruct (update_time (PartialTimeEntry.checkInTime data)) as [inT|];
      destruct (update_time (PartialTimeEntry.checkOutTime data)) as [outT|];
      destruct (writable _ _ _);
      split; intros H; try discriminate; try reflexivity;
      try (right; split; [discriminate|]; tauto);
      destruct H as [[H _] | [_ [H | [H | H]]]]; discriminate.
  - rewrite (updateTimeEntry_absent _ _ _ _ Hfind).
    destruct (int4 id); split; intros H; try discriminate; try reflexivity.
    + destruct H as [[_ H] | [H _]]; [discriminate | now destruct H].
    + now left.
Qed.

(** [updateTimeEntry] on an id that no entry has resolves with undefined
    and leaves the store as it was, when the id is one that the id column
    can hold; for any other id the lookup fails and it rejects.  It also
    rejects when the entry exists and a non-empty time of the update cannot
    be reformatted, or the update names an employee that does not exist.
    When it resolves, the ids of the entries are those they were, every
    entry of another id is found unchanged, the employees and the sequence
    are untouched, and the result is undefined only for an id that no entry
    has.  (Where the written row comes among the others is not stated.) *)
Theorem updateTimeEntry_touches_one_entry (now id : Z) (data : PartialTimeEntry.t)
    (st : Store) :
  (findTimeEntry st id = None ->
   updateTimeEntry now id data st = if int4 id then Resolved (None, st) else Rejected) /\
  (findTimeEntry st id <> None ->
   update_time (PartialTimeEntry.checkInTime data) = None \/
   update_time (PartialTimeEntry.checkOutTime data) = None \/
   (exists i, PartialTimeEntry.employeeId data = Some i /\ getEmployeeById st i = None) ->
   updateTimeEntry now id data st = Rejected) /\
  (forall r st',
      updateTimeEntry now id data st = Resolved (r, st') ->
      Permutation (map TimeEntry.id (timeEntries st')) (map TimeEntry.id (timeEntries st)) /\
      (forall id', id' <> id -> findTimeEntry st' id' = findTimeEntry st id') /\
      employees st' = employees st /\
      timeEntries_id_seq st' = timeEntries_id_seq st /\
      (r = None <-> findTimeEntry st id = None)).
Proof.
  split; [apply updateTimeEntry_absent|]. split.
  { intros Hsome H. apply updateTimeEntry_rejected. right. split; [exact Hsome|].
    destruct H as [H | [H | (i & Hi & Hnone)]]; [now left | right; now left |].
    right. right. unfold writable, employee_exists. now rewrite Hi, Hnone. }
  intros r st' H. destruct (findTimeEntry st id) as [cur|] eqn:Hfind.
  - destruct (updateTimeEntry_resolved _ _ _ _ _ _ _ Hfind H)
      as (inT & outT & _ & _ & _ & -> & -> & Hnew).
    cbn [timeEntries employees timeEntries_id_seq].
    split; [now apply update_rows_ids|]. split.
    + intros id' Hne. unfold findTimeEntry. cbn [timeEntries].
      now apply find_update_rows_other.
    + split; [reflexivity|]. split; [reflexivity|].
      unfold getTimeEntryById. rewrite Hnew. cbn [option_map]. split; discriminate.
  - rewrite (updateTimeEntry_absent _ _ _ _ Hfind) in H.
    destruct (int4 id); [|discriminate]. inversion H; subst; clear H.
    repeat split; auto.
Qed.

Lemma updateTimeEntry_touches_one_entry_witness :
  updateTimeEntry 0 1
    (PartialTimeEntry.mk (Some 9) None None (Some "18:00") None None None None) closed_store
  = Rejected.
Proof.
  destruct (updateTimeEntry_touches_one_entry 0 1
              (PartialTimeEntry.mk (Some 9) None None (Some "18:00") None None None None)
              closed_store) as (_ & H & _).
  apply H; [discriminate|]. right. right. exists 9. split; reflexivity.
Defined.

(** ** Checking out *)

Lemma getHours_range (t : Z) : 0 <= getHours t < 24.
Proof. unfold getHours. date_arith. Qed.

Lemma getMinutes_range (t : Z) : 0 <= getMinutes t < 60.
Proof. unfold getMinutes. date_arith. Qed.


Lemma Some_jsnum_eq (a : option jsnum) (b : jsnum) :
  match a with Some x => jsnum_beq x b | None => false end = true -> a = Some b.
Proof. destruct a as [x|]; [|discriminate]. intros H. f_equal. now apply jsnum_beq_eq. Qed.

Lemma update_hours_checkout (h m : Z) (e : TimeEntry.t) :
  0 <= h < 24 -> 0 <= m < 60 ->
  update_hours (PartialTimeEntry.mk None None None (Some (hhmm h m)) None None None None) e
  = if truthy_str (TimeEntry.checkInTime e)
    then Some (calculateTotalHours (Some (TimeEntry.checkInTime e)) (Some (hhmm h m))
                 (default 0 (TimeEntry.breakMinutes e)))
    else None.
Proof.
  intros Hh Hm. destruct (formatTime_hhmm h m Hh Hm) as (_ & _ & _ & _ & _ & Htr).
  unfold update_hours, or_str.
  cbn [PartialTimeEntry.checkInTime PartialTimeEntry.checkOutTime
       PartialTimeEntry.breakMinutes PartialTimeEntry.totalHours truthy_ostr option_map].
  rewrite Htr. cbn [truthy_ostr]. rewrite Htr.
  now destruct (truthy_str (TimeEntry.checkInTime e)).
Qed.

Lemma checkoutTimeEntry_open_row (now id : Z) (st : Store) (e : TimeEntry.t) :
  findTimeEntry st id = Some e ->
  truthy_ostr (TimeEntry.checkOutTime e) = false ->
  let hours :=
    if truthy_str (TimeEntry.checkInTime e)
    then Some (calculateTotalHours (Some (TimeEntry.checkInTime e))
                 (Some (hhmm (getHours now) (getMinutes now)))
                 (default 0 (TimeEntry.breakMinutes e)))
    else None in
  let f := set_columns
             (PartialTimeEntry.mk None None None
                (Some (hhmm (getHours now) (getMinutes now))) None None None None)
             None (Some (checkout_time now)) hours now in
  let st' := mkStore (employees st)
               (update_rows (fun x => TimeEntry.id x =? id) f (timeEntries st))
               (timeEntries_id_seq st) in
  checkoutTimeEntry now id st = Resolved (Some (withEmployeeName st' (f e)), st') /\
  findTimeEntry st' id = Some (f e).
Proof.
  intros Hfind Hout.
  destruct (formatTime_hhmm (getHours now) (getMinutes now)
              (getHours_range now) (getMinutes_range now))
    as (Hfmt & _ & _ & _ & _ & Htr).
  set (data := PartialTimeEntry.mk None None None
                 (Some (hhmm (getHours now) (getMinutes now))) None None None None).
  assert (update_time (PartialTimeEntry.checkOutTime data) = Some (Some (checkout_time now)))
    as Hout_time.
  { unfold update_time. subst data. cbn [PartialTimeEntry.checkOutTime truthy_ostr].
    rewrite Htr. change (default "" (Some ?c)) with c. now rewrite Hfmt. }
  cbn zeta.
  rewrite <- (update_hours_checkout _ _ e (getHours_range now) (getMinutes_range now)).
  fold data.
  assert (checkoutTimeEntry now id st = updateTimeEntry now id data st) as ->.
  { unfold checkoutTimeEntry, getTimeEntryById. rewrite Hfind.
    cbn [option_map withEmployeeName]. now rewrite Hout. }
  destruct (updateTimeEntry now id data st) as [[r st']|] eqn:Hupd.
  - destruct (updateTimeEntry_resolved _ _ _ _ _ _ _ Hfind Hupd)
      as (inT & outT & Hin & Hot & _ & Hst & Hr & Hnew).
    rewrite Hout_time in Hot. inversion Hot; subst outT; clear Hot.
    unfold update_time in Hin. subst data. cbn in Hin.
    inversion Hin; subst inT; clear Hin.
    rewrite Hr. unfold getTimeEntryById. rewrite Hnew. cbn [option_map].
    rewrite <- Hst. split; [reflexivity | exact Hnew].
  - exfalso. apply updateTimeEntry_rejected in Hupd.
    destruct Hupd as [[H _] | [_ [H | [H | H]]]].
    + rewrite Hfind in H. discriminate.
    + unfold update_time in H. subst data. discriminate.
    + rewrite Hout_time in H. discriminate.
    + subst data. discriminate.
Qed.



(** ** The check-out endpoint *)


(** ** What the endpoints keep true of the stored entries *)

Lemma truthy_app_r (a b : string) : truthy_str b = true -> truthy_str (a ++ b) = true.
Proof. destruct a; simpl; auto. Qed.

Lemma formatTime_truthy (time r : string) :
  formatTime time = Some r -> truthy_str time = true -> truthy_str r = true.
Proof.
  unfold formatTime. intros H Ht. rewrite Ht in H. cbn [negb] in H.
  destruct (includes "AM" time || includes "PM" time).
  - inversion H; subst. exact Ht.
  - destruct (nth_error (map Number (split ":"%char time)) 1) as [minutes|]; [|discriminate].
    inversion H; subst. apply truthy_app_r. reflexivity.
Qed.

Lemma update_time_truthy (t r : option string) :
  update_time t = Some r -> t <> Some "" -> truthy_ostr r = truthy_ostr t.
Proof.
  unfold update_time. destruct (truthy_ostr t) eqn:Ht.
  - destruct t as [s|]; [|discriminate]. change (default "" (Some s)) with s.
    destruct (formatTime s) as [fo|] eqn:Hf; [|discriminate].
    cbn [option_map]. intros H _. inversion H; subst. cbn [truthy_ostr] in *.
    now apply (formatTime_truthy s).
  - intros H _. inversion H; subst. exact Ht.
Qed.

Lemma update_time_absent (t r : option string) :
  update_time t = Some r -> truthy_ostr t = false -> r = t.
Proof. unfold update_time. intros H Ht. rewrite Ht in H. now inversion H. Qed.

Lemma find_unique (st : Store) (e : TimeEntry.t) :
  ids_distinct st -> In e (timeEntries st) -> findTimeEntry st (TimeEntry.id e) = Some e.
Proof.
  unfold ids_distinct, findTimeEntry. induction (timeEntries st) as [|x l IH];
    intros Hnd Hin; [destruct Hin|]. simpl in *. inversion Hnd as [|? ? Hx Hl]; subst.
  destruct Hin as [-> | Hin].
  - now rewrite Z.eqb_refl.
  - destruct (Z.eqb_spec (TimeEntry.id x) (TimeEntry.id e)) as [E | NE].
    + exfalso. apply Hx. rewrite E. now apply in_map.
    + now apply IH.
Qed.

Lemma createTimeEntry_open (now : Z) (data : InsertTimeEntry.t) (st st' : Store)
    (e : TimeEntry.t) (n : option string) :
  createTimeEntry now data st = Resolved ((e, n), st') ->
  truthy_ostr (TimeEntry.checkOutTime e) = false -> TimeEntry.totalHours e = None.
Proof.
  unfold createTimeEntry.
  destruct (formatTime (default "" (InsertTimeEntry.checkInTime data))) as [fi|];
    [|discriminate].
  destruct (truthy_ostr (InsertTimeEntry.checkOutTime data)) eqn:Hco.
  - destruct (InsertTimeEntry.checkOutTime data) as [co|]; [|discriminate].
    change (default "" (Some co)) with co.
    destruct (formatTime co) as [fo|] eqn:Hf; [|discriminate].
    cbn [option_map withEmployeeName]. destruct (int4 _ && writable _ _ _); [|discriminate].
    intros H. inversion H; subst; clear H.
    cbn [TimeEntry.checkOutTime truthy_ostr]. intros Hopen.
    rewrite (formatTime_truthy co fo Hf Hco) in Hopen. discriminate.
  - cbn [withEmployeeName]. destruct (int4 _ && writable _ _ _); [|discriminate].
    intros H. inversion H; subst; clear H. reflexivity.
Qed.

Lemma createTimeEntry_consistent (now : Z) (data : InsertTimeEntry.t) (st st' : Store)
    (r : TimeEntryWithName) :
  consistent st -> createTimeEntry now data st = Resolved (r, st') -> consistent st'.
Proof.
  intros (Hnd & Hseq & Hopen) H. destruct r as [e n].
  pose proof (createTimeEntry_open _ _ _ _ _ _ H) as Hnew.
  destruct (createTimeEntry_row _ _ _ _ _ _ H) as (Hid & -> & _).
  unfold consistent, ids_distinct, ids_below_seq, open_without_total.
  cbn [timeEntries timeEntries_id_seq]. split; [|split].
  - rewrite map_app. cbn [map]. apply NoDup_ListNoDup.
    apply NoDup_app. split; [now apply NoDup_ListNoDup|]. split.
    + intros x Hx Hx'. apply list_elem_of_In in Hx, Hx'.
      destruct Hx' as [<- | []]. apply in_map_iff in Hx. destruct Hx as (y & Hy & Hin).
      specialize (Hseq y Hin). lia.
    + apply NoDup_singleton.
  - intros x Hx. apply in_app_iff in Hx. destruct Hx as [Hx | [<- | []]].
    + specialize (Hseq x Hx). lia.
    + lia.
  - intros x Hx. apply in_app_iff in Hx. destruct Hx as [Hx | [<- | []]]; auto.
Qed.

Lemma set_columns_open (data : PartialTimeEntry.t) (inT outT : option string) (now : Z)
    (cur : TimeEntry.t) :
  PartialTimeEntry.totalHours data = None ->
  PartialTimeEntry.checkOutTime data <> Some "" ->
  update_time (PartialTimeEntry.checkOutTime data) = Some outT ->
  let e' := set_columns data inT outT (update_hours data cur) now cur in
  truthy_ostr (TimeEntry.checkOutTime e') =
    truthy_ostr (PartialTimeEntry.checkOutTime data) || truthy_ostr (TimeEntry.checkOutTime cur) /\
  (truthy_ostr (TimeEntry.checkOutTime e') = false ->
   TimeEntry.totalHours e' = TimeEntry.totalHours cur).
Proof.
  intros Hth Hne Hot. cbn zeta.
  cbn [set_columns TimeEntry.checkOutTime TimeEntry.totalHours].
  pose proof (update_time_truthy _ _ Hot Hne) as Htr.
  destruct (truthy_ostr (PartialTimeEntry.checkOutTime data)) eqn:Hd.
  - destruct outT as [s|]; [|discriminate]. split; [exact Htr|].
    rewrite Htr. discriminate.
  - rewrite (update_time_absent _ _ Hot Hd) in *.
    destruct (PartialTimeEntry.checkOutTime data) as [s|] eqn:Hs.
    + destruct s; [now destruct Hne | discriminate].
    + cbn [orb]. split; [reflexivity|]. intros Hopen.
      unfold update_hours, or_str. rewrite Hs, Hth. cbn [truthy_ostr].
      rewrite Hopen, andb_false_r. reflexivity.
Qed.

Lemma updateTimeEntry_consistent (now id : Z) (data : PartialTimeEntry.t) (st st' : Store)
    (r : option TimeEntryWithName) :
  PartialTimeEntry.totalHours data = None ->
  PartialTimeEntry.checkOutTime data <> Some "" ->
  consistent st -> updateTimeEntry now id data st = Resolved (r, st') -> consistent st'.
Proof.
  intros Hth Hne (Hnd & Hseq & Hopen) H.
  destruct (findTimeEntry st id) as [cur|] eqn:Hfind.
  - destruct (updateTimeEntry_resolved _ _ _ _ _ _ _ Hfind H)
      as (inT & outT & _ & Hot & _ & -> & _ & _).
    unfold consistent, ids_distinct, ids_below_seq, open_without_total.
    cbn [timeEntries timeEntries_id_seq].
    split; [|split].
    + eapply Permutation_NoDup; [|exact Hnd].
      symmetry. now apply update_rows_ids.
    + intros e' He'. apply In_update_rows in He'.
      destruct He' as [[He _] | (e & He & _ & ->)]; [now apply Hseq|].
      now apply (Hseq e).
    + intros e' He'. apply In_update_rows in He'.
      destruct He' as [[He _] | (e & He & E & ->)]; [now apply Hopen|].
      apply Z.eqb_eq in E.
      pose proof (find_unique st e Hnd He) as Hu. rewrite E, Hfind in Hu.
      inversion Hu; subst cur; clear Hu.
      destruct (set_columns_open data inT outT now e Hth Hne Hot) as [Htr Htot].
      cbn zeta in Htr, Htot. intros Ho. rewrite (Htot Ho). apply Hopen; [exact He|].
      rewrite Htr in Ho. now apply orb_false_iff in Ho.
  - rewrite (updateTimeEntry_absent _ _ _ _ Hfind) in H.
    destruct (int4 id); [|discriminate]. inversion H; subst. now repeat split.
Qed.

Lemma updateTimeEntry_stays_closed (now id id0 : Z) (data : PartialTimeEntry.t)
    (st st' : Store) (r : option TimeEntryWithName) (e : TimeEntry.t) :
  PartialTimeEntry.checkOutTime data <> Some "" ->
  updateTimeEntry now id data st = Resolved (r, st') ->
  findTimeEntry st id0 = Some e ->
  truthy_ostr (TimeEntry.checkOutTime e) = true ->
  exists e', findTimeEntry st' id0 = Some e' /\
             truthy_ostr (TimeEntry.checkOutTime e') = true.
Proof.
  intros Hne H Hfind0 Hclosed.
  destruct (findTimeEntry st id) as [cur|] eqn:Hfind.
  - destruct (updateTimeEntry_resolved _ _ _ _ _ _ _ Hfind H)
      as (inT & outT & _ & Hot & _ & Hst & _ & Hnew).
    destruct (Z.eq_dec id0 id) as [-> | Hother].
    + rewrite Hfind in Hfind0. inversion Hfind0; subst cur; clear Hfind0.
      eexists. split; [exact Hnew|].
      cbn [set_columns TimeEntry.checkOutTime].
      pose proof (update_time_truthy _ _ Hot Hne) as Htr.
      destruct outT as [s|]; [|exact Hclosed].
      rewrite Htr. destruct (truthy_ostr (PartialTimeEntry.checkOutTime data)) eqn:Hd;
        [reflexivity|].
      pose proof (update_time_absent _ _ Hot Hd) as Hx. rewrite <- Hx in Hd, Hne.
      destruct s; [now destruct Hne | discriminate Hd].
    + exists e. split; [|exact Hclosed]. subst st'. unfold findTimeEntry.
      cbn [timeEntries].
      rewrite find_update_rows_other; [exact Hfind0 | exact Hother | reflexivity].
  - rewrite (updateTimeEntry_absent _ _ _ _ Hfind) in H.
    destruct (int4 id); [|discriminate]. inversion H; subst. now exists e.
Qed.

Lemma NoDup_map_filter {A B : Type} (f : A -> B) (p : A -> bool) (l : list A) :
  List.NoDup (map f l) -> List.NoDup (map f (List.filter p l)).
Proof.
  induction l as [|x l IH]; intros H; [exact H|]. simpl in *.
  inversion H as [|? ? Hx Hl]; subst. destruct (p x); [|now apply IH].
  simpl. constructor; [|now apply IH].
  intros Hin. apply Hx. apply in_map_iff in Hin. destruct Hin as (y & <- & Hy).
  apply List.filter_In in Hy. apply in_map. tauto.
Qed.

Lemma delete_where_consistent (id : Z) (st : Store) :
  consistent st -> consistent (delete_where id st).
Proof.
  intros (Hnd & Hseq & Hopen).
  unfold consistent, ids_distinct, ids_below_seq, open_without_total, delete_where.
  cbn [timeEntries timeEntries_id_seq]. split; [|split].
  - now apply NoDup_map_filter.
  - intros e He. apply List.filter_In in He. now apply Hseq.
  - intros e He. apply List.filter_In in He. now apply Hopen.
Qed.

Lemma hhmm_of_clock_not_empty (now : Z) :
  Some (hhmm (getHours now) (getMinutes now)) <> Some "".
Proof.
  destruct (formatTime_hhmm (getHours now) (getMinutes now)
              (getHours_range now) (getMinutes_range now))
    as (_ & _ & _ & _ & _ & Htr).
  intros H. inversion H as [E]. rewrite E in Htr. discriminate.
Qed.

Lemma checkoutTimeEntry_cases (now id : Z) (st : Store) :
  checkoutTimeEntry now id st = Resolved (None, st) \/
  checkoutTimeEntry now id st =
    updateTimeEntry now id
      (PartialTimeEntry.mk None None None (Some (hhmm (getHours now) (getMinutes now)))
         None None None None) st.
Proof.
  unfold checkoutTimeEntry. destruct (getTimeEntryById st id) as [[entry n]|] eqn:E.
  - destruct (truthy_ostr (TimeEntry.checkOutTime entry)); [now left | now right].
  - right. unfold getTimeEntryById in E.
    destruct (findTimeEntry st id) eqn:Hfind; [discriminate|].
    now rewrite (updateTimeEntry_absent _ _ _ _ Hfind).
Qed.

Lemma patch_checkOutTime_not_empty (co : option string) :
  match co with Some s => or_str (Some s) None | None => None end <> Some "".
Proof.
  destruct co as [s|]; [|discriminate]. unfold or_str. cbn [truthy_ostr].
  destruct s; cbn [truthy_str]; discriminate.
Qed.

(** Through the four endpoints that write time entries, the stored entries
    stay consistent: ids stay distinct and below the sequence, and an entry
    without a check-out time never has total hours.  (The storage
    interface alone does not ensure the last: [updateTimeEntry] passes a
    total given by its caller on to an entry that stays open.) *)
Theorem endpoints_keep_entries_consistent (zone : Z -> Z) (now : Z) (req : Route.Request)
    (st : Store) :
  consistent st ->
  consistent (snd (Route.post_time_entries zone now req st)) /\
  consistent (snd (Route.patch_time_entry zone now req st)) /\
  consistent (snd (Route.delete_time_entry req st)) /\
  consistent (snd (Checkout.post_checkout now req st)).
Proof.
  intros Hc. split; [|split; [|split]].
  - unfold Route.post_time_entries.
    destruct (negb (Route.isAuthenticated req)); [exact Hc|]. cbn zeta.
    destruct (Route.date (Route.body req)) as [|[dateObj|]|]; try exact Hc.
    destruct (isWeekend (toLocal zone dateObj)); [exact Hc|].
    destruct (Route.toInteger _) as [eid|]; [|exact Hc].
    destruct (Route.toInteger _) as [bm|]; [|exact Hc].
    destruct (createTimeEntry _ _ _) as [[r st']|] eqn:H; [|exact Hc].
    exact (createTimeEntry_consistent _ _ _ _ _ Hc H).
  - unfold Route.patch_time_entry.
    destruct (negb (Route.isAuthenticated req)); [exact Hc|]. cbn zeta.
    destruct (match Route.date (Route.body req) with
              | Route.DateUndefined => _ | Route.DateString _ => _ | Route.DateOther => _
              end) as [r | processedDate]; [exact Hc|].
    destruct (Route.params_id req) as [id|]; [|exact Hc].
    destruct (getTimeEntryById st id); [|now destruct (int4 id)].
    destruct (match Route.employeeId (Route.body req) with Some _ => _ | None => _ end)
      as [eid|]; [|exact Hc].
    destruct (match Route.breakMinutes (Route.body req) with Some _ => _ | None => _ end)
      as [bm|]; [|exact Hc].
    destruct (updateTimeEntry _ _ _ _) as [[r st']|] eqn:H; [|exact Hc].
    assert (consistent st') as Hc'.
    { eapply updateTimeEntry_consistent; [| |exact Hc|exact H].
      - reflexivity.
      - apply patch_checkOutTime_not_empty. }
    now destruct r.
  - unfold Route.delete_time_entry, deleteTimeEntry.
    destruct (negb (Route.isAuthenticated req)); [exact Hc|]. cbn zeta.
    destruct (Route.params_id req) as [id|]; [|exact Hc].
    destruct (int4 id); [|exact Hc].
    now apply delete_where_consistent.
  - unfold Checkout.post_checkout.
    destruct (negb (Route.isAuthenticated req)); [exact Hc|].
    destruct (Route.params_id req) as [id|]; [|exact Hc].
    destruct (checkoutTimeEntry now id st) as [[r st']|] eqn:H; [|exact Hc].
    assert (consistent st') as Hc'.
    { destruct (checkoutTimeEntry_cases now id st) as [E | E]; rewrite E in H.
      - now inversion H; subst.
      - eapply updateTimeEntry_consistent; [| |exact Hc|exact H].
        + reflexivity.
        + apply hhmm_of_clock_not_empty. }
    now destruct r.
Qed.

Lemma open_store_consistent : consistent open_store.
Proof.
  split; [|split].
  - unfold ids_distinct. cbn. repeat constructor. intros [].
  - intros e [<- | []]. cbn. lia.
  - intros e [<- | []] _. reflexivity.
Qed.

Lemma endpoints_keep_entries_consistent_witness :
  consistent (snd (Checkout.post_checkout (mkDate 2024 1 2 17 30)
                     (Route.mkRequest true (Some 1)
                        (Route.mkBody None Route.DateUndefined None None None))
                     open_store)).
Proof.
  apply (endpoints_keep_entries_consistent utc (mkDate 2024 1 2 17 30)
           (Route.mkRequest true (Some 1)
              (Route.mkBody None Route.DateUndefined None None None))
           open_store open_store_consistent).
Defined.

(** No endpoint reopens an entry: one that has a check-out time is found
    with a check-out time after any create, update or check-out request,
    whatever its body; after a delete request it is found as it was or not
    at all.  ([updateTimeEntry] itself would empty the check-out time when
    given an empty string; the update endpoint never passes one on.) *)
Theorem endpoints_never_reopen_an_entry (zone : Z -> Z) (now id : Z) (req : Route.Request)
    (st : Store) (e : TimeEntry.t) :
  findTimeEntry st id = Some e ->
  truthy_ostr (TimeEntry.checkOutTime e) = true ->
  let closed (st' : Store) :=
    exists e', findTimeEntry st' id = Some e' /\
               truthy_ostr (TimeEntry.checkOutTime e') = true in
  closed (snd (Route.post_time_entries zone now req st)) /\
  closed (snd (Route.patch_time_entry zone now req st)) /\
  closed (snd (Checkout.post_checkout now req st)) /\
  (findTimeEntry (snd (Route.delete_time_entry req st)) id = Some e \/
   findTimeEntry (snd (Route.delete_time_entry req st)) id = None).
Proof.
  intros Hfind Hclosed closed.
  assert (closed st) as Hst by (exists e; split; assumption).
  split; [|split; [|split]].
  - unfold Route.post_time_entries.
    destruct (negb (Route.isAuthenticated req)); [exact Hst|]. cbn zeta.
    destruct (Route.date (Route.body req)) as [|[dateObj|]|]; try exact Hst.
    destruct (isWeekend (toLocal zone dateObj)); [exact Hst|].
    destruct (Route.toInteger _) as [eid|]; [|exact Hst].
    destruct (Route.toInteger _) as [bm|]; [|exact Hst].
    destruct (createTimeEntry _ _ _) as [[[e' n] st']|] eqn:H; [|exact Hst].
    destruct (createTimeEntry_row _ _ _ _ _ _ H) as (_ & -> & _).
    exists e. split; [|exact Hclosed]. unfold findTimeEntry. cbn [snd timeEntries].
    now apply find_app_some.
  - unfold Route.patch_time_entry.
    destruct (negb (Route.isAuthenticated req)); [exact Hst|]. cbn zeta.
    destruct (match Route.date (Route.body req) with
              | Route.DateUndefined => _ | Route.DateString _ => _ | Route.DateOther => _
              end) as [r | processedDate]; [exact Hst|].
    destruct (Route.params_id req) as [id'|]; [|exact Hst].
    destruct (getTimeEntryById st id'); [|now destruct (int4 id')].
    destruct (match Route.employeeId (Route.body req) with Some _ => _ | None => _ end)
      as [eid|]; [|exact Hst].
    destruct (match Route.breakMinutes (Route.body req) with Some _ => _ | None => _ end)
      as [bm|]; [|exact Hst].
    destruct (updateTimeEntry _ _ _ _) as [[r st']|] eqn:H; [|exact Hst].
    assert (closed st') as Hst'.
    { eapply updateTimeEntry_stays_closed; [|exact H|exact Hfind|exact Hclosed].
      apply patch_checkOutTime_not_empty. }
    now destruct r.
  - unfold Checkout.post_checkout.
    destruct (negb (Route.isAuthenticated req)); [exact Hst|].
    destruct (Route.params_id req) as [id'|]; [|exact Hst].
    destruct (checkoutTimeEntry now id' st) as [[r st']|] eqn:H; [|exact Hst].
    assert (closed st') as Hst'.
    { destruct (checkoutTimeEntry_cases now id' st) as [E | E]; rewrite E in H.
      - now inversion H; subst.
      - eapply updateTimeEntry_stays_closed; [|exact H|exact Hfind|exact Hclosed].
        apply hhmm_of_clock_not_empty. }
    now destruct r.
  - unfold Route.delete_time_entry, deleteTimeEntry.
    destruct (negb (Route.isAuthenticated req)); [now left|]. cbn zeta.
    destruct (Route.params_id req) as [id'|]; [|now left].
    destruct (int4 id'); [|now left].
    cbn [snd]. destruct (Z.eq_dec id id') as [-> | Hne].
    + right. apply findTimeEntry_deleted.
    + left. unfold findTimeEntry, delete_where. cbn [timeEntries].
      rewrite find_filter_other by exact Hne. exact Hfind.
Qed.

Lemma endpoints_never_reopen_an_entry_witness :
  exists e',
    findTimeEntry
      (snd (Route.patch_time_entry utc 0
              (Route.mkRequest true (Some 1)
                 (Route.mkBody None Route.DateUndefined None (Some "") None))
              closed_store)) 1 = Some e' /\
    truthy_ostr (TimeEntry.checkOutTime e') = true.
Proof.
  exact (proj1 (proj2 (endpoints_never_reopen_an_entry utc 0 1
                         (Route.mkRequest true (Some 1)
                            (Route.mkBody None Route.DateUndefined None (Some "") None))
                         closed_store closed_entry eq_refl eq_refl))).
Defined.

(** ** The entries of a day *)

Lemma between_day (date x : Z) :
  between x (startOfDay date) (endOfDay date) = bool_decide (dayOf x = dayOf date).
Proof.
  unfold between. destruct (bool_decide (dayOf x = dayOf date)) eqn:E.
  - apply bool_decide_eq_true in E. apply andb_true_iff.
    rewrite Z.leb_le, Z.leb_le. date_arith.
  - apply bool_decide_eq_false in E. apply andb_false_iff.
    rewrite !Z.leb_gt. date_unfold. Z.div_mod_to_equations. lia.
Qed.

Lemma insert_by_perm {A : Type} (key : A -> Z) (x : A) (l : list A) :
  Permutation (insert_by key x l) (x :: l).
Proof.
  induction l as [|y l IH]; simpl; [reflexivity|].
  destruct (key x <=? key y); [reflexivity|].
  rewrite IH. apply perm_swap.
Qed.

Lemma orderBy_perm {A : Type} (key : A -> Z) (l : list A) :
  Permutation (orderBy key l) l.
Proof.
  unfold orderBy. induction l as [|x l IH]; simpl; [reflexivity|].
  rewrite insert_by_perm. now constructor.
Qed.

Lemma insert_by_sorted {A : Type} (key : A -> Z) (x : A) (l : list A) :
  StronglySorted (fun a b => key a <= key b) l ->
  StronglySorted (fun a b => key a <= key b) (insert_by key x l).
Proof.
  induction l as [|y l IH]; intros H; simpl.
  - repeat constructor.
  - inversion H as [|? ? Hl Hy]; subst.
    destruct (Z.leb_spec (key x) (key y)) as [Hle | Hgt].
    + constructor; [exact H|]. constructor; [exact Hle|].
      rewrite List.Forall_forall in *. intros z Hz. specialize (Hy z Hz). lia.
    + constructor; [now apply IH|].
      rewrite List.Forall_forall in *. intros z Hz.
      apply In_insert_by in Hz. destruct Hz as [-> | Hz]; [lia | now apply Hy].
Qed.

Lemma orderBy_sorted {A : Type} (key : A -> Z) (l : list A) :
  StronglySorted (fun a b => key a <= key b) (orderBy key l).
Proof.
  unfold orderBy. induction l as [|x l IH]; simpl; [constructor|].
  now apply insert_by_sorted.
Qed.

Lemma StronglySorted_map {A B : Type} (f : A -> B) (R : B -> B -> Prop) (l : list A) :
  StronglySorted (fun a b => R (f a) (f b)) l -> StronglySorted R (map f l).
Proof.
  induction 1 as [|x l Hl IH Hx]; simpl; constructor; [exact IH|].
  rewrite List.Forall_forall in *. intros y Hy. apply in_map_iff in Hy.
  destruct Hy as (z & <- & Hz). now apply Hx.
Qed.

(** [getTimeEntriesByDate] returns the entries dated on the calendar day
    of [date], whatever the time of day of either, each once and with the
    name of its employee, the latest created first. *)
Theorem getTimeEntriesByDate_day (st : Store) (date : Z) :
  Permutation (map fst (getTimeEntriesByDate st date))
    (List.filter (fun e => bool_decide (dayOf (TimeEntry.date e) = dayOf date))
       (timeEntries st)) /\
  StronglySorted (fun a b => TimeEntry.createdAt (fst a) >= TimeEntry.createdAt (fst b))
    (getTimeEntriesByDate st date) /\
  List.Forall (fun r => snd r = option_map Employee.name
                                  (getEmployeeById st (TimeEntry.employeeId (fst r))))
    (getTimeEntriesByDate st date).
Proof.
  unfold getTimeEntriesByDate. split; [|split].
  - rewrite map_map. cbn [withEmployeeName fst]. rewrite map_id.
    unfold orderByDesc. rewrite orderBy_perm.
    erewrite List.filter_ext; [reflexivity|]. intros e. apply between_day.
  - apply StronglySorted_map. cbn [withEmployeeName fst].
    unfold orderByDesc.
    eapply StronglySorted_ind with (P := StronglySorted _);
      [constructor | | apply (orderBy_sorted (fun x => - TimeEntry.createdAt x))].
    intros a l Hl IH Ha. constructor; [exact IH|].
    rewrite List.Forall_forall in *. intros y Hy. specialize (Ha y Hy). cbn beta in Ha. lia.
  - rewrite List.Forall_forall. intros r Hr. apply in_map_iff in Hr.
    destruct Hr as (e & <- & _). reflexivity.
Qed.

(* ===================================================================== *)
(** ** The paginated list of entries *)

Lemma insert_by_lex {A : Type} (k1 k2 : A -> Z) (x : A) (l : list A) :
  let lex a b := k1 a < k1 b \/ (k1 a = k1 b /\ k2 a <= k2 b) in
  StronglySorted lex l ->
  (forall y, In y l -> k2 x <= k2 y) ->
  StronglySorted lex (insert_by k1 x l).
Proof.
  intros lex. induction l as [|y l IH]; intros H Hx; simpl.
  - repeat constructor.
  - inversion H as [|? ? Hl Hy]; subst.
    destruct (Z.leb_spec (k1 x) (k1 y)) as [Hle | Hgt].
    + constructor; [exact H|]. rewrite List.Forall_forall in *.
      intros z [<- | Hz].
      * pose proof (Hx y (or_introl eq_refl)). unfold lex. lia.
      * pose proof (Hx z (or_intror Hz)). specialize (Hy z Hz). unfold lex in *. lia.
    + constructor.
      * apply IH; [exact Hl|]. intros z Hz. apply Hx. now right.
      * rewrite List.Forall_forall in *. intros z Hz.
        apply In_insert_by in Hz. destruct Hz as [-> | Hz]; [unfold lex; lia | now apply Hy].
Qed.

Lemma orderBy_lex {A : Type} (k1 k2 : A -> Z) (l : list A) :
  StronglySorted (fun a b => k1 a < k1 b \/ (k1 a = k1 b /\ k2 a <= k2 b))
    (orderBy k1 (orderBy k2 l)).
Proof.
  pose proof (orderBy_sorted k2 l) as H.
  induction H as [|x l' Hl IH Hx]; [constructor|].
  unfold orderBy. cbn [foldr]. apply (insert_by_lex k1 k2); [exact IH|].
  intros y Hy. apply In_orderBy in Hy. rewrite List.Forall_forall in Hx. now apply Hx.
Qed.

Lemma StronglySorted_weaken {A : Type} (R R' : A -> A -> Prop) (l : list A) :
  (forall a b, R a b -> R' a b) -> StronglySorted R l -> StronglySorted R' l.
Proof.
  intros HR. induction 1 as [|x l Hl IH Hx]; constructor; [exact IH|].
  rewrite List.Forall_forall in *. auto.
Qed.




Lemma sortedEntries_listed (filters : TimeEntriesFilter.t) (st : Store) :
  StronglySorted listed_before (sortedEntries filters st).
Proof.
  unfold sortedEntries, orderByDesc.
  eapply StronglySorted_weaken; [|apply orderBy_lex]. cbn beta.
  unfold listed_before. intros a b H. lia.
Qed.


Lemma length_sortedEntries (filters : TimeEntriesFilter.t) (st : Store) :
  length (sortedEntries filters st)
  = length (List.filter (whereClause filters) (timeEntries st)).
Proof.
  unfold sortedEntries, orderByDesc.
  now rewrite !(Permutation_length (orderBy_perm _ _)).
Qed.

Lemma ceil_div_bounds (n ps : Z) :
  0 < ps -> 0 <= n -> (ceil_div n ps - 1) * ps < n <= ceil_div n ps * ps.
Proof. intros Hps Hn. unfold ceil_div. Z.div_mod_to_equations. nia. Qed.

Lemma getTimeEntries_resolved (filters : TimeEntriesFilter.t) (st : Store) :
  0 <= TimeEntriesFilter.pageSize filters ->
  0 <= (TimeEntriesFilter.page filters - 1) * TimeEntriesFilter.pageSize filters ->
  exists r,
    getTimeEntries filters st = Resolved r /\
    TimeEntriesPage.entries r =
      map (withEmployeeName st)
        (take (Z.to_nat (TimeEntriesFilter.pageSize filters))
           (drop (Z.to_nat ((TimeEntriesFilter.page filters - 1)
                            * TimeEntriesFilter.pageSize filters))
              (sortedEntries filters st))) /\
    TimeEntriesPage.totalEntries r = Z.of_nat (length (sortedEntries filters st)) /\
    TimeEntriesPage.startIndex r =
      (if 0 <? Z.of_nat (length (sortedEntries filters st))
       then (TimeEntriesFilter.page filters - 1) * TimeEntriesFilter.pageSize filters + 1
       else 0) /\
    TimeEntriesPage.endIndex r =
      Z.min ((TimeEntriesFilter.page filters - 1) * TimeEntriesFilter.pageSize filters
             + TimeEntriesFilter.pageSize filters)
            (Z.of_nat (length (sortedEntries filters st))) /\
    TimeEntriesPage.totalPages r =
      (if TimeEntriesFilter.pageSize filters =? 0 then None
       else Some (ceil_div (Z.of_nat (length (sortedEntries filters st)))
                    (TimeEntriesFilter.pageSize filters))).
Proof.
  intros Hps Hoff. unfold getTimeEntries. cbn zeta.
  destruct (Z.ltb_spec (TimeEntriesFilter.pageSize filters) 0); [lia|].
  destruct (Z.ltb_spec ((TimeEntriesFilter.page filters - 1)
                        * TimeEntriesFilter.pageSize filters) 0); [lia|].
  cbn [orb]. rewrite <- length_sortedEntries. eexists. split; [reflexivity|].
  repeat split.
Qed.



Lemma concat_chunks {A : Type} (k : nat) (l : list A) (m : nat) :
  (length l <= m * k)%nat ->
  concat (map (fun i => take k (drop (i * k) l)) (seq 0 m)) = l.
Proof.
  revert l. induction m as [|m IH]; intros l Hl.
  - destruct l; [reflexivity | simpl in Hl; lia].
  - cbn [seq map concat]. rewrite <- seq_shift, map_map.
    rewrite (map_ext _ (fun i => take k (drop (i * k) (drop k l)))).
    + rewrite IH; [apply take_drop|]. rewrite length_drop. lia.
    + intros i. rewrite drop_drop. f_equal.
Qed.

Lemma concat_map_map {A B C : Type} (g : B -> C) (h : A -> list B) (l : list A) :
  concat (map (fun i => map g (h i)) l) = map g (concat (map h l)).
Proof.
  induction l as [|x l IH]; [reflexivity|]. cbn [map concat].
  now rewrite IH, map_app.
Qed.

Lemma sorted_perm_unique {A : Type} (R S : A -> A -> Prop) (l1 l2 : list A) :
  (forall a b, S a b -> R b a -> False) ->
  StronglySorted R l1 -> StronglySorted S l2 -> Permutation l1 l2 -> l1 = l2.
Proof.
  intros Hrs. revert l1. induction l2 as [|x l2 IH]; intros l1 H1 H2 P.
  - symmetry in P. now apply Permutation_nil in P.
  - destruct l1 as [|y l1]; [now apply Permutation_nil_cons in P|].
    inversion H1 as [|? ? H1' Hy]; subst. inversion H2 as [|? ? H2' Hx]; subst.
    rewrite List.Forall_forall in Hy, Hx.
    assert (y = x) as ->.
    { assert (In x (y :: l1)) as Ix
        by (eapply Permutation_in; [symmetry; exact P | now left]).
      assert (In y (x :: l2)) as Iy by (eapply Permutation_in; [exact P | now left]).
      destruct Ix as [E | Ix]; [exact E|]. destruct Iy as [E | Iy]; [now symmetry|].
      exfalso. exact (Hrs x y (Hx y Iy) (Hy x Ix)). }
    f_equal. apply IH; [exact H1' | exact H2' |]. now apply Permutation_cons_inv in P.
Qed.

(** The pages of [getTimeEntries] from 1 to [totalPages], one after the
    other, are the entries that pass the filter, later date first and of
    two entries of a date the one created later first, when no two of them
    are equal in both: none is left out and none comes twice. *)
Theorem getTimeEntries_pages_cover (filters : TimeEntriesFilter.t) (st : Store)
    (l : list TimeEntry.t) :
  let pageSize := TimeEntriesFilter.pageSize filters in
  let total := Z.of_nat (length (List.filter (whereClause filters) (timeEntries st))) in
  0 < pageSize ->
  Permutation l (List.filter (whereClause filters) (timeEntries st)) ->
  StronglySorted strictly_before l ->
  concat (map (fun p => entriesOf (getTimeEntries (atPage filters p) st))
              (Zrange 1 (Z.to_nat (ceil_div total pageSize))))
  = map (withEmployeeName st) l.
Proof.
  intros pageSize total Hps Hperm Hsorted.
  assert (sortedEntries filters st = l) as Hl.
  { apply (sorted_perm_unique listed_before strictly_before).
    - unfold listed_before, strictly_before. intros a b. lia.
    - apply sortedEntries_listed.
    - exact Hsorted.
    - unfold sortedEntries, orderByDesc. rewrite !orderBy_perm. now symmetry. }
  rewrite <- Hl.
  pose proof (ceil_div_bounds total pageSize Hps ltac:(unfold total; lia)) as Hceil.
  unfold Zrange. rewrite map_map.
  rewrite (map_ext _ (fun i => map (withEmployeeName st)
                                 (take (Z.to_nat pageSize)
                                    (drop (i * Z.to_nat pageSize)
                                       (sortedEntries filters st))))).
  - rewrite concat_map_map, concat_chunks; [reflexivity|].
    rewrite length_sortedEntries. fold total. nia.
  - intros i.
    destruct (getTimeEntries_resolved (atPage filters (1 + Z.of_nat i)) st)
      as (r & Hr & Hentries & _).
    + cbn [atPage TimeEntriesFilter.pageSize]. fold pageSize. lia.
    + cbn [atPage TimeEntriesFilter.pageSize TimeEntriesFilter.page]. fold pageSize. nia.
    + rewrite Hr. cbn [entriesOf]. rewrite Hentries.
      cbn [atPage TimeEntriesFilter.pageSize TimeEntriesFilter.page]. fold pageSize.
      replace (Z.to_nat ((1 + Z.of_nat i - 1) * pageSize)) with (i * Z.to_nat pageSize)%nat
        by nia.
      reflexivity.
Qed.

Lemma getTimeEntries_pages_cover_witness :
  concat (map (fun p => entriesOf (getTimeEntries
                                     (atPage (TimeEntriesFilter.mk None None (Some 2) 1 1) p)
                                     even_store))
              (Zrange 1 2))
  = map (withEmployeeName even_store) [worked 3 2 2 8; worked 2 2 1 8].
Proof.
  apply (getTimeEntries_pages_cover (TimeEntriesFilter.mk None None (Some 2) 1 1) even_store
           [worked 3 2 2 8; worked 2 2 1 8]).
  - cbn. lia.
  - apply perm_swap.
  - repeat constructor.
Defined.

(** ** The figures of the day on the dashboard *)

Lemma add_comm (a b : jsnum) : add a b = add b a.
Proof. destruct a as [|x], b as [|y]; simpl; try reflexivity. f_equal. ring. Qed.

Lemma sumJ_perm (l l' : list jsnum) : Permutation l l' -> sumJ l = sumJ l'.
Proof.
  induction 1 as [| x l l' _ IH | x y l | l l' l'' _ IH1 _ IH2]; simpl.
  - reflexivity.
  - now rewrite IH.
  - rewrite <- !add_assoc. now rewrite (add_comm y x).
  - now rewrite IH1.
Qed.

Lemma sumHours_perm (l l' : list TimeEntry.t) :
  Permutation l l' -> sumHours l = sumHours l'.
Proof. intros H. rewrite !sumHours_sumJ. apply sumJ_perm. now apply Permutation_map. Qed.

Lemma filter_perm {A : Type} (p : A -> bool) (l l' : list A) :
  Permutation l l' -> Permutation (List.filter p l) (List.filter p l').
Proof.
  induction 1 as [| x l l' _ IH | x y l | l l' l'' _ IH1 _ IH2]; simpl.
  - constructor.
  - destruct (p x); [now constructor | exact IH].
  - destruct (p x), (p y); try reflexivity. apply perm_swap.
  - now rewrite IH1.
Qed.

Lemma getTimeEntriesByDate_perm (st : Store) (date : Z) :
  Permutation (map fst (getTimeEntriesByDate st date)) (entriesOfDay st date).
Proof.
  unfold getTimeEntriesByDate, entriesOfDay.
  rewrite map_map. cbn [withEmployeeName fst]. rewrite map_id.
  unfold orderByDesc. rewrite orderBy_perm.
  erewrite List.filter_ext; [reflexivity|]. intros e. apply between_day.
Qed.

(** The figures of the day on the dashboard are taken from the entries
    dated on the calendar day of the date and from nothing else: the total
    is the sum of their hours, an entry without a total counting 0, rounded
    to the nearest hundredth; the number checked in is the number of them
    without a check-out time, at most their number; and the average is the
    unrounded sum divided by the number of active employees and then
    rounded, 0 when none is active.  Two instants of one day give the same
    figures.  Rounding gives a whole number of hundredths at most half a
    hundredth away, whichever way the ties go. *)
Theorem dashboard_figures_of_the_day (tie_up : Qc -> bool) (st : Store) (date : Z) :
  let today := entriesOfDay st date in
  let active :=
    Z.of_nat (length (List.filter (fun e => String.eqb (Employee.status e) "active")
                                  (employees st))) in
  let total := sumJ (map (fun e => default (ofZ 0) (TimeEntry.totalHours e)) today) in
  let stats := getDashboardStats tie_up st date in
  DashboardStats.totalHours stats = toFixed2 tie_up total /\
  DashboardStats.activeEmployees stats = active /\
  DashboardStats.checkedInCount stats
    = Z.of_nat (length (List.filter
                          (fun e => negb (truthy_ostr (TimeEntry.checkOutTime e))) today)) /\
  0 <= DashboardStats.checkedInCount stats <= Z.of_nat (length today) /\
  DashboardStats.avgHoursPerEmployee stats
    = (if active =? 0 then ofZ 0 else toFixed2 tie_up (div total (ofZ active))) /\
  (forall date', dayOf date' = dayOf date ->
                 getDashboardStats tie_up st date' = getDashboardStats tie_up st date) /\
  toFixed2 tie_up JNaN = JNaN /\
  (forall q : Qc, exists k : Z,
      toFixed2 tie_up (JNum q) = JNum (Q2Qc (inject_Z k / (100 # 1))) /\
      (Qabs (inject_Z k / (100 # 1) - this q) <= 1 # 200)%Q).
Proof.
  intros today active total stats.
  pose proof (getTimeEntriesByDate_perm st date) as Hperm. fold today in Hperm.
  assert (sumHours (map fst (getTimeEntriesByDate st date)) = total) as Hsum.
  { rewrite (sumHours_perm _ _ Hperm). apply sumHours_totals. }
  assert (DashboardStats.checkedInCount stats
          = Z.of_nat (length (List.filter
                                (fun e => negb (truthy_ostr (TimeEntry.checkOutTime e)))
                                today))) as Hcount.
  { unfold stats, getDashboardStats. cbn [DashboardStats.checkedInCount].
    now rewrite (Permutation_length (filter_perm _ _ _ Hperm)). }
  split; [|split; [|split; [|split; [|split; [|split; [|split]]]]]].
  - unfold stats, getDashboardStats. cbn [DashboardStats.totalHours].
    now rewrite Hsum.
  - reflexivity.
  - exact Hcount.
  - rewrite Hcount. pose proof (List.filter_length_le
      (fun e => negb (truthy_ostr (TimeEntry.checkOutTime e))) today). lia.
  - unfold stats, getDashboardStats. cbn [DashboardStats.avgHoursPerEmployee].
    rewrite Hsum.
    change (activeEmployees st)
      with (List.filter (fun e => String.eqb (Employee.status e) "active") (employees st)).
    fold active.
    destruct (Z.eqb_spec active 0) as [E | NE].
    + rewrite E. cbn [Z.ltb Z.compare]. apply JNum_eq. vm_compute. reflexivity.
    + assert ((0 <? active) = true) as -> by (apply Z.ltb_lt; unfold active; lia).
      reflexivity.
  - intros date' Hday. unfold getDashboardStats, getTimeEntriesByDate, weekEntries.
    rewrite !startOfWeek_monday, !endOfWeek_monday.
    unfold startOfDay, endOfDay. now rewrite Hday.
  - reflexivity.
  - apply toFixed2_nearest.
Qed.

(* ===================================================================== *)
(** ** The monthly report *)

Lemma civil_core (era yoe doy : Z) :
  0 <= yoe <= 399 -> 0 <= doy <= 364 ->
  let doe := yoe * 365 + yoe / 4 - yoe / 100 + doy in
  let z := era * 146097 + doe in
  z / 146097 = era /\
  (doe - doe / 1460 + doe / 36524 - doe / 146096) / 365 = yoe.
Proof.
  intros Hy Hd doe z.
  assert (0 <= doe <= 146096) as Hdoe by (unfold doe; Z.div_mod_to_equations; lia).
  split.
  - unfold z. Z.div_mod_to_equations. lia.
  - unfold doe in *. Z.div_mod_to_equations. lia.
Qed.

(** The first of a month is read back as the first of that month. *)
Lemma civil_of_first (y m : Z) :
  1 <= m <= 12 -> civil_from_days (days_from_civil y m 1) = (y, m, 1).
Proof.
  intros Hm. unfold days_from_civil. cbv zeta.
  set (y' := y - (if m <=? 2 then 1 else 0)).
  set (era := y' / 400). set (yoe := y' - era * 400).
  set (c := if 2 <? m then m - 3 else m + 9).
  set (doy := (153 * c + 2) / 5 + 1 - 1).
  assert (0 <= c <= 11 /\ (c < 10 -> m = c + 3) /\ (10 <= c -> m = c - 9))
    as (Hc & Hc1 & Hc2) by (unfold c; destruct (Z.ltb_spec 2 m); lia).
  assert (0 <= yoe <= 399) as Hy by (unfold yoe, era; Z.div_mod_to_equations; lia).
  assert (0 <= doy <= 364) as Hd by (unfold doy; Z.div_mod_to_equations; lia).
  destruct (civil_core era yoe doy Hy Hd) as [He Hyoe]. cbv zeta in He, Hyoe.
  unfold civil_from_days. cbv zeta.
  replace (era * 146097 + (yoe * 365 + yoe / 4 - yoe / 100 + doy) - 719468 + 719468)
    with (era * 146097 + (yoe * 365 + yoe / 4 - yoe / 100 + doy)) by lia.
  rewrite He.
  replace (era * 146097 + (yoe * 365 + yoe / 4 - yoe / 100 + doy) - era * 146097)
    with (yoe * 365 + yoe / 4 - yoe / 100 + doy) by lia.
  rewrite Hyoe.
  replace (yoe * 365 + yoe / 4 - yoe / 100 + doy - (365 * yoe + yoe / 4 - yoe / 100))
    with doy by lia.
  assert ((5 * doy + 2) / 153 = c) as -> by (unfold doy; Z.div_mod_to_equations; lia).
  assert (yoe + era * 400 = y') as -> by (unfold yoe; lia).
  unfold y'. clearbody c.
  destruct (Z.ltb_spec c 10) as [H10 | H10].
  - specialize (Hc1 H10). replace (c + 3) with m by lia.
    destruct (Z.leb_spec m 2); [lia|]. f_equal; [f_equal; lia | unfold doy; lia].
  - specialize (Hc2 H10). replace (c - 9) with m by lia.
    destruct (Z.leb_spec m 2); [|lia]. f_equal; [f_equal; lia | unfold doy; lia].
Qed.

(** A day lies from the first of its month on and before the first of the
    next month. *)
Lemma civil_month_bounds (n : Z) :
  let y := fst (fst (civil_from_days n)) in
  let m := snd (fst (civil_from_days n)) in
  days_from_civil y m 1 <= n /\
  n < days_from_civil (fst (next_month y m)) (snd (next_month y m)) 1.
Proof.
  unfold civil_from_days. cbv zeta. cbn [fst snd].
  set (z := n + 719468).
  set (era := z / 146097).
  set (doe := z - era * 146097).
  set (yoe := (doe - doe / 1460 + doe / 36524 - doe / 146096) / 365).
  set (doy := doe - (365 * yoe + yoe / 4 - yoe / 100)).
  set (mp := (5 * doy + 2) / 153).
  assert (0 <= doe <= 146096) as Hdoe by (unfold doe, era; Z.div_mod_to_equations; lia).
  assert (0 <= yoe <= 399 /\ 0 <= doy <= 365) as [Hyoe Hdoy]
      by (unfold doy, yoe; Z.div_mod_to_equations; lia).
  assert (0 <= mp <= 11) as Hmp by (unfold mp; Z.div_mod_to_equations; lia).
  assert ((153 * mp + 2) / 5 <= doy) as Hlo by (unfold mp; Z.div_mod_to_equations; lia).
  assert (doy < (153 * (mp + 1) + 2) / 5) as Hhi by (unfold mp; Z.div_mod_to_equations; lia).
  assert (n = era * 146097 + (yoe * 365 + yoe / 4 - yoe / 100 + doy) - 719468) as Hn
      by (unfold doy, doe, z; lia).
  assert (yoe = 399 \/
          doy < 365 * (yoe + 1) + (yoe + 1) / 4 - (yoe + 1) / 100
                - (365 * yoe + yoe / 4 - yoe / 100)) as Hyear.
  { unfold doy, yoe. Z.div_mod_to_equations. lia. }
  clearbody doy mp yoe era. clear doe z Hdoe.
  unfold days_from_civil, next_month. cbv zeta.
  destruct (Z.ltb_spec mp 10) as [Hlt | Hge].
  - destruct (Z.leb_spec (mp + 3) 2); [lia|].
    destruct (Z.ltb_spec 2 (mp + 3)); [|lia].
    replace (mp + 3 - 3) with mp by lia.
    replace (yoe + era * 400 + 0 - 0) with (yoe + era * 400) by lia.
    replace ((yoe + era * 400) / 400) with era by (Z.div_mod_to_equations; lia).
    replace (yoe + era * 400 - era * 400) with yoe by lia.
    destruct (Z.eqb_spec (mp + 3) 12) as [E | NE]; cbn [fst snd].
    + destruct (Z.leb_spec 1 2); [|lia]. destruct (Z.ltb_spec 2 1); [lia|].
      replace (yoe + era * 400 + 0 + 1 - 1) with (yoe + era * 400) by lia.
      replace ((yoe + era * 400) / 400) with era by (Z.div_mod_to_equations; lia).
      replace (yoe + era * 400 - era * 400) with yoe by lia.
      assert (mp = 9) as -> by lia. subst n. Z.div_mod_to_equations. lia.
    + destruct (Z.leb_spec (mp + 3 + 1) 2); [lia|].
      destruct (Z.ltb_spec 2 (mp + 3 + 1)); [|lia].
      replace (yoe + era * 400 + 0 - 0) with (yoe + era * 400) by lia.
      replace ((yoe + era * 400) / 400) with era by (Z.div_mod_to_equations; lia).
      replace (yoe + era * 400 - era * 400) with yoe by lia.
      replace (mp + 3 + 1 - 3) with (mp + 1) by lia.
      subst n. Z.div_mod_to_equations. lia.
  - destruct (Z.leb_spec (mp - 9) 2); [|lia].
    destruct (Z.ltb_spec 2 (mp - 9)); [lia|].
    replace (mp - 9 + 9) with mp by lia.
    replace (yoe + era * 400 + 1 - 1) with (yoe + era * 400) by lia.
    replace ((yoe + era * 400) / 400) with era by (Z.div_mod_to_equations; lia).
    replace (yoe + era * 400 - era * 400) with yoe by lia.
    destruct (Z.eqb_spec (mp - 9) 12) as [E | NE]; [lia|]. cbn [fst snd].
    destruct (Z.leb_spec (mp - 9 + 1) 2) as [Hjan | Hfeb].
    + destruct (Z.ltb_spec 2 (mp - 9 + 1)); [lia|].
      replace (yoe + era * 400 + 1 - 1) with (yoe + era * 400) by lia.
      replace ((yoe + era * 400) / 400) with era by (Z.div_mod_to_equations; lia).
      replace (yoe + era * 400 - era * 400) with yoe by lia.
      replace (mp - 9 + 1 + 9) with (mp + 1) by lia.
      subst n. Z.div_mod_to_equations. lia.
    + destruct (Z.ltb_spec 2 (mp - 9 + 1)); [|lia].
      assert (mp = 11) as -> by lia.
      replace (yoe + era * 400 + 1 - 0) with (yoe + 1 + era * 400) by lia.
      change (11 - 9 + 1 - 3) with 0. change ((153 * 0 + 2) / 5) with 0.
      change ((153 * 11 + 2) / 5) with 337 in *.
      change ((153 * (11 + 1) + 2) / 5) with 367 in *.
      destruct (Z.eq_dec yoe 399) as [-> | Hne].
      * replace ((399 + 1 + era * 400) / 400) with (era + 1) by (Z.div_mod_to_equations; lia).
        replace (399 + 1 + era * 400 - (era + 1) * 400) with 0 by lia.
        change (399 / 4) with 99 in *. change (399 / 100) with 3 in *.
        change (0 / 4) with 0. change (0 / 100) with 0.
        subst n. split; lia.
      * replace ((yoe + 1 + era * 400) / 400) with era by (Z.div_mod_to_equations; lia).
        replace (yoe + 1 + era * 400 - era * 400) with (yoe + 1) by lia.
        destruct Hyear as [? | Hyear]; [lia|].
        subst n. split; lia.
Qed.

Lemma month_of_key (k : Z) : (k / 12) * 12 + (k mod 12 + 1 - 1) = k /\ 1 <= k mod 12 + 1 <= 12.
Proof. Z.div_mod_to_equations. lia. Qed.

Lemma fields_of_first (k : Z) :
  getFullYear (first_of_month k) = k / 12 /\
  getMonth1 (first_of_month k) = k mod 12 + 1 /\
  getDate (first_of_month k) = 1 /\
  timeOfDay (first_of_month k) = 0.
Proof.
  unfold getFullYear, getMonth1, getDate, first_of_month. rewrite dayOf_mul.
  rewrite civil_of_first by apply month_of_key. cbn [fst snd].
  repeat split. unfold timeOfDay, msPerDay. apply Z.mod_mul. lia.
Qed.

Lemma key_of_first (k : Z) : key_yyyy_MM (first_of_month k) = k.
Proof.
  unfold key_yyyy_MM. destruct (fields_of_first k) as (-> & -> & _).
  apply month_of_key.
Qed.

Lemma key_fields (t : Z) :
  key_yyyy_MM t / 12 = getFullYear t /\ key_yyyy_MM t mod 12 + 1 = getMonth1 t.
Proof.
  unfold key_yyyy_MM, getFullYear, getMonth1.
  destruct (civil_roundtrip (dayOf t)) as [_ Hm].
  Z.div_mod_to_equations. lia.
Qed.

Lemma startOfMonth_first (t : Z) : startOfMonth t = first_of_month (key_yyyy_MM t).
Proof.
  unfold startOfMonth, first_of_month. destruct (key_fields t) as [-> ->]. reflexivity.
Qed.

Lemma next_month_key (k : Z) :
  next_month (k / 12) (k mod 12 + 1) = ((k + 1) / 12, (k + 1) mod 12 + 1).
Proof.
  unfold next_month. destruct (Z.eqb_spec (k mod 12 + 1) 12); f_equal;
    Z.div_mod_to_equations; lia.
Qed.

Lemma endOfMonth_first (t : Z) : endOfMonth t = first_of_month (key_yyyy_MM t + 1) - 1.
Proof.
  unfold endOfMonth, first_of_month. destruct (key_fields t) as [<- <-].
  now rewrite next_month_key.
Qed.

Lemma setNextMonth_first (k : Z) : setNextMonth (first_of_month k) = first_of_month (k + 1).
Proof.
  unfold setNextMonth. destruct (fields_of_first k) as (-> & -> & -> & ->).
  rewrite next_month_key. unfold first_of_month. lia.
Qed.

Lemma iter_setNextMonth (k : Z) (i : nat) :
  Nat.iter i setNextMonth (first_of_month k) = first_of_month (k + Z.of_nat i).
Proof.
  induction i as [|i IH]; [simpl; f_equal; lia|].
  rewrite Nat.iter_succ, IH, setNextMonth_first. f_equal. lia.
Qed.

Lemma first_of_month_step (k : Z) (i : nat) :
  first_of_month k + Z.of_nat i * (28 * msPerDay) <= first_of_month (k + Z.of_nat i).
Proof.
  induction i as [|i IH]; [replace (k + Z.of_nat 0) with k by lia; lia|].
  pose proof (setNextMonth_advance (first_of_month (k + Z.of_nat i))) as H.
  rewrite setNextMonth_first in H.
  replace (k + Z.of_nat (S i)) with (k + Z.of_nat i + 1) by lia.
  unfold msPerDay in *. lia.
Qed.

Lemma first_of_month_mono (k k' : Z) : k < k' -> first_of_month k < first_of_month k'.
Proof.
  intros H. pose proof (first_of_month_step k (Z.to_nat (k' - k))) as Hs.
  replace (k + Z.of_nat (Z.to_nat (k' - k))) with k' in Hs by lia.
  unfold msPerDay in *. nia.
Qed.

(** An instant lies in its month. *)
Lemma month_bounds (t : Z) :
  first_of_month (key_yyyy_MM t) <= t < first_of_month (key_yyyy_MM t + 1).
Proof.
  pose proof (civil_month_bounds (dayOf t)) as H. cbv zeta in H.
  fold (getFullYear t) (getMonth1 t) in H.
  destruct (key_fields t) as [Hy Hm]. rewrite <- Hy, <- Hm in H.
  rewrite next_month_key in H. cbn [fst snd] in H.
  unfold first_of_month. pose proof (day_time t) as Ht.
  pose proof (timeOfDay_range t) as Hr. unfold msPerDay in *. lia.
Qed.

Lemma key_yyyy_MM_mono (t t' : Z) : t <= t' -> key_yyyy_MM t <= key_yyyy_MM t'.
Proof.
  intros H. destruct (Z.le_gt_cases (key_yyyy_MM t) (key_yyyy_MM t')) as [|Hgt]; [assumption|].
  pose proof (month_bounds t) as Hb. pose proof (month_bounds t') as Hb'.
  assert (first_of_month (key_yyyy_MM t' + 1) <= first_of_month (key_yyyy_MM t)) as Hm.
  { destruct (Z.eq_dec (key_yyyy_MM t' + 1) (key_yyyy_MM t)) as [-> | Hne]; [lia|].
    apply Z.lt_le_incl, first_of_month_mono. lia. }
  lia.
Qed.

Lemma format_MMMM_yyyy_first (k : Z) : format_MMMM_yyyy (first_of_month k) = month_label k.
Proof.
  unfold format_MMMM_yyyy, month_label. now destruct (fields_of_first k) as (-> & -> & _).
Qed.

Lemma monthly_fold (first : Z) :
  forall n : nat, exists M : gmap Z Bucket.t,
    fold_left (fun a i => monthly_body (Nat.iter i setNextMonth (first_of_month first)) a)
              (seq 0 n) (∅, []) = (M, Zrange first n) /\
    (forall k, In k (Zrange first n) -> M !! k = Some (month_bucket k)) /\
    (forall k, ~ In k (Zrange first n) -> M !! k = None).
Proof.
  induction n as [|n (M & Hfold & Hin & Hout)].
  - exists ∅. split; [reflexivity|]. split; [intros k []|]. intros k _. apply lookup_empty.
  - rewrite seq_S, fold_left_app, Hfold. cbn [fold_left Nat.add].
    rewrite iter_setNextMonth.
    set (w := first + Z.of_nat n).
    assert (~ In w (Zrange first n)) as Hnew by (rewrite In_Zrange; unfold w; lia).
    unfold monthly_body. cbn [fst snd].
    rewrite startOfMonth_first, !key_of_first, (Hout w Hnew), format_MMMM_yyyy_first.
    exists (<[w := month_bucket w]> M).
    assert (Zrange first (S n) = (Zrange first n ++ [w])%list) as ER.
    { unfold Zrange. now rewrite seq_S, map_app. }
    rewrite ER. split; [reflexivity|]. split.
    + intros k Hk. apply in_app_or in Hk. destruct Hk as [Hk | [<- | []]].
      * rewrite lookup_insert_ne; [now apply Hin|]. intros <-. now apply Hnew.
      * now rewrite lookup_insert_eq.
    + intros k Hk. rewrite lookup_insert_ne.
      * apply Hout. intros Hk'. apply Hk. apply in_or_app. now left.
      * intros <-. apply Hk. apply in_or_app. right. now left.
Qed.

Lemma monthly_init_months (startDate endDate : Z) :
  exists monthMap : gmap Z Bucket.t,
    monthly_init startDate endDate
      = Some (monthMap, Zrange (key_yyyy_MM startDate) (month_count startDate endDate)) /\
    (forall k, In k (Zrange (key_yyyy_MM startDate) (month_count startDate endDate)) ->
               monthMap !! k = Some (month_bucket k)).
Proof.
  destruct (monthly_fold (key_yyyy_MM startDate) (month_count startDate endDate))
    as (M & Hfold & Hin & _).
  exists M. split; [|exact Hin].
  unfold monthly_init. rewrite <- Hfold.
  rewrite startOfMonth_first, endOfMonth_first.
  set (first := key_yyyy_MM startDate) in *. set (last := key_yyyy_MM endDate) in *.
  unfold month_count. fold first last.
  apply date_loop_unroll.
  - unfold monthly_fuel.
    destruct (Z.le_gt_cases first last) as [Hle | Hgt]; [|lia].
    pose proof (first_of_month_step first (Z.to_nat (last - first + 1))) as Hs.
    replace (first + Z.of_nat (Z.to_nat (last - first + 1))) with (last + 1) in Hs by lia.
    unfold msPerDay in *. Z.div_mod_to_equations. lia.
  - intros i Hi. rewrite iter_setNextMonth.
    assert (first_of_month (first + Z.of_nat i) < first_of_month (last + 1))
      by (apply first_of_month_mono; lia).
    lia.
  - rewrite iter_setNextMonth.
    destruct (Z.le_gt_cases first last) as [Hle | Hgt].
    + replace (first + Z.of_nat (Z.to_nat (last - first + 1))) with (last + 1) by lia. lia.
    + replace (Z.to_nat (last - first + 1)) with 0%nat by lia.
      replace (first + Z.of_nat 0) with first by lia.
      destruct (Z.eq_dec (last + 1) first) as [-> | Hne]; [lia|].
      assert (first_of_month (last + 1) < first_of_month first)
        by (apply first_of_month_mono; lia).
      lia.
Qed.

Lemma key_of_month_end (k : Z) : key_yyyy_MM (first_of_month (k + 1) - 1) = k.
Proof.
  pose proof (month_bounds (first_of_month (k + 1) - 1)) as Hb.
  set (j := key_yyyy_MM (first_of_month (k + 1) - 1)) in *.
  destruct (Z.lt_trichotomy j k) as [Hlt | [E | Hgt]]; [|exact E|].
  - assert (first_of_month (j + 1) <= first_of_month k).
    { destruct (Z.eq_dec (j + 1) k) as [-> | Hne]; [lia|].
      apply Z.lt_le_incl, first_of_month_mono. lia. }
    assert (first_of_month k < first_of_month (k + 1)) by (apply first_of_month_mono; lia).
    lia.
  - assert (first_of_month (k + 1) <= first_of_month j).
    { destruct (Z.eq_dec (k + 1) j) as [-> | Hne]; [lia|].
      apply Z.lt_le_incl, first_of_month_mono. lia. }
    lia.
Qed.

Lemma day_bounds_of_month (k : Z) :
  startOfDay (first_of_month k) = first_of_month k /\
  endOfDay (first_of_month k - 1) = first_of_month k - 1.
Proof.
  unfold first_of_month. set (D := days_from_civil _ _ _). clearbody D.
  split; date_arith.
Qed.

(** The monthly report widens the range to whole months, from the first
    instant of the month of [dateFrom] to the last of the month of
    [dateTo], and has one bucket for each month of the widened range, in
    order, labelled with the name of the month and the year. *)
Theorem monthly_buckets_by_month (st : Store) (startDate endDate : Z)
    (employeeId : option Z) :
  let first := key_yyyy_MM startDate in
  let last := key_yyyy_MM endDate in
  let months := Zrange first (month_count startDate endDate) in
  (startOfMonth startDate = first_of_month first /\ first_of_month first <= startDate) /\
  (endOfMonth endDate = first_of_month (last + 1) - 1 /\
   endDate < first_of_month (last + 1)) /\
  (forall k, first_of_month k < first_of_month (k + 1) /\
             key_yyyy_MM (first_of_month k) = k /\
             key_yyyy_MM (first_of_month (k + 1) - 1) = k) /\
  (forall k, In k months <-> first <= k <= last) /\
  (exists buckets,
     getMonthlyReportData st startDate endDate employeeId = Some buckets /\
     map Bucket.label buckets = map month_label months).
Proof.
  intros first last months.
  pose proof (month_bounds startDate) as Hs. pose proof (month_bounds endDate) as He.
  fold first in Hs. fold last in He.
  split; [split; [apply startOfMonth_first | lia]|].
  split; [split; [apply endOfMonth_first | lia]|].
  split.
  { intros k. split; [apply first_of_month_mono; lia|].
    split; [apply key_of_first | apply key_of_month_end]. }
  split.
  { intros k. unfold months, month_count. fold first last. rewrite In_Zrange. lia. }
  destruct (monthly_init_months startDate endDate) as (M & Hinit & HM).
  unfold getMonthlyReportData. rewrite Hinit. eexists. split; [reflexivity|].
  apply toArray_labels. intros k Hk. now rewrite populate_label, (HM k Hk).
Qed.

(** The monthly report adds up, by month and employee, the hours of every
    entry with total hours that lies within the widened range, from the
    first of the month of [dateFrom] to the end of the month of [dateTo],
    and matches the employee filter: also of an entry before [dateFrom] or
    after [dateTo]. *)
Theorem monthly_report_adds_hours (st : Store) (startDate endDate : Z)
    (employeeId : option Z) (e : TimeEntry.t) :
  totals_are_numbers st ->
  In e (timeEntries st) ->
  TimeEntry.totalHours e <> None ->
  startOfMonth startDate <= TimeEntry.date e <= endOfMonth endDate ->
  matches_employee employeeId e = true ->
  let k := key_yyyy_MM (TimeEntry.date e) in
  let counted :=
    List.filter (relevant key_yyyy_MM k (TimeEntry.employeeId e))
      (chartEntries st (startOfMonth startDate) (endOfMonth endDate) employeeId) in
  exists buckets b,
    getMonthlyReportData st startDate endDate employeeId = Some buckets /\
    In b buckets /\
    Bucket.label b = month_label k /\
    In e counted /\
    Bucket.values b !! TimeEntry.employeeId e = Some (sumJ (map hoursOr0 counted)).
Proof.
  intros Hnum Hin Hh Hrange Hmatch k counted.
  destruct (monthly_init_months startDate endDate) as (M & Hinit & HM).
  set (entries := chartEntries st (startOfMonth startDate) (endOfMonth endDate) employeeId)
    in *.
  assert (In e entries) as He.
  { apply In_chartEntries. split; [exact Hin|]. split; [|exact Hmatch].
    rewrite startOfMonth_first, endOfMonth_first in *.
    destruct (day_bounds_of_month (key_yyyy_MM startDate)) as [-> _].
    destruct (day_bounds_of_month (key_yyyy_MM endDate + 1)) as [_ ->]. exact Hrange. }
  assert (In e counted) as Hc.
  { apply filter_In. split; [exact He|]. unfold relevant.
    rewrite bool_decide_eq_true_2 by exact Hh. now rewrite !Z.eqb_refl. }
  assert (In k (Zrange (key_yyyy_MM startDate) (month_count startDate endDate))) as Hk.
  { apply In_Zrange. unfold month_count, k.
    rewrite startOfMonth_first, endOfMonth_first in Hrange.
    pose proof (key_yyyy_MM_mono _ _ (proj1 Hrange)) as H1.
    pose proof (key_yyyy_MM_mono _ _ (proj2 Hrange)) as H2.
    rewrite key_of_first in H1. rewrite key_of_month_end in H2. lia. }
  destruct (chart_value key_yyyy_MM M entries k (TimeEntry.employeeId e) (month_bucket k))
    as (b & Hb & Hl & Hv).
  - now apply HM.
  - reflexivity.
  - apply List.Forall_forall. intros x Hx. apply In_chartEntries in Hx. now apply Hnum.
  - exists (toArray (populate key_yyyy_MM M entries)
                    (Zrange (key_yyyy_MM startDate) (month_count startDate endDate))),
           b.
    unfold getMonthlyReportData. fold entries. rewrite Hinit.
    split; [reflexivity|]. split; [now apply (toArray_In _ _ k)|].
    split; [exact Hl|]. split; [exact Hc|].
    rewrite Hv. fold counted. destruct counted; [destruct Hc | reflexivity].
Qed.

Lemma even_store_numbers : totals_are_numbers even_store.
Proof. intros e [<- | [<- | [<- | []]]]; discriminate. Qed.

Lemma monthly_report_adds_hours_witness :
  exists buckets b,
    getMonthlyReportData even_store (mkDate 2024 1 15 0 0) (mkDate 2024 1 20 0 0) None
      = Some buckets /\
    In b buckets /\
    Bucket.label b = "January 2024" /\
    Bucket.values b !! 2 = Some (ofZ 16).
Proof.
  destruct (monthly_report_adds_hours even_store (mkDate 2024 1 15 0 0)
              (mkDate 2024 1 20 0 0) None (worked 3 2 2 8))
    as (buckets & b & Hg & Hb & Hl & _ & Hv).
  - exact even_store_numbers.
  - right. right. now left.
  - discriminate.
  - vm_compute. split; discriminate.
  - reflexivity.
  - exists buckets, b. split; [exact Hg|]. split; [exact Hb|]. split.
    + rewrite Hl. vm_compute. reflexivity.
    + cbv zeta in Hv. change (TimeEntry.employeeId (worked 3 2 2 8)) with 2 in Hv.
      rewrite Hv. apply Some_jsnum_eq. vm_compute. reflexivity.
Defined.

(* ===================================================================== *)
(** ** Employees: the last check-in and deactivation *)

Lemma orderByDesc_listed (l : list TimeEntry.t) :
  StronglySorted listed_before
    (orderByDesc TimeEntry.date (orderByDesc TimeEntry.createdAt l)).
Proof.
  unfold orderByDesc.
  eapply StronglySorted_weaken; [|apply orderBy_lex]. cbn beta.
  unfold listed_before. intros a b H. lia.
Qed.

(** The last check-in of an employee is the latest date among the entries
    of that employee, and there is none exactly when the employee has no
    entry. *)
Theorem lastCheckIn_latest_date (st : Store) (employeeId : Z) :
  match lastCheckIn st employeeId with
  | None => forall e, In e (timeEntries st) -> TimeEntry.employeeId e <> employeeId
  | Some d =>
      (exists e, In e (timeEntries st) /\ TimeEntry.employeeId e = employeeId /\
                 TimeEntry.date e = d) /\
      (forall e, In e (timeEntries st) -> TimeEntry.employeeId e = employeeId ->
                 TimeEntry.date e <= d)
  end.
Proof.
  unfold lastCheckIn, latestEntry.
  set (own := List.filter (fun e => TimeEntry.employeeId e =? employeeId) (timeEntries st)).
  pose proof (orderByDesc_listed own) as Hs.
  assert (forall e, In e (orderByDesc TimeEntry.date (orderByDesc TimeEntry.createdAt own))
                    <-> In e (timeEntries st) /\ TimeEntry.employeeId e = employeeId) as Hin.
  { intros e. unfold orderByDesc. rewrite !In_orderBy. unfold own.
    rewrite List.filter_In, Z.eqb_eq. reflexivity. }
  destruct (orderByDesc TimeEntry.date (orderByDesc TimeEntry.createdAt own)) as [|x l];
    cbn [head option_map].
  - intros e He Hid. apply (proj2 (Hin e)); [split; assumption].
  - inversion Hs as [|? ? _ Hx]; subst. rewrite List.Forall_forall in Hx. split.
    + exists x. destruct (proj1 (Hin x) (or_introl eq_refl)) as [H1 H2]. now repeat split.
    + intros e He Hid. destruct (proj2 (Hin e) (conj He Hid)) as [<- | Hl]; [lia|].
      specialize (Hx e Hl). unfold listed_before in Hx. lia.
Qed.

Lemma deactivated_rows (id : Z) (st : Store) :
  deactivated id st
  = mkStore (update_rows (fun e => Employee.id e =? id)
                         (set_employee_columns Deactivate.inactive) (employees st))
            (timeEntries st) (timeEntries_id_seq st).
Proof.
  unfold deactivated, updateEmployee, no_row.
  destruct (List.find (fun e => Employee.id e =? id) (employees st)) eqn:E;
    [reflexivity|].
  rewrite (update_rows_none _ _ _ E).
  destruct (int4 id); now destruct st.
Qed.

Lemma activeEmployees_deactivated (id : Z) (st : Store) :
  activeEmployees (deactivated id st)
  = List.filter (fun e => negb (Employee.id e =? id)) (activeEmployees st).
Proof.
  rewrite deactivated_rows. unfold activeEmployees, update_rows. cbn [employees].
  rewrite List.filter_app.
  assert (List.filter (fun e => String.eqb (Employee.status e) "active")
            (map (set_employee_columns Deactivate.inactive)
                 (List.filter (fun e => Employee.id e =? id) (employees st))) = []) as ->.
  { induction (List.filter (fun e => Employee.id e =? id) (employees st)) as [|x l IH];
      [reflexivity|]. cbn [map List.filter].
    cbn [set_employee_columns Deactivate.inactive PartialEmployee.status Employee.status].
    change (default (Employee.status x) (Some "inactive")) with "inactive".
    change ("inactive" =? "active")%string with false. cbn iota. exact IH. }
  rewrite app_nil_r.
  induction (employees st) as [|x l IH]; [reflexivity|]. cbn [List.filter].
  destruct (Employee.id x =? id) eqn:E; cbn [negb].
  - destruct (Employee.status x =? "active")%string; [|exact IH].
    cbn [List.filter]. rewrite E. exact IH.
  - cbn [List.filter].
    destruct (Employee.status x =? "active")%string; [|exact IH].
    cbn [List.filter]. rewrite E. cbn [negb]. now rewrite IH.
Qed.

Lemma getEmployeeById_deactivated (id j : Z) (st : Store) :
  getEmployeeById (deactivated id st) j
  = if j =? id
    then option_map (set_employee_columns Deactivate.inactive) (getEmployeeById st j)
    else getEmployeeById st j.
Proof.
  rewrite deactivated_rows. unfold getEmployeeById. cbn [employees].
  destruct (Z.eqb_spec j id) as [-> | NE].
  - now apply (find_update_rows Employee.id).
  - now apply (find_update_rows_other Employee.id).
Qed.

Lemma omap_filter {A B : Type} (f : A -> option B) (p : A -> bool) (q : B -> bool)
    (l : list A) :
  (forall x y, f x = Some y -> q y = p x) ->
  omap f (List.filter p l) = List.filter q (omap f l).
Proof.
  intros H. induction l as [|x l IH]; [reflexivity|]. cbn [List.filter omap list_omap].
  fold (omap f l). destruct (f x) as [y|] eqn:E.
  - cbn [List.filter]. rewrite (H x y E). destruct (p x).
    + cbn [omap list_omap]. fold (omap f (List.filter p l)). now rewrite E, IH.
    + exact IH.
  - destruct (p x); [|exact IH].
    cbn [omap list_omap]. fold (omap f (List.filter p l)). now rewrite E.
Qed.

Lemma chart_deactivated (id : Z) (st : Store) (startDate endDate : Z)
    (employeeId : option Z) :
  getDailyReportData (deactivated id st) startDate endDate employeeId
    = getDailyReportData st startDate endDate employeeId /\
  getWeeklyReportData (deactivated id st) startDate endDate employeeId
    = getWeeklyReportData st startDate endDate employeeId /\
  getMonthlyReportData (deactivated id st) startDate endDate employeeId
    = getMonthlyReportData st startDate endDate employeeId.
Proof.
  rewrite deactivated_rows.
  unfold getDailyReportData, getWeeklyReportData, getMonthlyReportData, chartEntries.
  cbn [timeEntries]. split; [reflexivity|]. split; reflexivity.
Qed.

Lemma summary_deactivated_all (id : Z) (st : Store) (startDate endDate : Z)
    (employeeId : option Z) :
  employee_filter employeeId = None ->
  getEmployeeSummaryData (deactivated id st) startDate endDate employeeId
  = List.filter (fun r => negb (SummaryRow.employeeId r =? id))
      (getEmployeeSummaryData st startDate endDate employeeId).
Proof.
  intros Hf. unfold getEmployeeSummaryData. rewrite Hf, activeEmployees_deactivated.
  rewrite deactivated_rows. cbn [timeEntries].
  apply omap_filter. intros x y.
  destruct (List.filter _ (timeEntries st)); [discriminate|].
  intros H. inversion H; subst. reflexivity.
Qed.

Lemma summary_deactivated_one (id : Z) (st : Store) (startDate endDate : Z)
    (employeeId : option Z) :
  employee_filter employeeId <> None ->
  getEmployeeSummaryData (deactivated id st) startDate endDate employeeId
  = getEmployeeSummaryData st startDate endDate employeeId.
Proof.
  intros Hf. unfold getEmployeeSummaryData.
  destruct (employee_filter employeeId) as [i|]; [|now destruct Hf].
  rewrite getEmployeeById_deactivated. rewrite deactivated_rows. cbn [timeEntries].
  destruct (i =? id); [|reflexivity].
  destruct (getEmployeeById st i) as [e|]; reflexivity.
Qed.

(** Deactivating an employee touches no time entry and no other employee.
    The employee then counts no longer among the active ones, and has no
    row in the summary of a report for all employees, whose totals shrink
    accordingly; the chart of every report is unchanged, so it still shows
    the hours of the employee; and a report filtered on the employee has
    the summary it had.  The endpoint answers 200 with the employee, now
    inactive; where there is none of that id it answers 404 when the id is
    one that the id column can hold and 500 when it is not, the statement
    failing then, and leaves the store as it was. *)
Theorem deactivation_in_reports (id : Z) (body : Route.Body) (st : Store) :
  let answer := Deactivate.patch_deactivate (Route.mkRequest true (Some id) body) st in
  let st' := snd answer in
  (timeEntries st' = timeEntries st /\
   timeEntries_id_seq st' = timeEntries_id_seq st) /\
  (forall j, getEmployeeById st' j
             = if j =? id
               then option_map (set_employee_columns Deactivate.inactive)
                               (getEmployeeById st j)
               else getEmployeeById st j) /\
  fst answer
    = match getEmployeeById st id with
      | Some e =>
          Deactivate.mkResponse 200
            (Deactivate.Body (Employee.mk (Employee.id e) (Employee.name e) (Employee.email e)
                                (Employee.position e) "inactive")
               (lastCheckIn st (Employee.id e)))
      | None =>
          if int4 id
          then Deactivate.mkResponse 404 (Deactivate.Error "Employee not found")
          else Deactivate.mkResponse 500 (Deactivate.Error "Failed to deactivate employee")
      end /\
  (getEmployeeById st id = None -> st' = st) /\
  activeEmployees st'
    = List.filter (fun e => negb (Employee.id e =? id)) (activeEmployees st) /\
  (forall startDate endDate employeeId,
      getDailyReportData st' startDate endDate employeeId
        = getDailyReportData st startDate endDate employeeId /\
      getWeeklyReportData st' startDate endDate employeeId
        = getWeeklyReportData st startDate endDate employeeId /\
      getMonthlyReportData st' startDate endDate employeeId
        = getMonthlyReportData st startDate endDate employeeId /\
      getEmployeeSummaryData st' startDate endDate employeeId
        = match employee_filter employeeId with
          | None => List.filter (fun r => negb (SummaryRow.employeeId r =? id))
                      (getEmployeeSummaryData st startDate endDate employeeId)
          | Some _ => getEmployeeSummaryData st startDate endDate employeeId
          end).
Proof.
  cbn zeta.
  assert (snd (Deactivate.patch_deactivate (Route.mkRequest true (Some id) body) st)
          = deactivated id st) as Hst.
  { unfold Deactivate.patch_deactivate, deactivated.
    cbn [Route.isAuthenticated Route.params_id negb].
    now destruct (updateEmployee id Deactivate.inactive st) as [[[[e l]|] st']|]. }
  rewrite Hst. split; [now rewrite deactivated_rows|].
  split; [intros j; apply getEmployeeById_deactivated|].
  split.
  { unfold Deactivate.patch_deactivate, updateEmployee, getEmployeeById, no_row.
    cbn [Route.isAuthenticated Route.params_id negb].
    destruct (List.find (fun e => Employee.id e =? id) (employees st)) as [e|];
      [reflexivity|].
    now destruct (int4 id). }
  split.
  { unfold deactivated, updateEmployee, getEmployeeById, no_row. intros ->.
    now destruct (int4 id). }
  split; [apply activeEmployees_deactivated|].
  intros startDate endDate employeeId.
  destruct (chart_deactivated id st startDate endDate employeeId) as (-> & -> & ->).
  repeat split.
  destruct (employee_filter employeeId) as [i|] eqn:Hf.
  - apply summary_deactivated_one. now rewrite Hf.
  - now apply summary_deactivated_all.
Qed.

(* ===================================================================== *)
(** ** The report as a whole *)

Lemma generateReport_parts (now : Z) (filters : ReportFilters.t) (st : Store) :
  let startDate := default (subDays now 7) (ReportFilters.dateFrom filters) in
  let endDate := default now (ReportFilters.dateTo filters) in
  let employeeId := ReportFilters.employeeId filters in
  let rt := ReportFilters.reportType filters in
  exists r,
    generateReport now filters st = Some r /\
    Report.summaryData r = getEmployeeSummaryData st startDate endDate employeeId /\
    Report.employeeTotals r = calculateTotals (Report.summaryData r) /\
    Report.employees r = activeEmployees st /\
    Report.dateRange r = (startDate, endDate) /\
    Report.title r
      = (if String.eqb rt "daily" then "Daily Summary"
         else if String.eqb rt "weekly" then "Weekly Summary"
         else if String.eqb rt "monthly" then "Monthly Summary"
         else "Custom Range Summary") /\
    Some (Report.chartData r)
      = (if String.eqb rt "daily" then getDailyReportData st startDate endDate employeeId
         else if String.eqb rt "weekly"
              then getWeeklyReportData st startDate endDate employeeId
         else if String.eqb rt "monthly"
              then getMonthlyReportData st startDate endDate employeeId
         else getDailyReportData st startDate endDate employeeId).
Proof.
  cbn zeta. unfold generateReport.
  set (startDate := default (subDays now 7) (ReportFilters.dateFrom filters)).
  set (endDate := default now (ReportFilters.dateTo filters)).
  set (emp := ReportFilters.employeeId filters).
  destruct (getDailyReportData_total st startDate endDate emp) as (bd & Hd & _).
  destruct (getWeeklyReportData_total st startDate endDate emp) as (bw & Hw).
  destruct (getMonthlyReportData_total st startDate endDate emp) as (bm & Hm).
  unfold getCustomReportData.
  destruct (String.eqb _ "daily"); [rewrite Hd; eexists; repeat split|].
  destruct (String.eqb _ "weekly"); [rewrite Hw; eexists; repeat split|].
  destruct (String.eqb _ "monthly"); [rewrite Hm; eexists; repeat split|].
  rewrite Hd. eexists. repeat split.
Qed.


(** Without dates a report covers the seven days before now and today:
    its range runs from a week ago, at the time of day of now, to now, and
    its daily chart has eight buckets, one for each of these days. *)
Theorem report_default_range (now : Z) (reportType : string) (employeeId : option Z)
    (st : Store) :
  String.eqb reportType "weekly" = false ->
  String.eqb reportType "monthly" = false ->
  exists r,
    generateReport now (ReportFilters.mk reportType None None employeeId) st = Some r /\
    Report.dateRange r = (now - 7 * msPerDay, now) /\
    map Bucket.label (Report.chartData r) = map day_label (Zrange (dayOf now - 7) 8).
Proof.
  intros Hw Hm.
  destruct (generateReport_parts now (ReportFilters.mk reportType None None employeeId) st)
    as (r & Hr & _ & _ & _ & Hd & _ & Hchart).
  cbn zeta in *. cbn [ReportFilters.dateFrom ReportFilters.dateTo ReportFilters.employeeId
                      ReportFilters.reportType] in *.
  change (default (subDays now 7) None) with (subDays now 7) in *.
  change (default now None) with now in *.
  exists r. split; [exact Hr|]. split.
  { rewrite Hd. unfold subDays, addDays. f_equal. }
  rewrite Hw, Hm in Hchart.
  assert (Some (Report.chartData r) = getDailyReportData st (subDays now 7) now employeeId)
    as Hc by (destruct (String.eqb reportType "daily"); exact Hchart).
  destruct (daily_report_every_day st (subDays now 7) now employeeId)
    as (buckets & Hb & Hl & _).
  - unfold subDays, addDays, msPerDay. lia.
  - unfold subDays. rewrite timeOfDay_addDays. lia.
  - rewrite Hb in Hc. inversion Hc; subst. rewrite Hl.
    unfold calendar_days, days_from, Zrange, subDays. rewrite dayOf_addDays.
    replace (Z.to_nat (dayOf now - (dayOf now + - (7)) + 1)) with 8%nat by lia.
    reflexivity.
Qed.

Lemma report_default_range_witness :
  exists r,
    generateReport (mkDate 2024 1 10 14 0) (ReportFilters.mk "daily" None None None)
                   even_store = Some r /\
    Report.dateRange r = (mkDate 2024 1 10 14 0 - 7 * msPerDay, mkDate 2024 1 10 14 0) /\
    map Bucket.label (Report.chartData r)
      = map day_label (Zrange (dayOf (mkDate 2024 1 10 14 0) - 7) 8).
Proof.
  exact (report_default_range (mkDate 2024 1 10 14 0) "daily" None even_store
           eq_refl eq_refl).
Defined.

(** ** Clocking in and out *)

(** Clocking in at [h]:[m] and checking out later, for an employee that
    exists, with a break of at most a day, while the sequence has an id to
    give: the entry is created open, without total hours; the check-out
    closes it with the time of the clock, and its total hours are the time
    from the check-in to the check-out on the clock, a check-out at or
    before the time of the check-in counting as next day's, less the
    break.  (The rounding of the decimal column is not represented.) *)
Theorem clock_in_then_check_out (created now h m : Z) (data : InsertTimeEntry.t)
    (st : Store) :
  ids_below_seq st ->
  0 <= h < 24 -> 0 <= m < 60 ->
  InsertTimeEntry.checkInTime data = Some (hhmm h m) ->
  truthy_ostr (InsertTimeEntry.checkOutTime data) = false ->
  int4 (timeEntries_id_seq st) = true ->
  getEmployeeById st (InsertTimeEntry.employeeId data) <> None ->
  0 <= default 0 (InsertTimeEntry.breakMinutes data) <= 24 * 60 ->
  exists e n st1 e' st2,
    createTimeEntry created data st = Resolved ((e, n), st1) /\
    TimeEntry.checkInTime e = time12 (hour12 h) m (12 <=? h) /\
    TimeEntry.checkOutTime e = None /\
    TimeEntry.totalHours e = None /\
    checkoutTimeEntry now (TimeEntry.id e) st1
      = Resolved (Some (withEmployeeName st2 e'), st2) /\
    findTimeEntry st2 (TimeEntry.id e) = Some e' /\
    TimeEntry.checkInTime e' = TimeEntry.checkInTime e /\
    TimeEntry.checkOutTime e' = Some (checkout_time now) /\
    TimeEntry.totalHours e'
      = Some (div (ofZ (elapsedMinutes (60 * h + m) (60 * getHours now + getMinutes now)
                        - default 0 (InsertTimeEntry.breakMinutes data)))
                  (ofZ 60)).
Proof.
  intros Hseq Hh Hm Hci Hco Hid4 Hemp Hbreak.
  destruct (formatTime_hhmm h m Hh Hm) as (Hfmt & _ & Hmin12 & _ & Htr12 & _).
  destruct (formatTime_hhmm (getHours now) (getMinutes now)
              (getHours_range now) (getMinutes_range now))
    as (_ & _ & _ & Hmin_now & _ & Htr_now).
  assert (int4 (timeEntries_id_seq st)
          && writable st (Some (InsertTimeEntry.employeeId data))
                      (Some (default 0 (InsertTimeEntry.breakMinutes data))) = true)
    as Hguard.
  { rewrite Hid4. unfold writable, employee_exists.
    assert (int4 (default 0 (InsertTimeEntry.breakMinutes data)) = true) as ->
      by (unfold int4; apply andb_true_iff; rewrite !Z.leb_le; lia).
    now destruct (getEmployeeById st (InsertTimeEntry.employeeId data)). }
  destruct (createTimeEntry created data st) as [[[e n] st1]|] eqn:Hcreate.
  - pose proof Hcreate as Hfields. unfold createTimeEntry in Hfields.
    rewrite Hci, Hco in Hfields. change (default "" (Some ?c)) with c in Hfields.
    rewrite Hfmt, Hguard in Hfields. cbn [withEmployeeName] in Hfields.
    assert (e = TimeEntry.mk (timeEntries_id_seq st) (InsertTimeEntry.employeeId data)
                  (InsertTimeEntry.date data) (time12 (hour12 h) m (12 <=? h)) None
                  (Some (default 0 (InsertTimeEntry.breakMinutes data))) None
                  (default created (InsertTimeEntry.createdAt data))
                  (default created (InsertTimeEntry.updatedAt data))) as He
      by (inversion Hfields; reflexivity).
    destruct (createTimeEntry_row _ _ _ _ _ _ Hcreate) as (Hid & Hst1 & _).
    assert (findTimeEntry st1 (TimeEntry.id e) = Some e) as Hfind.
    { rewrite Hst1. unfold findTimeEntry. cbn [timeEntries].
      rewrite find_app_none by (rewrite Hid; now apply findTimeEntry_fresh).
      cbn [List.find]. now rewrite Z.eqb_refl. }
    assert (truthy_ostr (TimeEntry.checkOutTime e) = false) as Hopen by (now rewrite He).
    destruct (checkoutTimeEntry_open_row now (TimeEntry.id e) st1 e Hfind Hopen)
      as [Hres Hnew].
    cbv zeta in Hres, Hnew.
    exists e, n, st1. eexists. eexists.
    split; [reflexivity|]. split; [now rewrite He|]. split; [now rewrite He|].
    split; [now rewrite He|]. split; [exact Hres|]. split; [exact Hnew|].
    cbn [set_columns TimeEntry.checkInTime TimeEntry.checkOutTime TimeEntry.totalHours].
    split; [reflexivity|]. split; [reflexivity|].
    rewrite He. cbn [TimeEntry.checkInTime TimeEntry.breakMinutes].
    rewrite Htr12. change (default 0 (Some ?b)) with b.
    now apply calculateTotalHours_of_minutes.
  - exfalso. unfold createTimeEntry in Hcreate.
    rewrite Hci, Hco in Hcreate. change (default "" (Some ?c)) with c in Hcreate.
    rewrite Hfmt, Hguard in Hcreate. discriminate.
Qed.

Lemma clock_in_then_check_out_witness :
  exists e n st1 e' st2,
    createTimeEntry 0 clock_in_at_nine closed_store = Resolved ((e, n), st1) /\
    checkoutTimeEntry (mkDate 2024 1 3 17 30) (TimeEntry.id e) st1
      = Resolved (Some (withEmployeeName st2 e'), st2) /\
    TimeEntry.totalHours e' = Some (ofZ 8).
Proof.
  destruct (clock_in_then_check_out 0 (mkDate 2024 1 3 17 30) 9 0 clock_in_at_nine
              closed_store closed_store_ids_below_seq)
    as (e & n & st1 & e' & st2 & Hc & _ & _ & _ & Ho & _ & _ & _ & Ht);
    [lia | lia | reflexivity | reflexivity | reflexivity | discriminate | cbn; lia |].
  exists e, n, st1, e', st2. split; [exact Hc|]. split; [exact Ho|].
  rewrite Ht. apply Some_jsnum_eq. vm_compute. reflexivity.
Defined.

(** ** The weekly chart and the summary *)

Lemma omap_ext_eq {A B : Type} (f g : A -> option B) (l : list A) :
  (forall x, f x = g x) -> omap f l = omap g l.
Proof.
  intros H. induction l as [|x l IH]; [reflexivity|]. cbn [omap list_omap].
  fold (omap f l) (omap g l). now rewrite H, IH.
Qed.

Lemma between_days (startDate endDate x : Z) :
  between x (startOfDay startDate) (endOfDay endDate)
  = bool_decide (dayOf startDate <= dayOf x <= dayOf endDate).
Proof.
  unfold between. destruct (bool_decide (dayOf startDate <= dayOf x <= dayOf endDate)) eqn:E.
  - apply bool_decide_eq_true in E. apply andb_true_iff.
    rewrite !Z.leb_le. date_arith.
  - apply bool_decide_eq_false in E. apply andb_false_iff.
    rewrite !Z.leb_gt. date_unfold. Z.div_mod_to_equations. lia.
Qed.

Lemma summary_within_days (st : Store) (startDate endDate : Z) (employeeId : option Z) :
  getEmployeeSummaryData (within_days startDate endDate st) startDate endDate employeeId
  = getEmployeeSummaryData st startDate endDate employeeId.
Proof.
  unfold getEmployeeSummaryData, within_days, activeEmployees, getEmployeeById.
  cbn [employees timeEntries]. apply omap_ext_eq. intros employee.
  assert (forall l : list TimeEntry.t,
            List.filter (fun e => (TimeEntry.employeeId e =? Employee.id employee)
                                  && between (TimeEntry.date e) (startOfDay startDate)
                                             (endOfDay endDate))
              (List.filter (fun x => bool_decide (dayOf startDate <= dayOf (TimeEntry.date x)
                                                  <= dayOf endDate)) l)
            = List.filter (fun e => (TimeEntry.employeeId e =? Employee.id employee)
                                    && between (TimeEntry.date e) (startOfDay startDate)
                                               (endOfDay endDate)) l) as Hsame.
  { induction l as [|x l IH]; [reflexivity|]. cbn [List.filter].
    rewrite between_days.
    destruct (bool_decide (dayOf startDate <= dayOf (TimeEntry.date x) <= dayOf endDate))
      eqn:E.
    - cbn [List.filter]. rewrite between_days, E, IH. reflexivity.
    - rewrite andb_false_r. exact IH. }
  now rewrite Hsame.
Qed.

(** The weekly chart counts whole weeks: it adds up, by week and employee,
    the hours of every entry with total hours that lies within the widened
    range, from the Monday of the week of [dateFrom] to the Sunday of the
    week of [dateTo], also of an entry before [dateFrom] or after [dateTo].
    The summary of the same report takes the entries from the day of
    [dateFrom] to the day of [dateTo] only: it is the summary of the store
    without the others. *)
Theorem weekly_chart_counts_whole_weeks (st : Store) (startDate endDate : Z)
    (employeeId : option Z) (e : TimeEntry.t) :
  totals_are_numbers st ->
  In e (timeEntries st) ->
  TimeEntry.totalHours e <> None ->
  startOfWeek 1 startDate <= TimeEntry.date e <= endOfWeek 1 endDate ->
  matches_employee employeeId e = true ->
  let w := week_key (TimeEntry.date e) in
  let counted :=
    List.filter (relevant week_key w (TimeEntry.employeeId e))
      (chartEntries st (startOfWeek 1 startDate) (endOfWeek 1 endDate) employeeId) in
  (exists buckets b,
     getWeeklyReportData st startDate endDate employeeId = Some buckets /\
     In b buckets /\
     Bucket.label b = short_date w ++ " - " ++ short_date (w + 6) /\
     In e counted /\
     Bucket.values b !! TimeEntry.employeeId e = Some (sumJ (map hoursOr0 counted))) /\
  getEmployeeSummaryData st startDate endDate employeeId
  = getEmployeeSummaryData (within_days startDate endDate st) startDate endDate employeeId.
Proof.
  intros Hnum Hin Hh Hrange Hmatch w counted. split; [|now rewrite summary_within_days].
  destruct (weekly_init_weeks startDate endDate) as (M & Hinit & HM).
  set (entries := chartEntries st (startOfWeek 1 startDate) (endOfWeek 1 endDate) employeeId)
    in *.
  rewrite startOfWeek_monday, endOfWeek_monday in Hrange.
  assert (mondayOf (dayOf startDate) <= dayOf (TimeEntry.date e)
          <= mondayOf (dayOf endDate) + 6) as Hdays by date_arith.
  assert (In e entries) as He.
  { apply In_chartEntries. split; [exact Hin|]. split; [|exact Hmatch].
    rewrite startOfWeek_monday, endOfWeek_monday. date_arith. }
  assert (In e counted) as Hc.
  { apply filter_In. split; [exact He|]. unfold relevant.
    rewrite bool_decide_eq_true_2 by exact Hh. now rewrite !Z.eqb_refl. }
  assert (In w (mondays_from (mondayOf (dayOf startDate)) (week_count startDate endDate)))
    as Hw.
  { apply In_mondays_from. unfold w. rewrite week_key_monday. unfold week_count.
    pose proof (mondayOf_isMonday (dayOf startDate)) as H1.
    pose proof (mondayOf_isMonday (dayOf endDate)) as H2.
    pose proof (mondayOf_isMonday (dayOf (TimeEntry.date e))) as H3.
    pose proof (mondayOf_week (dayOf (TimeEntry.date e))).
    unfold isMonday in *.
    exists (Z.to_nat ((mondayOf (dayOf (TimeEntry.date e)) - mondayOf (dayOf startDate)) / 7)).
    Z.div_mod_to_equations. lia. }
  destruct (chart_value week_key M entries w (TimeEntry.employeeId e) (week_bucket w))
    as (b & Hb & Hl & Hv).
  - now apply HM.
  - reflexivity.
  - apply List.Forall_forall. intros x Hx. apply In_chartEntries in Hx. now apply Hnum.
  - exists (toArray (populate week_key M entries)
              (mondays_from (mondayOf (dayOf startDate)) (week_count startDate endDate))),
           b.
    unfold getWeeklyReportData. fold entries. rewrite Hinit.
    split; [reflexivity|]. split; [now apply (toArray_In _ _ w)|].
    split; [exact Hl|]. split; [exact Hc|].
    rewrite Hv. fold counted. destruct counted; [destruct Hc | reflexivity].
Qed.

Lemma weekly_chart_counts_whole_weeks_witness :
  exists buckets b,
    getWeeklyReportData even_store (mkDate 2024 1 3 0 0) (mkDate 2024 1 4 0 0) None
      = Some buckets /\
    In b buckets /\
    Bucket.label b = "Jan 1 - Jan 7" /\
    Bucket.values b !! 2 = Some (ofZ 16) /\
    getEmployeeSummaryData even_store (mkDate 2024 1 3 0 0) (mkDate 2024 1 4 0 0) None = [].
Proof.
  destruct (weekly_chart_counts_whole_weeks even_store (mkDate 2024 1 3 0 0)
              (mkDate 2024 1 4 0 0) None (worked 3 2 2 8))
    as ((buckets & b & Hg & Hb & Hl & _ & Hv) & Hs).
  - exact even_store_numbers.
  - right. right. now left.
  - discriminate.
  - vm_compute. split; discriminate.
  - reflexivity.
  - exists buckets, b. split; [exact Hg|]. split; [exact Hb|]. split; [|split].
    + rewrite Hl. vm_compute. reflexivity.
    + cbv zeta in Hv. change (TimeEntry.employeeId (worked 3 2 2 8)) with 2 in Hv.
      rewrite Hv. apply Some_jsnum_eq. vm_compute. reflexivity.
    + rewrite Hs. vm_compute. reflexivity.
Defined.

(** ** The filter of the list of entries *)

(** The filter of [getTimeEntries] goes by calendar days: an entry passes
    when its day is not before the day of [dateFrom] and not after the day
    of [dateTo], whatever the times of day, and when it is of the employee
    asked for.  An employee id of 0 asks for no employee in particular. *)
Theorem getTimeEntries_filter_by_days (filters : TimeEntriesFilter.t) (e : TimeEntry.t) :
  whereClause filters e = true <->
  (forall dateFrom, TimeEntriesFilter.dateFrom filters = Some dateFrom ->
                    dayOf dateFrom <= dayOf (TimeEntry.date e)) /\
  (forall dateTo, TimeEntriesFilter.dateTo filters = Some dateTo ->
                  dayOf (TimeEntry.date e) <= dayOf dateTo) /\
  (forall employeeId, TimeEntriesFilter.employeeId filters = Some employeeId ->
                      employeeId <> 0 -> TimeEntry.employeeId e = employeeId).
Proof.
  unfold whereClause. rewrite andb_true_iff.
  assert ((match TimeEntriesFilter.employeeId filters with
           | Some employeeId =>
               if employeeId =? 0 then true else TimeEntry.employeeId e =? employeeId
           | None => true
           end = true) <->
          (forall employeeId, TimeEntriesFilter.employeeId filters = Some employeeId ->
                              employeeId <> 0 -> TimeEntry.employeeId e = employeeId)) as He.
  { destruct (TimeEntriesFilter.employeeId filters) as [i|]; [|split; [discriminate | auto]].
    destruct (Z.eqb_spec i 0) as [-> | Hne].
    - split; [|auto]. intros _ j Hj Hj0. congruence.
    - rewrite Z.eqb_eq. split.
      + intros H j Hj _. congruence.
      + intros H. now apply H. }
  rewrite He.
  destruct (TimeEntriesFilter.dateFrom filters) as [f|],
           (TimeEntriesFilter.dateTo filters) as [t|].
  - rewrite between_days, bool_decide_eq_true. split.
    + intros [[H1 H2] H3]. repeat split; auto; intros x Hx; inversion Hx; subst; assumption.
    + intros (H1 & H2 & H3). split; [split; auto | exact H3].
  - rewrite Z.leb_le. split.
    + intros [H1 H3]. split; [|split; [discriminate | exact H3]].
      intros x Hx. inversion Hx; subst. date_arith.
    + intros (H1 & _ & H3). split; [|exact H3]. specialize (H1 f eq_refl). date_arith.
  - rewrite Z.leb_le. split.
    + intros [H1 H3]. split; [discriminate|]. split; [|exact H3].
      intros x Hx. inversion Hx; subst. date_arith.
    + intros (_ & H2 & H3). split; [|exact H3]. specialize (H2 t eq_refl). date_arith.
  - split; [|tauto]. intros [_ H3]. split; [discriminate|]. split; [discriminate | exact H3].
Qed.

(** ** Weekends *)

(** [isWeekend] holds of the sixth and the seventh day of the week that
    starts on Monday, and of no other; it goes by the calendar day alone,
    and in any seven days in a row exactly two are weekend days. *)
Theorem isWeekend_sixth_and_seventh_day (t : Z) :
  (isWeekend t = true <-> dayOf t = mondayOf (dayOf t) + 5 \/ dayOf t = mondayOf (dayOf t) + 6) /\
  (forall t', dayOf t' = dayOf t -> isWeekend t' = isWeekend t) /\
  isWeekend (addDays t 7) = isWeekend t /\
  length (List.filter (fun i => isWeekend (addDays t i)) (Zrange 0 7)) = 2%nat.
Proof.
  assert (forall x, isWeekend x = true <->
                    dayOf x = mondayOf (dayOf x) + 5 \/ dayOf x = mondayOf (dayOf x) + 6) as H.
  { intros x. unfold isWeekend, getDay, mondayOf. rewrite orb_true_iff, !Z.eqb_eq.
    Z.div_mod_to_equations. lia. }
  split; [apply H|]. split; [|split].
  - intros t' Ht. unfold isWeekend, getDay. now rewrite Ht.
  - unfold isWeekend, getDay. rewrite dayOf_addDays.
    replace (dayOf t + 7 + 4) with (dayOf t + 4 + 1 * 7) by lia. now rewrite Z.mod_add.
  - unfold isWeekend, getDay, Zrange. cbn [seq map List.filter].
    rewrite !dayOf_addDays.
    assert (0 <= (dayOf t + 4) mod 7 < 7) as Hr by (apply Z.mod_pos_bound; lia).
    assert (forall i, 0 <= i < 7 ->
              (dayOf t + (0 + i) + 4) mod 7
              = if (dayOf t + 4) mod 7 + i <? 7 then (dayOf t + 4) mod 7 + i
                else (dayOf t + 4) mod 7 + i - 7) as Hi.
    { intros i Hi. destruct (Z.ltb_spec ((dayOf t + 4) mod 7 + i) 7);
        Z.div_mod_to_equations; lia. }
    change (Z.of_nat 0) with 0. change (Z.of_nat 1) with 1. change (Z.of_nat 2) with 2.
    change (Z.of_nat 3) with 3. change (Z.of_nat 4) with 4. change (Z.of_nat 5) with 5.
    change (Z.of_nat 6) with 6.
    rewrite !Hi by lia. set (r := (dayOf t + 4) mod 7) in *.
    assert (r = 0 \/ r = 1 \/ r = 2 \/ r = 3 \/ r = 4 \/ r = 5 \/ r = 6) as Hc by lia.
    clearbody r. repeat (destruct Hc as [-> | Hc]); try subst r; reflexivity.
Qed.
